(** * forestryTree: a model of the honest random-forest tree builder

    The development follows [forestryTree.cpp]: the constructor and its
    sanity checks, the partition step, the monotone bound update, the
    recursive partitioner, the out-of-bag index computations and the
    flat-record (de)serialisation.

    C++ [size_t] and [int] values are integers of [Z]; their arithmetic is
    wrapped where the source can make it wrap (the product of the four
    partition sizes, the shifts of the sample indices between base 0 and
    base 1, the node entries of a flat record), and left as it is for
    counters that stay below the size of a vector (depths, NA counts, node
    ids).  [double] is the binary64 type of the kernel, with its NaN and
    its comparisons; [std::vector] is [list]; a [std::set] is a [gset].
    A function whose source reads a vector out of its range, or follows a
    null pointer, has no result there ([None]); a loop without a bound in
    the source counts its iterations against a [fuel]. *)

From Stdlib Require Import ZArith List Lia Bool Permutation Sorted.
From Stdlib Require Import Floats.
From stdpp Require Import gmap sorting.
Import ListNotations.
Open Scope Z_scope.

(* ===================================================================== *)
(** * Part I.  The model                                                  *)
(* ===================================================================== *)

(** ** Machine values *)

Abbreviation double := float (only parsing).

(** Conversion of an integer to [size_t] (64 bits, unsigned). *)
Definition to_size_t (z : Z) : Z := z mod 2 ^ 64.

(** Conversion of an integer to [int] (32 bits, two's complement). *)
Definition to_int (z : Z) : Z := (z + 2 ^ 31) mod 2 ^ 32 - 2 ^ 31.

Definition is_size_t (z : Z) : bool := (0 <=? z) && (z <? 2 ^ 64).
Definition is_int (z : Z) : bool := (- 2 ^ 31 <=? z) && (z <? 2 ^ 31).
Definition is_unsigned_int (z : Z) : bool := (0 <=? z) && (z <? 2 ^ 32).

(** [v.size()] and [v[i]]; reading outside the vector is undefined
    behaviour and has no result. *)
Definition vsize {A : Type} (v : list A) : Z := Z.of_nat (length v).

Definition vat {A : Type} (v : list A) (i : Z) : option A :=
  if i <? 0 then None else nth_error v (Z.to_nat i).

(** Conversion of a [size_t] to [double] (exact below 2^53, and the sizes
    met here are vector sizes). *)
Definition double_of_size_t (z : Z) : double := PrimFloat.of_uint63 (Uint63.of_Z z).

Definition isnan (x : double) : bool := PrimFloat.is_nan x.

(** [std::numeric_limits<double>::max()]. *)
Definition DBL_MAX : double := 0x1.fffffffffffffp1023%float.

(** Armadillo column vectors and matrices of doubles (a matrix is the list
    of its rows). *)
Definition arma_col : Type := list double.
Definition arma_mat : Type := list (list double).

(** ** The training data (consumed interface) *)

(** Modelled from the spec: [DataFrame] (DataFrame.h and DataFrame.cpp are
    not among the sources).  The record lists the accessors that
    [forestryTree.cpp] calls; [partitionMean] is the arithmetic mean of the
    outcomes over the given rows. *)
Record DataFrame : Type := {
  getPoint : Z -> Z -> double;
  getOutcomePoint : Z -> double;
  getLinObsData : Z -> list double;
  getNumColumns : Z;
  getNumRows : Z;
  getCatCols : list Z;
  getNumCols : list Z;
  getfeatureWeights : list double;
  getfeatureWeightsVariables : list Z;
  getdeepFeatureWeights : list double;
  getdeepFeatureWeightsVariables : list Z;
  getMonotonicConstraints : list Z;
  getMonotoneAvg : bool;
  getGroups : list Z;
  partitionMean : list Z -> double
}.

(** ** Nodes and trees *)

(** A node as the partitioner and the deserialiser set it: [setLeafNode]
    stores the two counts, the node id and the weight (and
    [setRidgeCoefficients] the coefficients of a linear leaf);
    [setSplitNode] stores the split, the children, the NA counts and the
    default NA direction.  No call gives a split node an id. *)
Inductive RFNode : Type :=
| Leaf (averageCount splitCount nodeId : Z) (weight : double)
       (ridgeCoefficients : option (list double))
| SplitNode (splitFeature : Z) (splitValue : double)
            (leftChild rightChild : RFNode)
            (naLeftCount naRightCount : Z) (naDefaultDirection : Z).

Record forestryTree : Type := {
  _mtry : Z;
  _minNodeSizeSpt : Z;
  _minNodeSizeAvg : Z;
  _minNodeSizeToSplitSpt : Z;
  _minNodeSizeToSplitAvg : Z;
  _minSplitGain : double;
  _maxDepth : Z;
  _interactionDepth : Z;
  _averagingSampleIndex : list Z;
  _splittingSampleIndex : list Z;
  _root : option RFNode;
  _nodeCount : Z;
  _hasNas : bool;
  _naDirection : bool;
  _linear : bool;
  _overfitPenalty : double;
  _seed : Z
}.

Record monotonic_info : Type := {
  monotonic_constraints : list Z;
  upper_bound : double;
  lower_bound : double;
  monotoneAvg : bool
}.

(** The flat record of a tree (spec, section 6). *)
Record tree_info : Type := {
  var_ids : list Z;
  split_vals : list double;
  naLeftCounts : list Z;
  naRightCounts : list Z;
  naDefaultDirections : list Z;
  averagingSampleIndex : list Z;
  splittingSampleIndex : list Z;
  weights : list double;
  seed : Z
}.

(** ** Code outside the sources *)

(** The standard library's random engine and the split-search kernels of
    [treeSplitting.cpp] are not among the sources.  They are taken as
    parameters: each is a function of its arguments and of the state of the
    generator it is handed, and returns what it writes through its
    reference parameters.  A kernel writes to the per-feature arrays it is
    handed (and to the generator) and to nothing else; [determineBestSplit]
    assigns all four of its results. *)

(** The per-feature running bests that [selectBestFeature] allocates. *)
Record best_arrays : Type := {
  bestSplitLossAll : list double;
  bestSplitValueAll : list double;
  bestSplitFeatureAll : list Z;
  bestSplitCountAll : list Z
}.

Class Collaborators : Type := {
  (** [std::mt19937_64], seeding an engine, and one draw of a
      [std::discrete_distribution] built from the given weights. *)
  mt19937_64 : Type;
  seeded_engine : Z -> mt19937_64;
  discrete_distribution : list double -> mt19937_64 -> Z * mt19937_64;
  (** [calculateMonotonicBound(mean, monotone_details)]. *)
  calculateMonotonicBound : double -> monotonic_info -> double;
  (** [calculateRSS(trainingData, index, overfitPenalty, generator)]. *)
  calculateRSS : DataFrame -> list Z -> double -> mt19937_64 -> double * mt19937_64;
  (** The coefficients [RFNode::setRidgeCoefficients] stores. *)
  ridgeCoefficientsOf : list Z -> DataFrame -> double -> list double;
  (** The six kernels; the ridge kernels are not handed the NA-direction
      array. *)
  findBestSplitRidgeCategorical :
    list Z -> list Z -> Z -> Z -> best_arrays -> DataFrame -> Z -> Z ->
    mt19937_64 -> double -> option arma_mat -> option arma_col ->
    best_arrays * mt19937_64;
  findBestSplitImputeCategorical :
    list Z -> list Z -> Z -> Z -> best_arrays -> list Z -> DataFrame -> Z -> Z ->
    mt19937_64 -> Z -> best_arrays * list Z * mt19937_64;
  findBestSplitValueCategorical :
    list Z -> list Z -> Z -> Z -> best_arrays -> DataFrame -> Z -> Z ->
    mt19937_64 -> Z -> best_arrays * mt19937_64;
  findBestSplitRidge :
    list Z -> list Z -> Z -> Z -> best_arrays -> DataFrame -> Z -> Z ->
    mt19937_64 -> bool -> Z -> double -> option arma_mat -> option arma_col ->
    best_arrays * mt19937_64;
  findBestSplitImpute :
    list Z -> list Z -> Z -> Z -> best_arrays -> list Z -> DataFrame -> Z -> Z ->
    mt19937_64 -> bool -> Z -> bool -> monotonic_info ->
    best_arrays * list Z * mt19937_64;
  findBestSplitValueNonCategorical :
    list Z -> list Z -> Z -> Z -> best_arrays -> DataFrame -> Z -> Z ->
    mt19937_64 -> bool -> Z -> bool -> monotonic_info ->
    best_arrays * mt19937_64;
  (** [determineBestSplit]: the best feature, value, loss and NA direction
      over the [mtry] per-feature bests. *)
  determineBestSplit :
    Z -> best_arrays -> list Z -> mt19937_64 -> (Z * double * double * Z) * mt19937_64;
  (** [updateBestSplitG] and [updateBestSplitS]: the left and right parts. *)
  updateBestSplitG : arma_mat -> DataFrame -> list Z -> Z -> double -> arma_mat * arma_mat;
  updateBestSplitS : arma_col -> DataFrame -> list Z -> Z -> double -> arma_col * arma_col;
  (** A [monotonic_info] that was declared and never assigned. *)
  unassigned_monotonic_info : monotonic_info
}.

(** ** The constructor's sanity checks *)

Inductive runtime_error : Type :=
| minNodeSizeAvg_zero
| minNodeSizeSpt_zero
| minNodeSizeToSplitSpt_zero
| minNodeSizeToSplitAvg_zero
| minNodeSizeToSplitAvg_exceeds (minNodeSizeToSplitAvg averagingSampleSize : Z)
| minNodeSizeToSplitSpt_exceeds (minNodeSizeToSplitSpt splittingSampleSize : Z)
| maxDepth_zero
| minSplitGain_without_linear
| averagingSampleIndex_empty
| splittingSampleIndex_empty
| mtry_zero
| mtry_exceeds (mtry totalNumFeatures : Z).

(** The arguments of the constructor, the generator apart. *)
Record tree_args : Type := {
  trainingData : DataFrame;
  mtry : Z;
  minNodeSizeSpt : Z;
  minNodeSizeAvg : Z;
  minNodeSizeToSplitSpt : Z;
  minNodeSizeToSplitAvg : Z;
  minSplitGain : double;
  maxDepth : Z;
  interactionDepth : Z;
  splittingIndexArg : list Z;
  averagingIndexArg : list Z;
  splitMiddle : bool;
  maxObs : Z;
  hasNas : bool;
  naDirection : bool;
  linear : bool;
  overfitPenalty : double;
  seedArg : Z
}.

(** The checks of the constructor in their order; the first that fails
    throws. *)
Definition sanity_check (a : tree_args) : option runtime_error :=
  if minNodeSizeAvg a =? 0 then Some minNodeSizeAvg_zero
  else if minNodeSizeSpt a =? 0 then Some minNodeSizeSpt_zero
  else if minNodeSizeToSplitSpt a =? 0 then Some minNodeSizeToSplitSpt_zero
  else if minNodeSizeToSplitAvg a =? 0 then Some minNodeSizeToSplitAvg_zero
  else if minNodeSizeToSplitAvg a >? vsize (averagingIndexArg a)
       then Some (minNodeSizeToSplitAvg_exceeds (minNodeSizeToSplitAvg a)
                                                (vsize (averagingIndexArg a)))
  else if minNodeSizeToSplitSpt a >? vsize (splittingIndexArg a)
       then Some (minNodeSizeToSplitSpt_exceeds (minNodeSizeToSplitSpt a)
                                                (vsize (splittingIndexArg a)))
  else if maxDepth a =? 0 then Some maxDepth_zero
  else if negb (minSplitGain a =? 0)%float && negb (linear a)
       then Some minSplitGain_without_linear
  else if vsize (averagingIndexArg a) =? 0 then Some averagingSampleIndex_empty
  else if vsize (splittingIndexArg a) =? 0 then Some splittingSampleIndex_empty
  else if mtry a =? 0 then Some mtry_zero
  else if mtry a >? getNumColumns (trainingData a)
       then Some (mtry_exceeds (mtry a) (getNumColumns (trainingData a)))
  else None.

(** ** Feature sampling *)

(** The rejection loop of [sampleFeatures]; it has no bound in the source,
    so the model counts its iterations against [fuel]. *)
Fixpoint sampleFeatures_loop `{Collaborators} (fuel : nat) (mtry : Z)
    (random_number_generator : mt19937_64) (numFeaturesOnly : bool)
    (numCols : list Z) (weights : list double) (featureList : list Z)
  : option (list Z * mt19937_64) :=
  if vsize featureList <? mtry then
    match fuel with
    | O => None
    | S fuel' =>
        let '(index, g') := discrete_distribution weights random_number_generator in
        x ← (if numFeaturesOnly then vat numCols index else Some index);
        if (vsize featureList =? 0) || negb (existsb (Z.eqb x) featureList)
        then sampleFeatures_loop fuel' mtry g' numFeaturesOnly numCols weights
               (featureList ++ [x])
        else sampleFeatures_loop fuel' mtry g' numFeaturesOnly numCols weights
               featureList
    end
  else Some (featureList, random_number_generator).

Definition sampleFeatures `{Collaborators} (fuel : nat) (mtry : Z)
    (random_number_generator : mt19937_64) (totalColumns : Z)
    (numFeaturesOnly : bool) (numCols : list Z) (weights : list double)
    (sampledFeatures : list Z)
  : option (list Z * mt19937_64) :=
  if vsize weights =? 0 then Some (sampledFeatures, random_number_generator)
  else sampleFeatures_loop fuel mtry random_number_generator numFeaturesOnly
         numCols weights [].

(** ** The partition step *)

(** One pass of the loop of [splitDataIntoTwoParts] under [hasNas]: the
    left part, the right part and the NA indices. *)
Definition route_with_na (data : DataFrame) (splitFeature : Z)
    (splitValue : double) (categoical : bool)
    (acc : list Z * list Z * list Z) (it : Z) : list Z * list Z * list Z :=
  let '(leftPartitionIndex, rightPartitionIndex, naIndices) := acc in
  if categoical then
    let currentFeatureValue := getPoint data it splitFeature in
    if isnan currentFeatureValue then
      (leftPartitionIndex, rightPartitionIndex, naIndices ++ [it])
    else if (currentFeatureValue =? splitValue)%float then
      (leftPartitionIndex ++ [it], rightPartitionIndex, naIndices)
    else (leftPartitionIndex, rightPartitionIndex ++ [it], naIndices)
  else
    let currentFeatureValue := getPoint data it splitFeature in
    if isnan currentFeatureValue then
      (leftPartitionIndex, rightPartitionIndex, naIndices ++ [it])
    else if (currentFeatureValue <? splitValue)%float then
      (leftPartitionIndex ++ [it], rightPartitionIndex, naIndices)
    else (leftPartitionIndex, rightPartitionIndex ++ [it], naIndices).

(** One pass of the loop of the branch without NAs. *)
Definition route_plain (data : DataFrame) (splitFeature : Z)
    (splitValue : double) (categoical : bool)
    (acc : list Z * list Z) (it : Z) : list Z * list Z :=
  let '(leftPartitionIndex, rightPartitionIndex) := acc in
  if categoical then
    if (getPoint data it splitFeature =? splitValue)%float then
      (leftPartitionIndex ++ [it], rightPartitionIndex)
    else (leftPartitionIndex, rightPartitionIndex ++ [it])
  else
    let tmpFeatureValue := getPoint data it splitFeature in
    if (tmpFeatureValue <? splitValue)%float then
      (leftPartitionIndex ++ [it], rightPartitionIndex)
    else (leftPartitionIndex, rightPartitionIndex ++ [it]).

(** Pushing every NA index to one side, counting each. *)
Definition push_na (naIndices : list Z) (partitionIndex : list Z) (naCount : Z)
  : list Z * Z :=
  fold_left (fun '(p, c) index => (p ++ [index], c + 1)) naIndices
            (partitionIndex, naCount).

(** [splitDataIntoTwoParts]: the two partition vectors and the two NA
    counters after the call, from their contents before it. *)
Definition splitDataIntoTwoParts (data : DataFrame) (sampleIndex : list Z)
    (splitFeature : Z) (splitValue : double) (naBestDirection : Z)
    (leftPartitionIndex rightPartitionIndex : list Z)
    (categoical hasNas : bool) (naLeftCount naRightCount : Z)
  : list Z * list Z * Z * Z :=
  if hasNas then
    let '(l, r, naIndices) :=
      fold_left (route_with_na data splitFeature splitValue categoical)
                sampleIndex (leftPartitionIndex, rightPartitionIndex, []) in
    if naBestDirection =? -1 then
      let '(l', c) := push_na naIndices l naLeftCount in (l', r, c, naRightCount)
    else if naBestDirection =? 1 then
      let '(r', c) := push_na naIndices r naRightCount in (l, r', naLeftCount, c)
    else (l, r, naLeftCount, naRightCount)
  else
    let '(l, r) :=
      fold_left (route_plain data splitFeature splitValue categoical)
                sampleIndex (leftPartitionIndex, rightPartitionIndex) in
    (l, r, naLeftCount, naRightCount).

(** The result of [splitData]: the four partitions, written into vectors
    that arrive as given, and the NA counters of the splitting pass (those
    of the averaging pass are locals of [splitData]). *)
Record split_parts : Type := {
  averagingLeftPartitionIndex : list Z;
  averagingRightPartitionIndex : list Z;
  splittingLeftPartitionIndex : list Z;
  splittingRightPartitionIndex : list Z;
  naLeftCountOut : Z;
  naRightCountOut : Z
}.

Definition splitData (data : DataFrame)
    (averagingSampleIndex splittingSampleIndex : list Z)
    (splitFeature : Z) (splitValue : double) (naBestDirection : Z)
    (avgLeft avgRight sptLeft sptRight : list Z)
    (naLeftCount naRightCount : Z) (categoical hasNas : bool) : split_parts :=
  let avgL := 0 in
  let avgR := 0 in
  let '(al, ar, _, _) :=
    splitDataIntoTwoParts data averagingSampleIndex splitFeature splitValue
      naBestDirection avgLeft avgRight categoical hasNas avgL avgR in
  let '(sl, sr, nl, nr) :=
    splitDataIntoTwoParts data splittingSampleIndex splitFeature splitValue
      naBestDirection sptLeft sptRight categoical hasNas naLeftCount naRightCount in
  {| averagingLeftPartitionIndex := al; averagingRightPartitionIndex := ar;
     splittingLeftPartitionIndex := sl; splittingRightPartitionIndex := sr;
     naLeftCountOut := nl; naRightCountOut := nr |}.

(** ** The monotone bound update *)

(** [updateMonotoneConstraints]: the records of the left and of the right
    child.  Every field of both is assigned on every path, so what they
    held before does not matter.  [constraints] is the parameter that the
    source calls [monotonic_constraints]. *)
Definition updateMonotoneConstraints `{Collaborators}
    (monotone_details : monotonic_info) (constraints : list Z)
    (leftMean rightMean : double) (bestSplitFeature : Z)
  : option (monotonic_info * monotonic_info) :=
  monotone_direction ← vat (monotonic_constraints monotone_details) bestSplitFeature;
  let leftNodeMean := calculateMonotonicBound leftMean monotone_details in
  let rightNodeMean := calculateMonotonicBound rightMean monotone_details in
  let midMean := ((leftNodeMean + rightNodeMean) / 2)%float in
  if monotone_direction =? -1 then
    Some ({| monotonic_constraints := constraints;
             upper_bound := upper_bound monotone_details;
             lower_bound := midMean;
             monotoneAvg := monotoneAvg monotone_details |},
          {| monotonic_constraints := constraints;
             upper_bound := midMean;
             lower_bound := lower_bound monotone_details;
             monotoneAvg := monotoneAvg monotone_details |})
  else if monotone_direction =? 1 then
    Some ({| monotonic_constraints := constraints;
             upper_bound := midMean;
             lower_bound := lower_bound monotone_details;
             monotoneAvg := monotoneAvg monotone_details |},
          {| monotonic_constraints := constraints;
             upper_bound := upper_bound monotone_details;
             lower_bound := midMean;
             monotoneAvg := monotoneAvg monotone_details |})
  else
    Some ({| monotonic_constraints := constraints;
             upper_bound := upper_bound monotone_details;
             lower_bound := lower_bound monotone_details;
             monotoneAvg := monotoneAvg monotone_details |},
          {| monotonic_constraints := constraints;
             upper_bound := upper_bound monotone_details;
             lower_bound := lower_bound monotone_details;
             monotoneAvg := monotoneAvg monotone_details |}).

(** ** The minimum-split-gain gate *)

Definition calculateRSquaredSplit `{Collaborators} (data : DataFrame)
    (splittingSampleIndex splittingLeftPartition splittingRightPartition : list Z)
    (overfitPenalty : double) (random_number_generator : mt19937_64)
  : (double * double) * mt19937_64 :=
  let '(rssParent, g1) :=
    calculateRSS data splittingSampleIndex overfitPenalty random_number_generator in
  let '(rssLeft, g2) := calculateRSS data splittingLeftPartition overfitPenalty g1 in
  let '(rssRight, g3) := calculateRSS data splittingRightPartition overfitPenalty g2 in
  let outcomeSum :=
    fold_left (fun acc i => (acc + getOutcomePoint data i)%float)
              splittingSampleIndex 0%float in
  let outcomeMean := (outcomeSum / double_of_size_t (vsize splittingSampleIndex))%float in
  let totalSumSquares :=
    fold_left (fun acc i =>
                 let meanDifference := (getOutcomePoint data i - outcomeMean)%float in
                 (acc + meanDifference * meanDifference)%float)
              splittingSampleIndex 0%float in
  let rSquaredParent := (1 - rssParent / totalSumSquares)%float in
  let rSquaredChildren := (1 - (rssLeft + rssRight) / totalSumSquares)%float in
  ((rSquaredParent, rSquaredChildren), g3).

Definition crossValidatedRSquared `{Collaborators} (data : DataFrame)
    (splittingSampleIndex splittingLeftPartition splittingRightPartition : list Z)
    (overfitPenalty : double) (numTimesCV : Z)
    (random_number_generator : mt19937_64) : double * mt19937_64 :=
  let '(totalRSquaredParent, totalRSquaredChildren, g') :=
    Nat.iter (Z.to_nat numTimesCV)
      (fun '(tp, tc, g) =>
         let '((rSquaredParent, rSquaredChildren), g1) :=
           calculateRSquaredSplit data splittingSampleIndex splittingLeftPartition
             splittingRightPartition overfitPenalty g in
         ((tp + rSquaredParent)%float, (tc + rSquaredChildren)%float, g1))
      (0%float, 0%float, random_number_generator) in
  ((totalRSquaredChildren / double_of_size_t numTimesCV
    - totalRSquaredParent / double_of_size_t numTimesCV)%float, g').

(** ** Ridge accumulators *)

Definition outer_product (x : arma_col) : arma_mat :=
  map (fun a => map (fun b => (a * b)%float) x) x.
Definition mat_add (a b : arma_mat) : arma_mat :=
  zip_with (zip_with PrimFloat.add) a b.
Definition col_add (a b : arma_col) : arma_col := zip_with PrimFloat.add a b.
Definition col_scale (y : double) (x : arma_col) : arma_col :=
  map (fun a => (y * a)%float) x.

(** [initializelinear]: [gTotal] and [sTotal] summed over the splitting
    set; on entry [sTotal] holds the first observation with its trailing
    1. *)
Definition initializelinear (data : DataFrame) (sTotal : arma_col)
    (numLinearFeatures : Z) (splitIndexes : list Z) : option (arma_mat * arma_col) :=
  first ← vat splitIndexes 0;
  let gTotal0 := outer_product sTotal in
  let sTotal0 := col_scale (getOutcomePoint data first) sTotal in
  Some (fold_left
          (fun '(gTotal, sTotal) idx =>
             let tempOb := getLinObsData data idx ++ [1%float] in
             (mat_add gTotal (outer_product tempOb),
              col_add sTotal (col_scale (getOutcomePoint data idx) tempOb)))
          (tail splitIndexes) (gTotal0, sTotal0)).

(** ** Choosing the split *)

(** What [selectBestFeature] leaves in its reference parameters. *)
Record best_split : Type := {
  bestSplitFeature : Z;
  bestSplitValue : double;
  bestSplitLoss : double;
  bestSplitNaDir : Z;
  bestSplitGL : option arma_mat;
  bestSplitGR : option arma_mat;
  bestSplitSL : option arma_col;
  bestSplitSR : option arma_col
}.

(** The body of the loop over the sampled features: the kernel is chosen
    by (categorical, linear, hasNas). *)
Definition selectBestFeature_step `{Collaborators} (this : forestryTree)
    (averagingSampleIndex splittingSampleIndex : list Z) (data : DataFrame)
    (splitMiddle : bool) (maxObs : Z) (linear : bool) (overfitPenalty : double)
    (gtotal : option arma_mat) (stotal : option arma_col)
    (monotone_splits : bool) (monotone_details : monotonic_info)
    (st : best_arrays * list Z * mt19937_64 * Z) (currentFeature : Z)
  : best_arrays * list Z * mt19937_64 * Z :=
  let '(arrays, naDirs, g, i) := st in
  let categorialCols := getCatCols data in
  if existsb (Z.eqb currentFeature) categorialCols then
    if linear then
      let '(a, g') :=
        findBestSplitRidgeCategorical averagingSampleIndex splittingSampleIndex i
          currentFeature arrays data (_minNodeSizeToSplitSpt this)
          (_minNodeSizeToSplitAvg this) g overfitPenalty gtotal stotal in
      (a, naDirs, g', i + 1)
    else if _hasNas this then
      let '(a, n, g') :=
        findBestSplitImputeCategorical averagingSampleIndex splittingSampleIndex i
          currentFeature arrays naDirs data (_minNodeSizeToSplitSpt this)
          (_minNodeSizeToSplitAvg this) g maxObs in
      (a, n, g', i + 1)
    else
      let '(a, g') :=
        findBestSplitValueCategorical averagingSampleIndex splittingSampleIndex i
          currentFeature arrays data (_minNodeSizeToSplitSpt this)
          (_minNodeSizeToSplitAvg this) g maxObs in
      (a, naDirs, g', i + 1)
  else if linear then
    let '(a, g') :=
      findBestSplitRidge averagingSampleIndex splittingSampleIndex i
        currentFeature arrays data (_minNodeSizeToSplitSpt this)
        (_minNodeSizeToSplitAvg this) g splitMiddle maxObs overfitPenalty
        gtotal stotal in
    (a, naDirs, g', i + 1)
  else if _hasNas this then
    let '(a, n, g') :=
      findBestSplitImpute averagingSampleIndex splittingSampleIndex i
        currentFeature arrays naDirs data (_minNodeSizeToSplitSpt this)
        (_minNodeSizeToSplitAvg this) g splitMiddle maxObs monotone_splits
        monotone_details in
    (a, n, g', i + 1)
  else
    let '(a, g') :=
      findBestSplitValueNonCategorical averagingSampleIndex splittingSampleIndex i
        currentFeature arrays data (_minNodeSizeToSplitSpt this)
        (_minNodeSizeToSplitAvg this) g splitMiddle maxObs monotone_splits
        monotone_details in
    (a, naDirs, g', i + 1).

Definition selectBestFeature `{Collaborators} (this : forestryTree)
    (featureList averagingSampleIndex splittingSampleIndex : list Z)
    (data : DataFrame) (random_number_generator : mt19937_64)
    (splitMiddle : bool) (maxObs : Z) (linear : bool) (overfitPenalty : double)
    (gtotal : option arma_mat) (stotal : option arma_col)
    (monotone_splits : bool) (monotone_details : monotonic_info)
  : option (best_split * mt19937_64) :=
  let mtry := vsize featureList in
  let n := length featureList in
  (* -infinity, NaN, numeric_limits<size_t>::quiet_NaN() (which is 0), 0 *)
  let arrays0 :=
    {| bestSplitLossAll := repeat neg_infinity n;
       bestSplitValueAll := repeat nan n;
       bestSplitFeatureAll := repeat 0 n;
       bestSplitCountAll := repeat 0 n |} in
  let '(arrays, naDirs, g1, _) :=
    fold_left
      (selectBestFeature_step this averagingSampleIndex splittingSampleIndex data
         splitMiddle maxObs linear overfitPenalty gtotal stotal monotone_splits
         monotone_details)
      featureList (arrays0, repeat 0 n, random_number_generator, 0) in
  let '((feature, value, loss, naDir), g2) :=
    determineBestSplit mtry arrays naDirs g1 in
  if linear then
    gmat ← gtotal;
    scol ← stotal;
    let '(GL, GR) := updateBestSplitG gmat data splittingSampleIndex feature value in
    let '(SL, SR) := updateBestSplitS scol data splittingSampleIndex feature value in
    Some ({| bestSplitFeature := feature; bestSplitValue := value;
             bestSplitLoss := loss; bestSplitNaDir := naDir;
             bestSplitGL := Some GL; bestSplitGR := Some GR;
             bestSplitSL := Some SL; bestSplitSR := Some SR |}, g2)
  else
    Some ({| bestSplitFeature := feature; bestSplitValue := value;
             bestSplitLoss := loss; bestSplitNaDir := naDir;
             bestSplitGL := None; bestSplitGR := None;
             bestSplitSL := None; bestSplitSR := None |}, g2).

(** ** The recursive partitioner *)

(** Modelled from the spec: [assignNodeId] (declared in forestryTree.h,
    which is not among the sources).  Node ids come from a counter owned by
    the tree, which the constructor sets to 0 and which only grows: the
    call advances the counter and hands out its new value.  The result is
    the id and the counter after the call. *)
Definition assignNodeId (nodeCount : Z) : Z * Z := (nodeCount + 1, nodeCount + 1).

(** The block that seals the current node as a leaf; the source repeats it
    on each of its four leaf paths. *)
Definition seal_leaf `{Collaborators} (nodeCount : Z)
    (averagingSampleIndex splittingSampleIndex : list Z) (data : DataFrame)
    (linear : bool) (overfitPenalty : double) : RFNode * Z :=
  let '(node_id, nodeCount') := assignNodeId nodeCount in
  (Leaf (vsize averagingSampleIndex) (vsize splittingSampleIndex) node_id
        (partitionMean data averagingSampleIndex)
        (if linear
         then Some (ridgeCoefficientsOf averagingSampleIndex data overfitPenalty)
         else None),
   nodeCount').

(** The default NA direction drawn when the split node saw no NA: a fresh
    engine seeded with the seed of the tree, and a draw weighted by the
    sizes of the two averaging partitions. *)
Definition random_na_direction `{Collaborators} (this : forestryTree)
    (averagingLeft averagingRight : list Z) : Z :=
  let naSampling := [vsize averagingLeft; vsize averagingRight] in
  let random_number_generator := seeded_engine (_seed this) in
  let '(draw, _) :=
    discrete_distribution (map double_of_size_t naSampling) random_number_generator in
  if draw =? 0 then -1 else 1.

(** [recursivePartition]: the node it builds, the node counter and the
    generator after the call.  [fuel] bounds the depth of the recursion and
    the iterations of the sampling loop; [None] stands for a run that
    exhausts it, that reads outside a vector, or that follows a null
    accumulator under [linear]. *)
Fixpoint recursivePartition `{Collaborators} (fuel : nat) (this : forestryTree)
    (nodeCount : Z) (averagingSampleIndex splittingSampleIndex : list Z)
    (data : DataFrame) (random_number_generator : mt19937_64) (depth : Z)
    (splitMiddle : bool) (maxObs : Z) (linear : bool) (overfitPenalty : double)
    (gtotal : option arma_mat) (stotal : option arma_col)
    (monotone_splits : bool) (monotone_details : monotonic_info)
    (naDirection : bool) {struct fuel} : option (RFNode * Z * mt19937_64) :=
  match fuel with
  | O => None
  | S fuel' =>
    if (vsize averagingSampleIndex <? _minNodeSizeAvg this)
       || (vsize splittingSampleIndex <? _minNodeSizeSpt this)
       || (depth =? _maxDepth this)
    then
      let '(leaf, nodeCount') :=
        seal_leaf nodeCount averagingSampleIndex splittingSampleIndex data linear
                  overfitPenalty in
      Some (leaf, nodeCount', random_number_generator)
    else
      let '(featureWeightsUsed, sampledWeightsVariablesUsed) :=
        if depth >=? _interactionDepth this
        then (getdeepFeatureWeights data, getdeepFeatureWeightsVariables data)
        else (getfeatureWeights data, getfeatureWeightsVariables data) in
      '(featureList, g1) ←
        sampleFeatures fuel' (_mtry this) random_number_generator
          (to_int (getNumColumns data)) false (getNumCols data)
          featureWeightsUsed sampledWeightsVariablesUsed;
      '(best, g2) ←
        selectBestFeature this featureList averagingSampleIndex
          splittingSampleIndex data g1 splitMiddle maxObs linear overfitPenalty
          gtotal stotal monotone_splits monotone_details;
      if isnan (bestSplitValue best) then
        let '(leaf, nodeCount') :=
          seal_leaf nodeCount averagingSampleIndex splittingSampleIndex data
                    linear overfitPenalty in
        Some (leaf, nodeCount', g2)
      else
        let categorialCols := getCatCols data in
        let parts :=
          splitData data averagingSampleIndex splittingSampleIndex
            (bestSplitFeature best) (bestSplitValue best) (bestSplitNaDir best)
            [] [] [] [] 0 0
            (existsb (Z.eqb (bestSplitFeature best)) categorialCols)
            (_hasNas this) in
        let lAvgSize := vsize (averagingLeftPartitionIndex parts) in
        let rAvgSize := vsize (averagingRightPartitionIndex parts) in
        let lSplSize := vsize (splittingLeftPartitionIndex parts) in
        let rSplSize := vsize (splittingRightPartitionIndex parts) in
        if to_size_t (lAvgSize * rAvgSize * lSplSize * rSplSize) =? 0 then
          let '(leaf, nodeCount') :=
            seal_leaf nodeCount averagingSampleIndex splittingSampleIndex data
                      linear overfitPenalty in
          Some (leaf, nodeCount', g2)
        else
          let '(gain, g3) :=
            if (0 <? _minSplitGain this)%float then
              let '(rSquaredDifference, g') :=
                crossValidatedRSquared data splittingSampleIndex
                  (splittingLeftPartitionIndex parts)
                  (splittingRightPartitionIndex parts) overfitPenalty 1 g2 in
              ((rSquaredDifference <? _minSplitGain this)%float, g')
            else (false, g2) in
          if gain then
            let '(leaf, nodeCount') :=
              seal_leaf nodeCount averagingSampleIndex splittingSampleIndex data
                        linear overfitPenalty in
            Some (leaf, nodeCount', g3)
          else
            let childDepth := depth + 1 in
            let g_ptr_r := if linear then bestSplitGR best else None in
            let g_ptr_l := if linear then bestSplitGL best else None in
            let s_ptr_r := if linear then bestSplitSR best else None in
            let s_ptr_l := if linear then bestSplitSL best else None in
            '(monotonic_details_left, monotonic_details_right) ←
              (if monotone_splits then
                 updateMonotoneConstraints monotone_details
                   (getMonotonicConstraints data)
                   (partitionMean data (splittingLeftPartitionIndex parts))
                   (partitionMean data (splittingRightPartitionIndex parts))
                   (bestSplitFeature best)
               else Some (unassigned_monotonic_info, unassigned_monotonic_info));
            let naDir :=
              if naDirection && (naLeftCountOut parts =? 0)
                 && (naRightCountOut parts =? 0)
              then random_na_direction this (averagingLeftPartitionIndex parts)
                                       (averagingRightPartitionIndex parts)
              else bestSplitNaDir best in
            '(leftChild, nodeCount1, g4) ←
              recursivePartition fuel' this nodeCount
                (averagingLeftPartitionIndex parts)
                (splittingLeftPartitionIndex parts) data g3 childDepth
                splitMiddle maxObs linear overfitPenalty g_ptr_l s_ptr_l
                monotone_splits monotonic_details_left naDirection;
            '(rightChild, nodeCount2, g5) ←
              recursivePartition fuel' this nodeCount1
                (averagingRightPartitionIndex parts)
                (splittingRightPartitionIndex parts) data g4 childDepth
                splitMiddle maxObs linear overfitPenalty g_ptr_r s_ptr_r
                monotone_splits monotonic_details_right naDirection;
            Some (SplitNode (bestSplitFeature best) (bestSplitValue best)
                            leftChild rightChild (naLeftCountOut parts)
                            (naRightCountOut parts) naDir,
                  nodeCount2, g5)
  end.

(** ** The constructor *)

Inductive ctor_result `{Collaborators} : Type :=
| Threw (e : runtime_error)
| Built (t : forestryTree) (g : mt19937_64)
| NoResult.

(** The growth that follows the sanity checks: the fields are moved into
    the object, the ridge accumulators and the monotone record are set up,
    and the tree is grown from the root at depth 0.  The constructor does
    not assign [_linear], which keeps what the object held ([this0]). *)
Definition grow `{Collaborators} (fuel : nat) (this0 : forestryTree)
    (a : tree_args) (random_number_generator : mt19937_64)
  : option (forestryTree * mt19937_64) :=
  let data := trainingData a in
  let this :=
    {| _mtry := mtry a;
       _minNodeSizeSpt := minNodeSizeSpt a;
       _minNodeSizeAvg := minNodeSizeAvg a;
       _minNodeSizeToSplitSpt := minNodeSizeToSplitSpt a;
       _minNodeSizeToSplitAvg := minNodeSizeToSplitAvg a;
       _minSplitGain := minSplitGain a;
       _maxDepth := maxDepth a;
       _interactionDepth := interactionDepth a;
       _averagingSampleIndex := averagingIndexArg a;
       _splittingSampleIndex := splittingIndexArg a;
       _root := None;
       _nodeCount := 0;
       _hasNas := hasNas a;
       _naDirection := naDirection a;
       _linear := _linear this0;
       _overfitPenalty := overfitPenalty a;
       _seed := seedArg a |} in
  let splitIndexes := _splittingSampleIndex this in
  first ← vat splitIndexes 0;
  let firstOb := getLinObsData data first in
  let numLinearFeatures := vsize firstOb in
  let sTotal := firstOb ++ [1%float] in
  '(g_ptr, s_ptr) ←
    (if linear a then
       '(gTotal, sTotal') ← initializelinear data sTotal numLinearFeatures splitIndexes;
       Some (Some gTotal, Some sTotal')
     else Some (None, None));
  let monotone_splits :=
    negb (forallb (fun i => i =? 0) (getMonotonicConstraints data)) in
  let monotonic_details :=
    {| monotonic_constraints := getMonotonicConstraints data;
       upper_bound := DBL_MAX;
       lower_bound := (- DBL_MAX)%float;
       monotoneAvg := getMonotoneAvg data |} in
  '(root, nodeCount, g') ←
    recursivePartition fuel this (_nodeCount this) (_averagingSampleIndex this)
      (_splittingSampleIndex this) data random_number_generator 0
      (splitMiddle a) (maxObs a) (linear a) (overfitPenalty a) g_ptr s_ptr
      monotone_splits monotonic_details (naDirection a);
  Some ({| _mtry := _mtry this;
           _minNodeSizeSpt := _minNodeSizeSpt this;
           _minNodeSizeAvg := _minNodeSizeAvg this;
           _minNodeSizeToSplitSpt := _minNodeSizeToSplitSpt this;
           _minNodeSizeToSplitAvg := _minNodeSizeToSplitAvg this;
           _minSplitGain := _minSplitGain this;
           _maxDepth := _maxDepth this;
           _interactionDepth := _interactionDepth this;
           _averagingSampleIndex := _averagingSampleIndex this;
           _splittingSampleIndex := _splittingSampleIndex this;
           _root := Some root;
           _nodeCount := nodeCount;
           _hasNas := _hasNas this;
           _naDirection := _naDirection this;
           _linear := _linear this;
           _overfitPenalty := _overfitPenalty this;
           _seed := _seed this |}, g').

(** [forestryTree::forestryTree]: the checks come first and throw before
    anything else is done. *)
Definition forestryTree_ctor `{Collaborators} (fuel : nat) (this0 : forestryTree)
    (a : tree_args) (random_number_generator : mt19937_64) : ctor_result :=
  match sanity_check a with
  | Some e => Threw e
  | None =>
      match grow fuel this0 a random_number_generator with
      | Some (t, g) => Built t g
      | None => NoResult
      end
  end.

(** ** Out-of-bag indices *)

(** [std::sort] on a vector of [size_t]. *)
Definition std_sort (v : list Z) : list Z := merge_sort Z.le v.

(** [std::set_union] and [std::set_difference] on sorted ranges, as the
    standard gives them: linear merges, with multiplicities. *)
Fixpoint set_union (a : list Z) : list Z -> list Z :=
  fix inner (b : list Z) : list Z :=
    match a with
    | [] => b
    | x :: a' =>
        match b with
        | [] => a
        | y :: b' =>
            if y <? x then y :: inner b'
            else if x <? y then x :: set_union a' b
            else x :: set_union a' b'
        end
    end.

Fixpoint set_difference (a : list Z) : list Z -> list Z :=
  fix inner (b : list Z) : list Z :=
    match a with
    | [] => []
    | x :: a' =>
        match b with
        | [] => a
        | y :: b' =>
            if x <? y then x :: set_difference a' b
            else if y <? x then inner b'
            else set_difference a' b'
        end
    end.

Definition with_sorted_indices (this : forestryTree) (sortSplitting : bool)
  : forestryTree :=
  {| _mtry := _mtry this;
     _minNodeSizeSpt := _minNodeSizeSpt this;
     _minNodeSizeAvg := _minNodeSizeAvg this;
     _minNodeSizeToSplitSpt := _minNodeSizeToSplitSpt this;
     _minNodeSizeToSplitAvg := _minNodeSizeToSplitAvg this;
     _minSplitGain := _minSplitGain this;
     _maxDepth := _maxDepth this;
     _interactionDepth := _interactionDepth this;
     _averagingSampleIndex := std_sort (_averagingSampleIndex this);
     _splittingSampleIndex :=
       if sortSplitting then std_sort (_splittingSampleIndex this)
       else _splittingSampleIndex this;
     _root := _root this;
     _nodeCount := _nodeCount this;
     _hasNas := _hasNas this;
     _naDirection := _naDirection this;
     _linear := _linear this;
     _overfitPenalty := _overfitPenalty this;
     _seed := _seed this |}.

(** The state the OOB functions act on: the tree, the output vector and
    the caller's [allIndex], the last two passed by reference. *)
Record oob_state : Type := {
  oob_tree : forestryTree;
  outputOOBIndex : list Z;
  allIndex : list Z
}.

Definition getOOBindex (s : oob_state) : oob_state :=
  let this := with_sorted_indices (oob_tree s) true in
  let allIndex' := std_sort (allIndex s) in
  let allSampledIndex :=
    set_union (_splittingSampleIndex this) (_averagingSampleIndex this) in
  let OOBIndex := set_difference allIndex' allSampledIndex in
  {| oob_tree := this;
     outputOOBIndex := fold_left (fun out it_ => out ++ [it_]) OOBIndex (outputOOBIndex s);
     allIndex := allIndex' |}.

Definition getDoubleOOBIndex (s : oob_state) : oob_state :=
  let this := with_sorted_indices (oob_tree s) true in
  let allIndex' := std_sort (allIndex s) in
  let allSampledIndex :=
    set_union (_splittingSampleIndex this) (_averagingSampleIndex this) in
  let OOBIndex := set_difference allIndex' allSampledIndex in
  {| oob_tree := this;
     outputOOBIndex := fold_left (fun out it_ => out ++ [it_]) OOBIndex (outputOOBIndex s);
     allIndex := allIndex' |}.

Definition getOOBhonestIndex (s : oob_state) : oob_state :=
  let this := with_sorted_indices (oob_tree s) false in
  let allIndex' := std_sort (allIndex s) in
  let OOBIndex := set_difference allIndex' (_averagingSampleIndex this) in
  {| oob_tree := this;
     outputOOBIndex := fold_left (fun out it_ => out ++ [it_]) OOBIndex (outputOOBIndex s);
     allIndex := allIndex' |}.

(** Inserting the groups of the given rows into [in_sample_groups]. *)
Fixpoint insert_groups (groupMemberships : list Z) (rows : list Z)
    (in_sample_groups : gset Z) : option (gset Z) :=
  match rows with
  | [] => Some in_sample_groups
  | iter :: rows' =>
      grp ← vat groupMemberships iter;
      insert_groups groupMemberships rows' ({[ grp ]} ∪ in_sample_groups)
  end.

(** The last loop of [getOOGIndex]: the rows whose group the tree has not
    seen. *)
Fixpoint push_out_of_group (groupMemberships : list Z) (in_sample_groups : gset Z)
    (rows : list Z) (out : list Z) : option (list Z) :=
  match rows with
  | [] => Some out
  | it_ :: rows' =>
      grp ← vat groupMemberships it_;
      push_out_of_group groupMemberships in_sample_groups rows'
        (if bool_decide (grp ∈ in_sample_groups) then out else out ++ [it_])
  end.

Definition getOOGIndex (s : oob_state) (groupMemberships : list Z)
    (doubleOOB : bool) : option oob_state :=
  let this := with_sorted_indices (oob_tree s) false in
  let allIndex' := std_sort (allIndex s) in
  groups1 ← insert_groups groupMemberships (_averagingSampleIndex this) ∅;
  groups2 ← (if doubleOOB
             then insert_groups groupMemberships (_splittingSampleIndex this) groups1
             else Some groups1);
  out ← push_out_of_group groupMemberships groups2 allIndex' (outputOOBIndex s);
  Some {| oob_tree := this; outputOOBIndex := out; allIndex := allIndex' |}.

(** ** Flattening a tree *)

(** What a leaf contributes to the four arrays that only a split node
    gives a meaning to. *)
Record leaf_padding : Type := {
  leaf_split_val : double;
  leaf_naLeftCount : Z;
  leaf_naRightCount : Z;
  leaf_naDefaultDirection : Z
}.

(** Modelled from the spec: [RFNode::write_node_info] (RFNode.cpp is not
    among the sources).  The tree is flattened in pre-order into the
    parallel arrays.  A leaf writes a negative [var_id] whose absolute
    value is its averaging count, followed by a second entry giving its
    splitting count, and its weight as the next entry of the weights; a
    split node writes [var_id = feature + 1], its split value, its NA
    counts and its default NA direction, then its left and its right
    subtree.  The deserialiser reads one entry of each of the four other
    arrays at every node, leaf or not; the spec does not say what a leaf
    writes there, so these entries are the parameter [pad]. *)
Fixpoint write_node_info (pad : leaf_padding) (node : RFNode)
    (treeInfo : tree_info) : tree_info :=
  match node with
  | Leaf averageCount splitCount _ weight _ =>
      {| var_ids := var_ids treeInfo ++ [to_int (- averageCount); to_int splitCount];
         split_vals := split_vals treeInfo ++ [leaf_split_val pad];
         naLeftCounts := naLeftCounts treeInfo ++ [leaf_naLeftCount pad];
         naRightCounts := naRightCounts treeInfo ++ [leaf_naRightCount pad];
         naDefaultDirections :=
           naDefaultDirections treeInfo ++ [leaf_naDefaultDirection pad];
         averagingSampleIndex := averagingSampleIndex treeInfo;
         splittingSampleIndex := splittingSampleIndex treeInfo;
         weights := weights treeInfo ++ [weight];
         seed := seed treeInfo |}
  | SplitNode splitFeature splitValue leftChild rightChild nl nr nd =>
      let here :=
        {| var_ids := var_ids treeInfo ++ [to_int (to_size_t (splitFeature + 1))];
           split_vals := split_vals treeInfo ++ [splitValue];
           naLeftCounts := naLeftCounts treeInfo ++ [to_int nl];
           naRightCounts := naRightCounts treeInfo ++ [to_int nr];
           naDefaultDirections := naDefaultDirections treeInfo ++ [nd];
           averagingSampleIndex := averagingSampleIndex treeInfo;
           splittingSampleIndex := splittingSampleIndex treeInfo;
           weights := weights treeInfo;
           seed := seed treeInfo |} in
      write_node_info pad rightChild (write_node_info pad leftChild here)
  end.

(** A [tree_info] as [new tree_info] leaves it: every vector empty.  The
    seed is assigned by [getTreeInfo]. *)
Definition new_tree_info : tree_info :=
  {| var_ids := []; split_vals := []; naLeftCounts := []; naRightCounts := [];
     naDefaultDirections := []; averagingSampleIndex := [];
     splittingSampleIndex := []; weights := []; seed := 0 |}.

(** [forestryTree::getTreeInfo]: the nodes, then the two index vectors
    moved to base 1, then the seed.  A tree without a root has no flat
    record. *)
Definition getTreeInfo (pad : leaf_padding) (this : forestryTree)
  : option tree_info :=
  root ← _root this;
  let treeInfo := write_node_info pad root new_tree_info in
  Some {| var_ids := var_ids treeInfo;
          split_vals := split_vals treeInfo;
          naLeftCounts := naLeftCounts treeInfo;
          naRightCounts := naRightCounts treeInfo;
          naDefaultDirections := naDefaultDirections treeInfo;
          averagingSampleIndex :=
            fold_left (fun out i => out ++ [to_size_t (i + 1)])
                      (_averagingSampleIndex this) (averagingSampleIndex treeInfo);
          splittingSampleIndex :=
            fold_left (fun out i => out ++ [to_size_t (i + 1)])
                      (_splittingSampleIndex this) (splittingSampleIndex treeInfo);
          weights := weights treeInfo;
          seed := _seed this |}.

(** ** Rebuilding a tree *)

(** The vectors [recursive_reconstruction] consumes from the front, and
    the node counter of the tree. *)
Record recon_state : Type := {
  r_var_ids : list Z;
  r_split_vals : list double;
  r_naLeftCounts : list Z;
  r_naRightCounts : list Z;
  r_naDefaultDirections : list Z;
  r_weights : list double;
  r_nodeCount : Z
}.

(** [v[0]] followed by [v.erase(v.begin())]. *)
Definition pop_front {A : Type} (v : list A) : option (A * list A) :=
  match v with
  | [] => None
  | x :: v' => Some (x, v')
  end.

(** [std::abs] on an [int]; it is undefined at the least [int]. *)
Definition int_abs (x : Z) : option Z :=
  if x =? - 2 ^ 31 then None else Some (Z.abs x).

(** [recursive_reconstruction]: the node built and the state left.  Every
    call erases at least one entry of [var_ids], and [fuel] bounds the
    depth of the recursion. *)
Fixpoint recursive_reconstruction (fuel : nat) (st : recon_state)
  : option (RFNode * recon_state) :=
  match fuel with
  | O => None
  | S fuel' =>
    '(var_id, var_ids1) ← pop_front (r_var_ids st);
    '(split_val, split_vals1) ← pop_front (r_split_vals st);
    '(naLeft, naLeftCounts1) ← pop_front (r_naLeftCounts st);
    let naLeftCount := to_size_t naLeft in
    '(naRight, naRightCounts1) ← pop_front (r_naRightCounts st);
    let naRightCount := to_size_t naRight in
    '(naDefaultDirection, naDefaultDirections1) ← pop_front (r_naDefaultDirections st);
    if var_id <? 0 then
      nAve ← int_abs var_id;
      '(second, var_ids2) ← pop_front var_ids1;
      nSpl ← int_abs second;
      '(predictionWeight, weights1) ← pop_front (r_weights st);
      let '(node_id, nodeCount') := assignNodeId (r_nodeCount st) in
      Some (Leaf nAve nSpl node_id predictionWeight None,
            {| r_var_ids := var_ids2; r_split_vals := split_vals1;
               r_naLeftCounts := naLeftCounts1; r_naRightCounts := naRightCounts1;
               r_naDefaultDirections := naDefaultDirections1;
               r_weights := weights1; r_nodeCount := nodeCount' |})
    else
      let st1 :=
        {| r_var_ids := var_ids1; r_split_vals := split_vals1;
           r_naLeftCounts := naLeftCounts1; r_naRightCounts := naRightCounts1;
           r_naDefaultDirections := naDefaultDirections1;
           r_weights := r_weights st; r_nodeCount := r_nodeCount st |} in
      '(leftChild, st2) ← recursive_reconstruction fuel' st1;
      '(rightChild, st3) ← recursive_reconstruction fuel' st2;
      Some (SplitNode (to_size_t (var_id - 1)) split_val leftChild rightChild
                      naLeftCount naRightCount naDefaultDirection, st3)
  end.

(** The hyperparameters [reconstruct_tree] is handed beside the record. *)
Record reconstruct_args : Type := {
  rc_mtry : Z;
  rc_minNodeSizeSpt : Z;
  rc_minNodeSizeAvg : Z;
  rc_minNodeSizeToSplitSpt : Z;
  rc_minNodeSizeToSplitAvg : Z;
  rc_minSplitGain : double;
  rc_maxDepth : Z;
  rc_interactionDepth : Z;
  rc_hasNas : bool;
  rc_naDirection : bool;
  rc_linear : bool;
  rc_overfitPenalty : double;
  rc_categoricalFeatureCols : list Z
}.

(** [forestryTree::reconstruct_tree], on the entries of a flat record: the
    fields are set, the index vectors are moved to base 0, and the nodes
    are rebuilt from copies of the arrays. *)
Definition reconstruct_tree (h : reconstruct_args) (r : tree_info)
  : option forestryTree :=
  let avg :=
    fold_left (fun out i => out ++ [to_size_t (i - 1)]) (averagingSampleIndex r) [] in
  let spt :=
    fold_left (fun out i => out ++ [to_size_t (i - 1)]) (splittingSampleIndex r) [] in
  let st :=
    {| r_var_ids := var_ids r; r_split_vals := split_vals r;
       r_naLeftCounts := naLeftCounts r; r_naRightCounts := naRightCounts r;
       r_naDefaultDirections := naDefaultDirections r;
       r_weights := weights r; r_nodeCount := 0 |} in
  '(root, st') ← recursive_reconstruction (length (var_ids r)) st;
  Some {| _mtry := rc_mtry h;
          _minNodeSizeSpt := rc_minNodeSizeSpt h;
          _minNodeSizeAvg := rc_minNodeSizeAvg h;
          _minNodeSizeToSplitSpt := rc_minNodeSizeToSplitSpt h;
          _minNodeSizeToSplitAvg := rc_minNodeSizeToSplitAvg h;
          _minSplitGain := rc_minSplitGain h;
          _maxDepth := rc_maxDepth h;
          _interactionDepth := rc_interactionDepth h;
          _averagingSampleIndex := avg;
          _splittingSampleIndex := spt;
          _root := Some root;
          _nodeCount := r_nodeCount st';
          _hasNas := rc_hasNas h;
          _naDirection := rc_naDirection h;
          _linear := rc_linear h;
          _overfitPenalty := rc_overfitPenalty h;
          _seed := seed r |}.

(** ** Observations on trees *)

(** The ids of the leaves, from left to right. *)
Fixpoint leaf_ids (node : RFNode) : list Z :=
  match node with
  | Leaf _ _ nodeId _ _ => [nodeId]
  | SplitNode _ _ leftChild rightChild _ _ _ => leaf_ids leftChild ++ leaf_ids rightChild
  end.

(** The id each node was given, in pre-order: a leaf has the id it was
    sealed with, a split node was given none. *)
Fixpoint assigned_ids (node : RFNode) : list (option Z) :=
  match node with
  | Leaf _ _ nodeId _ _ => [Some nodeId]
  | SplitNode _ _ leftChild rightChild _ _ _ =>
      None :: assigned_ids leftChild ++ assigned_ids rightChild
  end.

Fixpoint count_leaves (node : RFNode) : nat :=
  match node with
  | Leaf _ _ _ _ _ => 1%nat
  | SplitNode _ _ leftChild rightChild _ _ _ =>
      (count_leaves leftChild + count_leaves rightChild)%nat
  end.

Fixpoint count_nodes (node : RFNode) : nat :=
  match node with
  | Leaf _ _ _ _ _ => 1%nat
  | SplitNode _ _ leftChild rightChild _ _ _ =>
      S (count_nodes leftChild + count_nodes rightChild)
  end.

(** ** A scripted run: scenario S1 of the spec *)

(** Modelled from the spec: [calculateMonotonicBound] (treeSplitting.cpp is
    not among the sources): the mean projected through the bounds of the
    parent. *)
Definition clamp_to_bounds (node_mean : double) (monotone_details : monotonic_info)
  : double :=
  if (node_mean <? lower_bound monotone_details)%float then lower_bound monotone_details
  else if (upper_bound monotone_details <? node_mean)%float
       then upper_bound monotone_details
       else node_mean.

(** The kernel of the script: it proposes the cut [cut] on the feature it
    is asked about. *)
Definition scripted_kernel (cut : double) (i currentFeature : Z)
    (arrays : best_arrays) : best_arrays :=
  {| bestSplitLossAll := <[Z.to_nat i := 1%float]> (bestSplitLossAll arrays);
     bestSplitValueAll := <[Z.to_nat i := cut]> (bestSplitValueAll arrays);
     bestSplitFeatureAll := <[Z.to_nat i := currentFeature]> (bestSplitFeatureAll arrays);
     bestSplitCountAll := <[Z.to_nat i := 1]> (bestSplitCountAll arrays) |}.

(** Collaborators for running the model: the engine is a counter of draws,
    every draw is 0, the numeric CART kernel and the numeric ridge kernel
    propose the cut [cut], the other kernels find nothing, and the
    reduction takes the first feature's best and its entry of the
    NA-direction array. *)
Definition scripted_with (cut : double) : Collaborators :=
  {| mt19937_64 := Z;
     seeded_engine := fun s => s;
     discrete_distribution := fun _ g => (0, g + 1);
     calculateMonotonicBound := clamp_to_bounds;
     calculateRSS := fun _ _ _ g => (0%float, g);
     ridgeCoefficientsOf := fun _ _ _ => [];
     findBestSplitRidgeCategorical := fun _ _ _ _ arrays _ _ _ g _ _ _ => (arrays, g);
     findBestSplitImputeCategorical := fun _ _ _ _ arrays n _ _ _ g _ => (arrays, n, g);
     findBestSplitValueCategorical := fun _ _ _ _ arrays _ _ _ g _ => (arrays, g);
     findBestSplitRidge :=
       fun _ _ i currentFeature arrays _ _ _ g _ _ _ _ _ =>
         (scripted_kernel cut i currentFeature arrays, g);
     findBestSplitImpute := fun _ _ _ _ arrays n _ _ _ g _ _ _ _ => (arrays, n, g);
     findBestSplitValueNonCategorical :=
       fun _ _ i currentFeature arrays _ _ _ g _ _ _ _ =>
         (scripted_kernel cut i currentFeature arrays, g);
     determineBestSplit :=
       fun _ arrays naDirs g =>
         ((nth 0 (bestSplitFeatureAll arrays) 0,
           nth 0 (bestSplitValueAll arrays) nan,
           nth 0 (bestSplitLossAll arrays) neg_infinity,
           nth 0 naDirs 0), g);
     updateBestSplitG := fun gmat _ _ _ _ => (gmat, gmat);
     updateBestSplitS := fun scol _ _ _ _ => (scol, scol);
     unassigned_monotonic_info :=
       {| monotonic_constraints := []; upper_bound := 0%float;
          lower_bound := 0%float; monotoneAvg := false |} |}.

(** The script of scenario S1: the cut is 5.5. *)
Definition scripted : Collaborators := scripted_with 5.5%float.

(** Ten rows, one feature [x = 1..10], outcome [y = 1..10]. *)
Definition S1_data : DataFrame :=
  {| getPoint := fun row _ => double_of_size_t (row + 1);
     getOutcomePoint := fun row => double_of_size_t (row + 1);
     getLinObsData := fun _ => [];
     getNumColumns := 1;
     getNumRows := 10;
     getCatCols := [];
     getNumCols := [0];
     getfeatureWeights := [];
     getfeatureWeightsVariables := [0];
     getdeepFeatureWeights := [];
     getdeepFeatureWeightsVariables := [0];
     getMonotonicConstraints := [0];
     getMonotoneAvg := false;
     getGroups := [0; 0; 0; 0; 0; 0; 0; 0; 0; 0];
     partitionMean := fun idx =>
       (fold_left (fun acc i => acc + double_of_size_t (i + 1)) idx 0
        / double_of_size_t (vsize idx))%float |}.

Definition S1_args : tree_args :=
  {| trainingData := S1_data;
     mtry := 1;
     minNodeSizeSpt := 1;
     minNodeSizeAvg := 1;
     minNodeSizeToSplitSpt := 1;
     minNodeSizeToSplitAvg := 1;
     minSplitGain := 0%float;
     maxDepth := 1;
     interactionDepth := 100;
     splittingIndexArg := [0; 1; 2; 3; 4; 5; 6; 7; 8; 9];
     averagingIndexArg := [0; 1; 2; 3; 4; 5; 6; 7; 8; 9];
     splitMiddle := false;
     maxObs := 10;
     hasNas := false;
     naDirection := false;
     linear := false;
     overfitPenalty := 1%float;
     seedArg := 42 |}.

(** An object as the default constructor leaves it. *)
Definition blank_tree : forestryTree :=
  {| _mtry := 0; _minNodeSizeSpt := 0; _minNodeSizeAvg := 0;
     _minNodeSizeToSplitSpt := 0; _minNodeSizeToSplitAvg := 0;
     _minSplitGain := 0%float; _maxDepth := 0; _interactionDepth := 0;
     _averagingSampleIndex := []; _splittingSampleIndex := [];
     _root := None; _nodeCount := 0; _hasNas := false; _naDirection := false;
     _linear := false; _overfitPenalty := 0%float; _seed := 0 |}.

(** The tree the script grows on S1: the root splits at 5.5, the left leaf
    has mean 3 and the right leaf mean 8. *)
Definition S1_root : RFNode :=
  SplitNode 0 5.5%float (Leaf 5 5 1 3%float None) (Leaf 5 5 2 8%float None) 0 0 0.

(** The tree object the script builds on S1. *)
Definition S1_tree : forestryTree :=
  {| _mtry := 1; _minNodeSizeSpt := 1; _minNodeSizeAvg := 1;
     _minNodeSizeToSplitSpt := 1; _minNodeSizeToSplitAvg := 1;
     _minSplitGain := 0%float; _maxDepth := 1; _interactionDepth := 100;
     _averagingSampleIndex := [0; 1; 2; 3; 4; 5; 6; 7; 8; 9];
     _splittingSampleIndex := [0; 1; 2; 3; 4; 5; 6; 7; 8; 9];
     _root := Some S1_root; _nodeCount := 2; _hasNas := false;
     _naDirection := false; _linear := false; _overfitPenalty := 1%float;
     _seed := 42 |}.

(** ** Terms of the properties: the constructor's configuration errors *)

(** The conditions under which the constructor throws. *)
Definition bad_configuration (a : tree_args) : Prop :=
  minNodeSizeAvg a = 0 \/ minNodeSizeSpt a = 0
  \/ minNodeSizeToSplitSpt a = 0 \/ minNodeSizeToSplitAvg a = 0
  \/ minNodeSizeToSplitAvg a > vsize (averagingIndexArg a)
  \/ minNodeSizeToSplitSpt a > vsize (splittingIndexArg a)
  \/ maxDepth a = 0
  \/ ((minSplitGain a =? 0)%float = false /\ linear a = false)
  \/ vsize (averagingIndexArg a) = 0 \/ vsize (splittingIndexArg a) = 0
  \/ mtry a = 0 \/ mtry a > getNumColumns (trainingData a).

(** ** Terms of the properties: the monotone bound update *)

(** A parent bounded by [0, 7] with constraint +1 on feature 0.  On the ten
    rows of [increasing_data] the script cuts at 5.5 and the child means
    are 3 and 8: the second is projected to 7, and the bound the children
    share is 5. *)
Definition bounded_parent : monotonic_info :=
  {| monotonic_constraints := [1]; upper_bound := 7%float;
     lower_bound := 0%float; monotoneAvg := true |}.

Definition increasing_data : DataFrame :=
  {| getPoint := getPoint S1_data;
     getOutcomePoint := getOutcomePoint S1_data;
     getLinObsData := getLinObsData S1_data;
     getNumColumns := 1;
     getNumRows := 10;
     getCatCols := [];
     getNumCols := [0];
     getfeatureWeights := [];
     getfeatureWeightsVariables := [0];
     getdeepFeatureWeights := [];
     getdeepFeatureWeightsVariables := [0];
     getMonotonicConstraints := [1];
     getMonotoneAvg := true;
     getGroups := getGroups S1_data;
     partitionMean := partitionMean S1_data |}.

(** ** Terms of the properties: the partition step on rows with NA *)

(** Three rows of one feature; row 0 holds NA. *)
Definition na_data : DataFrame :=
  {| getPoint := fun row _ => if row =? 0 then nan else double_of_size_t row;
     getOutcomePoint := fun row => double_of_size_t row;
     getLinObsData := fun _ => [];
     getNumColumns := 1;
     getNumRows := 3;
     getCatCols := [];
     getNumCols := [0];
     getfeatureWeights := [];
     getfeatureWeightsVariables := [0];
     getdeepFeatureWeights := [];
     getdeepFeatureWeightsVariables := [0];
     getMonotonicConstraints := [0];
     getMonotoneAvg := false;
     getGroups := [0; 0; 0];
     partitionMean := fun _ => 0%float |}.

(** ** Terms of the properties: the partition step away from direction 0 *)

(** Whether a row holds NA on the split feature, and the side its value
    sends it to. *)
Definition holds_na (data : DataFrame) (splitFeature : Z) (it : Z) : bool :=
  isnan (getPoint data it splitFeature).

Definition value_goes_left (data : DataFrame) (splitFeature : Z) (splitValue : double)
    (categoical : bool) (it : Z) : bool :=
  if categoical then (getPoint data it splitFeature =? splitValue)%float
  else (getPoint data it splitFeature <? splitValue)%float.

(** ** Terms of the properties: node ids *)

(** The claim as the spec states it: every node, leaf or split, carries an
    id, and the ids of the nodes are the numbers from 1 to the node count
    of the tree, each once. *)
Definition every_node_has_a_dense_id (t : forestryTree) : Prop :=
  exists root ids,
    _root t = Some root
    /\ assigned_ids root = map Some ids
    /\ Permutation ids (seqZ 1 (_nodeCount t)).

(** ** Terms of the properties: determinism of the construction *)

(** The fields of the tree object that the partitioner reads. *)
Definition same_configuration (t1 t2 : forestryTree) : Prop :=
  _mtry t1 = _mtry t2
  /\ _minNodeSizeSpt t1 = _minNodeSizeSpt t2
  /\ _minNodeSizeAvg t1 = _minNodeSizeAvg t2
  /\ _minNodeSizeToSplitSpt t1 = _minNodeSizeToSplitSpt t2
  /\ _minNodeSizeToSplitAvg t1 = _minNodeSizeToSplitAvg t2
  /\ _minSplitGain t1 = _minSplitGain t2
  /\ _maxDepth t1 = _maxDepth t2
  /\ _interactionDepth t1 = _interactionDepth t2
  /\ _hasNas t1 = _hasNas t2
  /\ _seed t1 = _seed t2.

(** The collaborators [H] where the records that [recursivePartition]
    declares and, without monotone splitting, never assigns hold [u]: such
    a record holds what the stack held, which may differ from one run to
    the next. *)
Definition with_unassigned (H : Collaborators) (u : monotonic_info) : Collaborators :=
  {| mt19937_64 := @mt19937_64 H;
     seeded_engine := @seeded_engine H;
     discrete_distribution := @discrete_distribution H;
     calculateMonotonicBound := @calculateMonotonicBound H;
     calculateRSS := @calculateRSS H;
     ridgeCoefficientsOf := @ridgeCoefficientsOf H;
     findBestSplitRidgeCategorical := @findBestSplitRidgeCategorical H;
     findBestSplitImputeCategorical := @findBestSplitImputeCategorical H;
     findBestSplitValueCategorical := @findBestSplitValueCategorical H;
     findBestSplitRidge := @findBestSplitRidge H;
     findBestSplitImpute := @findBestSplitImpute H;
     findBestSplitValueNonCategorical := @findBestSplitValueNonCategorical H;
     determineBestSplit := @determineBestSplit H;
     updateBestSplitG := @updateBestSplitG H;
     updateBestSplitS := @updateBestSplitS H;
     unassigned_monotonic_info := u |}.

(** The two kernels that are handed a [monotonic_info] read it under
    monotone splitting only. *)
Definition kernels_read_bounds_under_monotone_splits_only `{Collaborators} : Prop :=
  (forall averagingSampleIndex splittingSampleIndex i currentFeature arrays naDirs
          data splitNodeSize averageNodeSize g splitMiddle maxObs md md',
      findBestSplitImpute averagingSampleIndex splittingSampleIndex i currentFeature
        arrays naDirs data splitNodeSize averageNodeSize g splitMiddle maxObs false md
      = findBestSplitImpute averagingSampleIndex splittingSampleIndex i currentFeature
          arrays naDirs data splitNodeSize averageNodeSize g splitMiddle maxObs false md')
  /\ (forall averagingSampleIndex splittingSampleIndex i currentFeature arrays
             data splitNodeSize averageNodeSize g splitMiddle maxObs md md',
         findBestSplitValueNonCategorical averagingSampleIndex splittingSampleIndex i
           currentFeature arrays data splitNodeSize averageNodeSize g splitMiddle maxObs
           false md
         = findBestSplitValueNonCategorical averagingSampleIndex splittingSampleIndex i
             currentFeature arrays data splitNodeSize averageNodeSize g splitMiddle
             maxObs false md').

(** What a record that nobody assigned may hold. *)
Definition leftover_record : monotonic_info :=
  {| monotonic_constraints := [7]; upper_bound := 1%float;
     lower_bound := 2%float; monotoneAvg := true |}.

(** The arguments of S1 with two levels and [naDirection] on: the children
    of the root are searched for a split too, by kernels that are handed
    the records nobody assigned. *)
Definition two_level_args : tree_args :=
  {| trainingData := S1_data;
     mtry := 1;
     minNodeSizeSpt := 1;
     minNodeSizeAvg := 1;
     minNodeSizeToSplitSpt := 1;
     minNodeSizeToSplitAvg := 1;
     minSplitGain := 0%float;
     maxDepth := 2;
     interactionDepth := 100;
     splittingIndexArg := [0; 1; 2; 3; 4; 5; 6; 7; 8; 9];
     averagingIndexArg := [0; 1; 2; 3; 4; 5; 6; 7; 8; 9];
     splitMiddle := false;
     maxObs := 10;
     hasNas := false;
     naDirection := true;
     linear := false;
     overfitPenalty := 1%float;
     seedArg := 42 |}.

(** ** Terms of the properties: out-of-bag indices: sorting and merging *)

(** The number of times [v] occurs in [l]. *)
Definition occurrences (l : list Z) (v : Z) : nat := count_occ Z.eq_dec l v.

(** A tree that holds the given index vectors and nothing else of note. *)
Definition tree_with_indices (avg spt : list Z) : forestryTree :=
  {| _mtry := 1; _minNodeSizeSpt := 1; _minNodeSizeAvg := 1;
     _minNodeSizeToSplitSpt := 1; _minNodeSizeToSplitAvg := 1;
     _minSplitGain := 0%float; _maxDepth := 1; _interactionDepth := 0;
     _averagingSampleIndex := avg; _splittingSampleIndex := spt;
     _root := Some (Leaf 1 1 1 0%float None); _nodeCount := 1; _hasNas := false;
     _naDirection := false; _linear := false; _overfitPenalty := 0%float;
     _seed := 0 |}.

(** ** Terms of the properties: the standard and the honest out-of-bag index *)

(** The claim as the spec states it, for an OOB function [f] and the rows
    [sampled] it is to leave out: what [f] appends is sorted and holds
    exactly the elements of [allIndex] that are not sampled. *)
Definition appends_exactly_the_unsampled (f : oob_state -> oob_state)
    (sampled : forestryTree -> Z -> Prop) (s : oob_state) : Prop :=
  exists oob,
    outputOOBIndex (f s) = outputOOBIndex s ++ oob
    /\ StronglySorted Z.le oob
    /\ forall v, In v oob <-> In v (allIndex s) /\ ~ sampled (oob_tree s) v.

(** Row 5 twice in [allIndex] and once in the averaging vector: one copy
    of it is appended, although the row was sampled. *)
Definition repeated_row_state : oob_state :=
  {| oob_tree := tree_with_indices [5] []; outputOOBIndex := []; allIndex := [5; 5] |}.

(** ** Terms of the properties: the effects of the out-of-bag functions *)

(** Everything a tree holds beside its two index vectors. *)
Definition other_fields_kept (t t' : forestryTree) : Prop :=
  _mtry t' = _mtry t
  /\ _minNodeSizeSpt t' = _minNodeSizeSpt t
  /\ _minNodeSizeAvg t' = _minNodeSizeAvg t
  /\ _minNodeSizeToSplitSpt t' = _minNodeSizeToSplitSpt t
  /\ _minNodeSizeToSplitAvg t' = _minNodeSizeToSplitAvg t
  /\ _minSplitGain t' = _minSplitGain t
  /\ _maxDepth t' = _maxDepth t
  /\ _interactionDepth t' = _interactionDepth t
  /\ _root t' = _root t
  /\ _nodeCount t' = _nodeCount t
  /\ _hasNas t' = _hasNas t
  /\ _naDirection t' = _naDirection t
  /\ _linear t' = _linear t
  /\ _overfitPenalty t' = _overfitPenalty t
  /\ _seed t' = _seed t.

(** The whole effect of an OOB function from [s] to [s']: the averaging
    vector and [allIndex] are sorted in place, the splitting vector is
    sorted in place or left as it is, the output only grows at its end, and
    nothing else changes. *)
Definition sorts_and_appends (sortSplitting : bool) (s s' : oob_state) : Prop :=
  _averagingSampleIndex (oob_tree s') = std_sort (_averagingSampleIndex (oob_tree s))
  /\ _splittingSampleIndex (oob_tree s')
     = (if sortSplitting then std_sort (_splittingSampleIndex (oob_tree s))
        else _splittingSampleIndex (oob_tree s))
  /\ allIndex s' = std_sort (allIndex s)
  /\ (exists oob, outputOOBIndex s' = outputOOBIndex s ++ oob)
  /\ other_fields_kept (oob_tree s) (oob_tree s').

(** The claim on the grouped regime with [doubleOOB] as the spec states
    it: the stored splitting vector is sorted in place as well. *)
Definition grouped_double_sorts_splitting (s : oob_state) (groupMemberships : list Z)
  : Prop :=
  exists s', getOOGIndex s groupMemberships true = Some s' /\ sorts_and_appends true s s'.

(** Splitting rows 2 and 1, in this order, four rows in four groups: the
    run with [doubleOOB] appends row 3 and leaves the splitting vector in
    its order. *)
Definition unsorted_splitting_state : oob_state :=
  {| oob_tree := tree_with_indices [0] [2; 1]; outputOOBIndex := [];
     allIndex := [3; 0; 1; 2] |}.

(** ** Terms of the properties: rebuilding and flattening again *)

(** The six arrays of a flat record that hold the nodes. *)
Record node_arrays : Type := {
  a_var_ids : list Z;
  a_split_vals : list double;
  a_naLeftCounts : list Z;
  a_naRightCounts : list Z;
  a_naDefaultDirections : list Z;
  a_weights : list double
}.

Definition arrays_of_info (r : tree_info) : node_arrays :=
  {| a_var_ids := var_ids r; a_split_vals := split_vals r;
     a_naLeftCounts := naLeftCounts r; a_naRightCounts := naRightCounts r;
     a_naDefaultDirections := naDefaultDirections r; a_weights := weights r |}.

Definition arrays_app (a b : node_arrays) : node_arrays :=
  {| a_var_ids := a_var_ids a ++ a_var_ids b;
     a_split_vals := a_split_vals a ++ a_split_vals b;
     a_naLeftCounts := a_naLeftCounts a ++ a_naLeftCounts b;
     a_naRightCounts := a_naRightCounts a ++ a_naRightCounts b;
     a_naDefaultDirections := a_naDefaultDirections a ++ a_naDefaultDirections b;
     a_weights := a_weights a ++ a_weights b |}.

(** Whether the arrays start with the pre-order encoding of a tree, and
    what follows it.  A leaf is a negative [var_id] above the least [int],
    a second entry that is a count, a weight, and the padding of a leaf in
    the four other arrays; a split node is a [var_id] that is not negative
    and one entry of each of the four other arrays, followed by its left
    and its right subtree.  Every entry is an [int]. *)
Fixpoint well_formed_nodes (pad : leaf_padding) (fuel : nat) (a : node_arrays)
  : option node_arrays :=
  match fuel with
  | O => None
  | S fuel' =>
    '(v, vs) ← pop_front (a_var_ids a);
    '(sv, svs) ← pop_front (a_split_vals a);
    '(nl, nls) ← pop_front (a_naLeftCounts a);
    '(nr, nrs) ← pop_front (a_naRightCounts a);
    '(nd, nds) ← pop_front (a_naDefaultDirections a);
    if negb (is_int v && is_int nl && is_int nr && is_int nd) then None
    else if v <? 0 then
      '(n, vs') ← pop_front vs;
      '(w, ws) ← pop_front (a_weights a);
      if (- 2 ^ 31 <? v) && (0 <=? n) && is_int n
         && PrimFloat.Leibniz.eqb sv (leaf_split_val pad)
         && (nl =? leaf_naLeftCount pad) && (nr =? leaf_naRightCount pad)
         && (nd =? leaf_naDefaultDirection pad)
      then Some {| a_var_ids := vs'; a_split_vals := svs; a_naLeftCounts := nls;
                   a_naRightCounts := nrs; a_naDefaultDirections := nds;
                   a_weights := ws |}
      else None
    else
      a2 ← well_formed_nodes pad fuel'
             {| a_var_ids := vs; a_split_vals := svs; a_naLeftCounts := nls;
                a_naRightCounts := nrs; a_naDefaultDirections := nds;
                a_weights := a_weights a |};
      well_formed_nodes pad fuel' a2
  end.

Definition is_empty {A : Type} (v : list A) : bool :=
  match v with [] => true | _ => false end.

(** A well-formed flat record: the six node arrays are the pre-order
    encoding of one tree and nothing more, the sample indices are [size_t]
    values and the seed an [unsigned int]. *)
Definition well_formed_record (pad : leaf_padding) (r : tree_info) : bool :=
  match well_formed_nodes pad (length (var_ids r)) (arrays_of_info r) with
  | Some rest =>
      is_empty (a_var_ids rest) && is_empty (a_split_vals rest)
      && is_empty (a_naLeftCounts rest) && is_empty (a_naRightCounts rest)
      && is_empty (a_naDefaultDirections rest) && is_empty (a_weights rest)
      && forallb is_size_t (averagingSampleIndex r)
      && forallb is_size_t (splittingSampleIndex r)
      && is_unsigned_int (seed r)
  | None => false
  end.

Ltac unfold_ranges :=
  unfold is_int, is_size_t, is_unsigned_int in *;
  repeat match goal with
         | H : _ && _ = true |- _ => apply andb_true_iff in H; destruct H
         | H : (_ <=? _) = true |- _ => apply Z.leb_le in H
         | H : (_ <? _) = true |- _ => apply Z.ltb_lt in H
         | H : (_ <? _) = false |- _ => apply Z.ltb_ge in H
         | H : (_ =? _) = true |- _ => apply Z.eqb_eq in H
         end.

Ltac solve_wrap :=
  unfold to_int, to_size_t;
  change (2 ^ 64) with 18446744073709551616 in *;
  change (2 ^ 32) with 4294967296 in *;
  change (2 ^ 31) with 2147483648 in *;
  Z.div_mod_to_equations; lia.

Definition state_of_arrays (a : node_arrays) (nodeCount : Z) : recon_state :=
  {| r_var_ids := a_var_ids a; r_split_vals := a_split_vals a;
     r_naLeftCounts := a_naLeftCounts a; r_naRightCounts := a_naRightCounts a;
     r_naDefaultDirections := a_naDefaultDirections a; r_weights := a_weights a;
     r_nodeCount := nodeCount |}.

(** The flat record of the tree grown on S1, with zeros as the padding of
    a leaf. *)
Definition zero_padding : leaf_padding :=
  {| leaf_split_val := 0%float; leaf_naLeftCount := 0; leaf_naRightCount := 0;
     leaf_naDefaultDirection := 0 |}.

Definition S1_record : tree_info :=
  {| var_ids := [1; -5; 5; -5; 5];
     split_vals := [5.5%float; 0%float; 0%float];
     naLeftCounts := [0; 0; 0];
     naRightCounts := [0; 0; 0];
     naDefaultDirections := [0; 0; 0];
     averagingSampleIndex := [1; 2; 3; 4; 5; 6; 7; 8; 9; 10];
     splittingSampleIndex := [1; 2; 3; 4; 5; 6; 7; 8; 9; 10];
     weights := [3%float; 8%float];
     seed := 42 |}.

Definition S1_reconstruct_args : reconstruct_args :=
  {| rc_mtry := 1; rc_minNodeSizeSpt := 1; rc_minNodeSizeAvg := 1;
     rc_minNodeSizeToSplitSpt := 1; rc_minNodeSizeToSplitAvg := 1;
     rc_minSplitGain := 0%float; rc_maxDepth := 1; rc_interactionDepth := 100;
     rc_hasNas := false; rc_naDirection := false; rc_linear := false;
     rc_overfitPenalty := 1%float; rc_categoricalFeatureCols := [] |}.

(** ** Terms of the properties: the depth of a grown tree *)

(** The number of splits on the longest path from a node to a leaf. *)
Fixpoint height (node : RFNode) : Z :=
  match node with
  | Leaf _ _ _ _ _ => 0
  | SplitNode _ _ leftChild rightChild _ _ _ =>
      1 + Z.max (height leftChild) (height rightChild)
  end.

(** ** Terms of the properties: the side a row is sent to *)

(** The side [splitDataIntoTwoParts] sends a row to: under [hasNas] a row
    that holds NA goes left at direction -1, right at direction +1 and to
    neither side otherwise; every other row goes where its value sends
    it. *)
Definition sent_left (data : DataFrame) (splitFeature : Z) (splitValue : double)
    (naBestDirection : Z) (categoical hasNas : bool) (it : Z) : bool :=
  if hasNas && holds_na data splitFeature it then naBestDirection =? -1
  else value_goes_left data splitFeature splitValue categoical it.

Definition sent_right (data : DataFrame) (splitFeature : Z) (splitValue : double)
    (naBestDirection : Z) (categoical hasNas : bool) (it : Z) : bool :=
  if hasNas && holds_na data splitFeature it then naBestDirection =? 1
  else negb (value_goes_left data splitFeature splitValue categoical it).

(** The number of rows of a vector that hold NA on a feature. *)
Definition na_rows (data : DataFrame) (splitFeature : Z) (idx : list Z) : Z :=
  vsize (List.filter (holds_na data splitFeature) idx).

(** ** Terms of the properties: the nodes of a grown tree *)

(** Every node of a tree, the root first. *)
Fixpoint nodes (node : RFNode) : list RFNode :=
  node :: match node with
          | Leaf _ _ _ _ _ => []
          | SplitNode _ _ leftChild rightChild _ _ _ => nodes leftChild ++ nodes rightChild
          end.

(** The averaging counts and the splitting counts of the leaves, summed. *)
Fixpoint averageCount_total (node : RFNode) : Z :=
  match node with
  | Leaf averageCount _ _ _ _ => averageCount
  | SplitNode _ _ leftChild rightChild _ _ _ =>
      averageCount_total leftChild + averageCount_total rightChild
  end.

Fixpoint splitCount_total (node : RFNode) : Z :=
  match node with
  | Leaf _ splitCount _ _ _ => splitCount
  | SplitNode _ _ leftChild rightChild _ _ _ =>
      splitCount_total leftChild + splitCount_total rightChild
  end.

(** A leaf that holds at least one averaging row and one splitting row. *)
Definition leaf_is_inhabited (node : RFNode) : Prop :=
  match node with
  | Leaf averageCount splitCount _ _ _ => 1 <= averageCount /\ 1 <= splitCount
  | SplitNode _ _ _ _ _ _ _ => True
  end.

(** What a split node of a tree grown under [hasNas] and [naDirection]
    holds: a split value that is a number, NA counters of which at most one
    is positive and which are both 0 with [hasNas] off, and, with
    [naDirection] on and both counters at 0, a default direction that is
    -1 or +1. *)
Definition split_node_is_sound (hasNas naDirection : bool) (node : RFNode) : Prop :=
  match node with
  | Leaf _ _ _ _ _ => True
  | SplitNode _ splitValue _ _ naLeftCount naRightCount naDefaultDirection =>
      isnan splitValue = false
      /\ 0 <= naLeftCount /\ 0 <= naRightCount
      /\ (naLeftCount = 0 \/ naRightCount = 0)
      /\ (hasNas = false -> naLeftCount = 0 /\ naRightCount = 0)
      /\ (naDirection = true -> naLeftCount = 0 -> naRightCount = 0 ->
          naDefaultDirection = -1 \/ naDefaultDirection = 1)
  end.

(** The default NA direction of a split node is [draw] of the numbers of
    averaging rows below its two children. *)
Definition default_direction_is (draw : Z -> Z -> Z) (node : RFNode) : Prop :=
  match node with
  | Leaf _ _ _ _ _ => True
  | SplitNode _ _ leftChild rightChild _ _ naDefaultDirection =>
      naDefaultDirection
      = draw (averageCount_total leftChild) (averageCount_total rightChild)
  end.

(** A linear tree on the three rows of [na_data], with [hasNas] and
    [naDirection] on; the script proposes the cut 1.5.  The root is split,
    no NA is counted, and the default direction drawn is -1. *)
Definition na_args : tree_args :=
  {| trainingData := na_data; mtry := 1; minNodeSizeSpt := 1;
     minNodeSizeAvg := 1; minNodeSizeToSplitSpt := 1;
     minNodeSizeToSplitAvg := 1; minSplitGain := 0%float; maxDepth := 1;
     interactionDepth := 100; splittingIndexArg := [0; 1; 2];
     averagingIndexArg := [0; 1; 2]; splitMiddle := false; maxObs := 10;
     hasNas := true; naDirection := true; linear := true;
     overfitPenalty := 1%float; seedArg := 42 |}.

Definition na_tree : forestryTree :=
  {| _mtry := 1; _minNodeSizeSpt := 1; _minNodeSizeAvg := 1;
     _minNodeSizeToSplitSpt := 1; _minNodeSizeToSplitAvg := 1;
     _minSplitGain := 0%float; _maxDepth := 1; _interactionDepth := 100;
     _averagingSampleIndex := [0; 1; 2]; _splittingSampleIndex := [0; 1; 2];
     _root := Some (SplitNode 0 1.5%float (Leaf 1 1 1 0%float (Some []))
                              (Leaf 1 1 2 0%float (Some [])) 0 0 (-1));
     _nodeCount := 2; _hasNas := true; _naDirection := true; _linear := false;
     _overfitPenalty := 1%float; _seed := 42 |}.

(** ** Terms of the properties: a run of the constructor that returns *)

(** The rejection loop of [sampleFeatures] ends within [bound] draws, from
    every state of the generator, on the feature weights of the data and on
    its deep feature weights. *)
Definition sampling_ends_within `{Collaborators} (bound : nat) (mtry : Z)
    (data : DataFrame) : Prop :=
  forall g : mt19937_64,
    sampleFeatures bound mtry g (to_int (getNumColumns data)) false (getNumCols data)
      (getfeatureWeights data) (getfeatureWeightsVariables data) <> None
    /\ sampleFeatures bound mtry g (to_int (getNumColumns data)) false (getNumCols data)
         (getdeepFeatureWeights data) (getdeepFeatureWeightsVariables data) <> None.

(** ** Terms of the properties: the out-of-group index *)

(** The rows whose groups [getOOGIndex] collects: the averaging rows, and
    with [doubleOOB] the splitting rows as well. *)
Definition group_sample (t : forestryTree) (doubleOOB : bool) : list Z :=
  _averagingSampleIndex t ++ (if doubleOOB then _splittingSampleIndex t else []).

(** Row [v] is in the group of one of the rows [sampled]. *)
Definition shares_a_group (groupMemberships sampled : list Z) (v : Z) : Prop :=
  exists row, In row sampled /\ vat groupMemberships row = vat groupMemberships v.

(** ** Terms of the properties: what rebuilding reads *)

(** A flat record with further entries behind its six node arrays. *)
Definition with_trailing_entries (r : tree_info) (more : node_arrays) : tree_info :=
  {| var_ids := var_ids r ++ a_var_ids more;
     split_vals := split_vals r ++ a_split_vals more;
     naLeftCounts := naLeftCounts r ++ a_naLeftCounts more;
     naRightCounts := naRightCounts r ++ a_naRightCounts more;
     naDefaultDirections := naDefaultDirections r ++ a_naDefaultDirections more;
     averagingSampleIndex := averagingSampleIndex r;
     splittingSampleIndex := splittingSampleIndex r;
     weights := weights r ++ a_weights more;
     seed := seed r |}.

(** The state of a reconstruction with further entries behind its arrays. *)
Definition state_with_trailing (st : recon_state) (more : node_arrays) : recon_state :=
  {| r_var_ids := r_var_ids st ++ a_var_ids more;
     r_split_vals := r_split_vals st ++ a_split_vals more;
     r_naLeftCounts := r_naLeftCounts st ++ a_naLeftCounts more;
     r_naRightCounts := r_naRightCounts st ++ a_naRightCounts more;
     r_naDefaultDirections := r_naDefaultDirections st ++ a_naDefaultDirections more;
     r_weights := r_weights st ++ a_weights more;
     r_nodeCount := r_nodeCount st |}.

(** A leaf as [recursive_reconstruction] sets it: an averaging count of at
    least 1 and a splitting count that is not negative. *)
Definition leaf_is_rebuilt (node : RFNode) : Prop :=
  match node with
  | Leaf averageCount splitCount _ _ _ => 1 <= averageCount /\ 0 <= splitCount
  | SplitNode _ _ _ _ _ _ _ => True
  end.

(** ** Utilities (utils.cpp) *)

(** [add_vector]: the entries of a vector of [int] summed into an [int],
    from the first to the last.  A sum that leaves the range of [int]
    wraps around (32 bits, two's complement), as the compiled loop does. *)
Definition add_vector (v : list Z) : Z :=
  fold_left (fun sum x => to_int (sum + x)) v 0.

(** [square]. *)
Definition square (x : double) : double := (x * x)%float.

(** The sum of the entries, in the integers. *)
Definition total (v : list Z) : Z := fold_right Z.add 0 v.

(** ** Out-of-bag predictions *)

(** [RFNode::predict] (RFNode.cpp) and [DataFrame::getAllFeatureData]
    (DataFrame.cpp) are not among the sources.  They are taken as
    parameters.  [RFNode_predict] is handed the arguments of the call in
    [forestryTree::predict], in their order, and returns what it leaves in
    the four objects it may write to: the predictions, the terminal nodes,
    the coefficients and the weight matrix; it changes nothing of the
    tree. *)
Class Predictor : Type := {
  getAllFeatureData : DataFrame -> list (list double);
  RFNode_predict :
    RFNode -> list double -> option (list Z) -> list (list double) -> list Z ->
    option (list Z) -> list (list double) -> DataFrame -> option arma_mat ->
    bool -> bool -> double -> Z -> Z -> option (list Z) ->
    list double * option (list Z) * list (list double) * option arma_mat
}.

(** [forestryTree::predict]: the update index counts up from 0 over the
    output, the averaging index is handed on only with a weight matrix.  A
    tree without a root has no result. *)
Definition predict `{Predictor} (this : forestryTree)
    (outputPrediction : list double) (terminalNodes : option (list Z))
    (outputCoefficients : list (list double)) (xNew : list (list double))
    (trainingData : DataFrame) (weightMatrix : option arma_mat)
    (linear naDirection : bool) (seed nodesizeStrictAvg : Z)
    (OOBIndex : option (list Z))
  : option (list double * option (list Z) * list (list double) * option arma_mat) :=
  root ← _root this;
  let updateIndex := seqZ 0 (vsize outputPrediction) in
  Some (RFNode_predict root outputPrediction terminalNodes outputCoefficients
          updateIndex
          (match weightMatrix with
           | Some _ => Some (_averagingSampleIndex this)
           | None => None
           end)
          xNew trainingData weightMatrix linear naDirection (_overfitPenalty this)
          seed nodesizeStrictAvg OOBIndex).

(** What a call may come to: it returns, it throws [std::out_of_range]
    (from [at]), or its behaviour is undefined (a read or a write outside a
    vector, a null root). *)
Inductive outcome (A : Type) : Type :=
| Returns (a : A)
| Throws_out_of_range
| Undefined.
Arguments Returns {A} a.
Arguments Throws_out_of_range {A}.
Arguments Undefined {A}.

Definition outcome_bind {A B : Type} (m : outcome A) (k : A -> outcome B) : outcome B :=
  match m with
  | Returns a => k a
  | Throws_out_of_range => Throws_out_of_range
  | Undefined => Undefined
  end.

Notation "x ⇐ m ; k" := (outcome_bind m (fun x => k))
  (at level 20, m at level 100, k at level 200, only parsing).

(** A read with [operator[]], and a look-up with [at]. *)
Definition defined {A : Type} (o : option A) : outcome A :=
  match o with Some a => Returns a | None => Undefined end.

Definition checked {A : Type} (o : option A) : outcome A :=
  match o with Some a => Returns a | None => Throws_out_of_range end.

(** Running a step over a vector, from the first entry to the last. *)
Fixpoint for_each {A B : Type} (f : A -> outcome B) (v : list A) : outcome (list B) :=
  match v with
  | [] => Returns []
  | x :: v' => y ⇐ f x; ys ⇐ for_each f v'; Returns (y :: ys)
  end.

(** The loop [map_trainidx[training_idx[i]] = i], with [i] counting up from
    the given value. *)
Fixpoint fill_map_trainidx (training_idx : list Z) (i : Z) (map_trainidx : gmap Z Z)
  : gmap Z Z :=
  match training_idx with
  | [] => map_trainidx
  | x :: rest => fill_map_trainidx rest (i + 1) (<[x := i]> map_trainidx)
  end.

(** The first block of [getOOBPrediction]: the index function of the
    regime, run on an empty [OOBIndex]. *)
Definition regime_index (this : forestryTree) (trainingData : DataFrame)
    (OOBhonest doubleOOB : bool) (group0 : Z) (allIndex0 : list Z) : option oob_state :=
  let s0 := {| oob_tree := this; outputOOBIndex := []; allIndex := allIndex0 |} in
  if negb (group0 =? 0) then
    let group_membership_vector := getGroups trainingData in
    if OOBhonest then getOOGIndex s0 group_membership_vector doubleOOB
    else getOOGIndex s0 group_membership_vector true
  else if OOBhonest then
    if doubleOOB then Some (getDoubleOOBIndex s0) else Some (getOOBhonestIndex s0)
  else Some (getOOBindex s0).

(** The position in the output of an out-of-bag row. *)
Definition position_of (use_training_idx : bool) (map_trainidx : gmap Z Z) (row_idx : Z)
  : outcome Z :=
  if use_training_idx then checked (map_trainidx !! row_idx) else Returns row_idx.

(** The last loop of [getOOBPrediction]: the prediction of the [i]-th
    out-of-bag row is added at the position of the row, and the count
    there grows by 1. *)
Fixpoint accumulate (use_training_idx : bool) (map_trainidx : gmap Z Z)
    (OOBIndex : list Z) (i : Z) (currentTreePrediction : list double)
    (outputOOBPrediction : list double) (outputOOBCount : list Z)
  : outcome (list double * list Z) :=
  match OOBIndex with
  | [] => Returns (outputOOBPrediction, outputOOBCount)
  | row_idx :: rest =>
      p ⇐ defined (vat currentTreePrediction i);
      pos ⇐ position_of use_training_idx map_trainidx row_idx;
      old ⇐ defined (vat outputOOBPrediction pos);
      count ⇐ defined (vat outputOOBCount pos);
      accumulate use_training_idx map_trainidx rest (i + 1) currentTreePrediction
        (<[Z.to_nat pos := (old + p)%float]> outputOOBPrediction)
        (<[Z.to_nat pos := to_size_t (count + 1)]> outputOOBCount)
  end.

(** What [getOOBPrediction] leaves: the tree, the two output vectors and
    the weight matrix. *)
Record oob_prediction : Type := {
  p_tree : forestryTree;
  p_outputOOBPrediction : list double;
  p_outputOOBCount : list Z;
  p_weightMatrix : option arma_mat
}.

Definition getOOBPrediction `{Predictor} (this : forestryTree)
    (outputOOBPrediction : list double) (outputOOBCount : list Z)
    (trainingData : DataFrame) (OOBhonest doubleOOB : bool) (nodesizeStrictAvg : Z)
    (xNew : option (list (list double))) (weightMatrix : option arma_mat)
    (training_idx : list Z) : outcome oob_prediction :=
  let use_training_idx := negb (vsize training_idx =? 0) in
  let allIndex0 :=
    if negb use_training_idx then seqZ 0 (getNumRows trainingData) else training_idx in
  group0 ⇐ checked (vat (getGroups trainingData) 0);
  s ⇐ defined (regime_index this trainingData OOBhonest doubleOOB group0 allIndex0);
  let this := oob_tree s in
  let OOBIndex := outputOOBIndex s in
  let OOBSampleObservations_ :=
    match xNew with
    | None => getAllFeatureData trainingData
    | Some x => x
    end in
  let currentTreePrediction := repeat 0%float (length OOBIndex) in
  let currentTreeCoefficients := repeat ([] : list double) (length OOBIndex) in
  let map_trainidx :=
    if use_training_idx then fill_map_trainidx training_idx 0 ∅ else ∅ in
  indexInTrain ⇐
    (if use_training_idx
     then for_each (fun row_idx => checked (map_trainidx !! row_idx)) OOBIndex
     else Returns (repeat 0 (length OOBIndex)));
  xnew ⇐
    for_each
      (fun k =>
         for_each
           (fun row_idx =>
              column ⇐ defined (vat OOBSampleObservations_ k);
              pos ⇐ position_of use_training_idx map_trainidx row_idx;
              defined (vat column pos))
           OOBIndex)
      (seqZ 0 (getNumColumns trainingData));
  predicted ⇐
    defined (predict this currentTreePrediction None currentTreeCoefficients xnew
               trainingData weightMatrix false (_naDirection this) 44 nodesizeStrictAvg
               (Some (if use_training_idx then indexInTrain else OOBIndex)));
  let '(currentTreePrediction, _, _, weightMatrix) := predicted in
  outputs ⇐
    accumulate use_training_idx map_trainidx OOBIndex 0 currentTreePrediction
      outputOOBPrediction outputOOBCount;
  Returns {| p_tree := this;
             p_outputOOBPrediction := outputs.1;
             p_outputOOBCount := outputs.2;
             p_weightMatrix := weightMatrix |}.

(** A predictor for running the model: the feature data are read off
    [getPoint], and every row is predicted as 1. *)
Definition unit_predictor : Predictor :=
  {| getAllFeatureData := fun data =>
       map (fun k => map (fun row => getPoint data row k) (seqZ 0 (getNumRows data)))
           (seqZ 0 (getNumColumns data));
     RFNode_predict :=
       fun _ outputPrediction terminalNodes outputCoefficients _ _ _ _ weightMatrix
           _ _ _ _ _ _ =>
         (map (fun _ => 1%float) outputPrediction, terminalNodes, outputCoefficients,
          weightMatrix) |}.

(** ** Terms of the properties: out-of-bag predictions *)

(** A count after [k] increments of a [size_t]. *)
Definition counted (k : nat) (count : Z) : Z :=
  Nat.iter k (fun c => to_size_t (c + 1)) count.

(** The run of [getOOBPrediction] on ten rows in one group, a tree that
    averaged over rows 1 and 0 and split on row 2, and outputs at 0: rows
    3 to 9 are predicted and counted once. *)
Definition S1_oob_prediction : oob_prediction :=
  {| p_tree := tree_with_indices [0; 1] [2];
     p_outputOOBPrediction :=
       [0%float; 0%float; 0%float; 1%float; 1%float; 1%float; 1%float;
        1%float; 1%float; 1%float];
     p_outputOOBCount := [0; 0; 0; 1; 1; 1; 1; 1; 1; 1];
     p_weightMatrix := None |}.

(** ** Terms of the properties: routing rows down a tree *)

(** The averaging counts of the leaves, from left to right, and their
    splitting counts. *)
Fixpoint leaf_averageCounts (node : RFNode) : list Z :=
  match node with
  | Leaf averageCount _ _ _ _ => [averageCount]
  | SplitNode _ _ leftChild rightChild _ _ _ =>
      leaf_averageCounts leftChild ++ leaf_averageCounts rightChild
  end.

Fixpoint leaf_splitCounts (node : RFNode) : list Z :=
  match node with
  | Leaf _ splitCount _ _ _ => [splitCount]
  | SplitNode _ _ leftChild rightChild _ _ _ =>
      leaf_splitCounts leftChild ++ leaf_splitCounts rightChild
  end.

(** The weights of the leaves, from left to right. *)
Fixpoint leaf_weights (node : RFNode) : list double :=
  match node with
  | Leaf _ _ _ weight _ => [weight]
  | SplitNode _ _ leftChild rightChild _ _ _ =>
      leaf_weights leftChild ++ leaf_weights rightChild
  end.

(** Rows sent down a tree by the tests of its split nodes: at a split
    node a row goes left when its value on the split feature equals the
    split value (a categorical feature) or is below it (any other
    feature), and right otherwise.  The result is the rows that reach each
    leaf, in the order they came in, for the leaves from left to right. *)
Fixpoint rows_at_leaves (data : DataFrame) (node : RFNode) (rows : list Z)
  : list (list Z) :=
  match node with
  | Leaf _ _ _ _ _ => [rows]
  | SplitNode splitFeature splitValue leftChild rightChild _ _ _ =>
      let categoical := existsb (Z.eqb splitFeature) (getCatCols data) in
      rows_at_leaves data leftChild
        (List.filter (value_goes_left data splitFeature splitValue categoical) rows)
      ++ rows_at_leaves data rightChild
           (List.filter
              (fun it => negb (value_goes_left data splitFeature splitValue categoical it))
              rows)
  end.

(** A split node that holds, in the leaves below it, the minimum number of
    averaging rows and of splitting rows. *)
Definition split_node_is_large_enough (minNodeSizeAvg minNodeSizeSpt : Z)
    (node : RFNode) : Prop :=
  match node with
  | Leaf _ _ _ _ _ => True
  | SplitNode _ _ _ _ _ _ _ =>
      minNodeSizeAvg <= averageCount_total node
      /\ minNodeSizeSpt <= splitCount_total node
  end.

(* ===================================================================== *)
(** * Part II.  Properties                                                *)
(* ===================================================================== *)

(** ** The constructor's configuration errors *)

Lemma sanity_check_throws_iff (a : tree_args) :
  (exists e, sanity_check a = Some e) <-> bad_configuration a.
Proof.
  unfold sanity_check, bad_configuration.
  destruct (Z.eqb_spec (minNodeSizeAvg a) 0); [split; eauto|].
  destruct (Z.eqb_spec (minNodeSizeSpt a) 0); [split; eauto|].
  destruct (Z.eqb_spec (minNodeSizeToSplitSpt a) 0); [split; eauto|].
  destruct (Z.eqb_spec (minNodeSizeToSplitAvg a) 0); [split; eauto 6|].
  destruct (Z.gtb_spec (minNodeSizeToSplitAvg a) (vsize (averagingIndexArg a)));
    [split; intros; [right; right; right; right; left; lia | eauto]|].
  destruct (Z.gtb_spec (minNodeSizeToSplitSpt a) (vsize (splittingIndexArg a)));
    [split; intros; [do 5 right; left; lia | eauto]|].
  destruct (Z.eqb_spec (maxDepth a) 0); [split; intros; [do 6 right; left; lia | eauto]|].
  destruct (minSplitGain a =? 0)%float eqn:Hg, (linear a) eqn:Hl; simpl;
    try (split; intros; [do 7 right; left; split; congruence | eauto]; fail).
  all: destruct (Z.eqb_spec (vsize (averagingIndexArg a)) 0);
    [split; intros; [do 8 right; left; lia | eauto]|].
  all: destruct (Z.eqb_spec (vsize (splittingIndexArg a)) 0);
    [split; intros; [do 9 right; left; lia | eauto]|].
  all: destruct (Z.eqb_spec (mtry a) 0);
    [split; intros; [do 10 right; left; lia | eauto]|].
  all: destruct (Z.gtb_spec (mtry a) (getNumColumns (trainingData a)));
    [split; intros; [do 11 right; lia | eauto]|].
  all: split; [intros [e He]; discriminate|].
  all: intros Hbad; exfalso;
    repeat (destruct Hbad as [Hbad | Hbad]; [try lia; try (destruct Hbad; congruence)|]);
    try lia; try (destruct Hbad; congruence).
Qed.

(** C1.  The constructor throws a configuration error exactly when one of
    the listed conditions holds on its arguments; the error does not wait
    for any growth (the run with no fuel at all throws it too, whatever the
    object held and whatever the state of the generator), so no node is
    built before it; and when none of the conditions holds the result is
    that of the growth. *)
Theorem constructor_throws_iff_bad_configuration `{Collaborators}
    (fuel : nat) (this0 : forestryTree) (a : tree_args) (g : mt19937_64) :
  ((exists e, forestryTree_ctor fuel this0 a g = Threw e) <-> bad_configuration a)
  /\ (forall e, forestryTree_ctor fuel this0 a g = Threw e ->
        forall this1 g1, forestryTree_ctor 0 this1 a g1 = Threw e)
  /\ (~ bad_configuration a ->
        forestryTree_ctor fuel this0 a g
        = match grow fuel this0 a g with
          | Some (t, g') => Built t g'
          | None => NoResult
          end).
Proof.
  pose proof (sanity_check_throws_iff a) as Hiff.
  unfold forestryTree_ctor.
  destruct (sanity_check a) as [e|] eqn:Hs.
  - split; [|split].
    + split; [intros _; apply Hiff; eauto | eauto].
    + intros e' He' this1 g1. exact He'.
    + intros Hn. exfalso. apply Hn, Hiff. eauto.
  - split; [|split].
    + split.
      * intros [e He]. destruct (grow fuel this0 a g) as [[t g']|]; discriminate.
      * intros Hb. apply Hiff in Hb. destruct Hb as [e He]. discriminate.
    + intros e He. destruct (grow fuel this0 a g) as [[t g']|]; discriminate.
    + reflexivity.
Qed.

Example S1_run : @forestryTree_ctor scripted 5 blank_tree S1_args 0 = @Built scripted S1_tree 0.
Proof. vm_compute. reflexivity. Qed.

Example maxDepth_zero_throws :
  @forestryTree_ctor scripted 5 blank_tree
    {| trainingData := S1_data; mtry := 1; minNodeSizeSpt := 1; minNodeSizeAvg := 1;
       minNodeSizeToSplitSpt := 1; minNodeSizeToSplitAvg := 1;
       minSplitGain := 0%float; maxDepth := 0; interactionDepth := 100;
       splittingIndexArg := [0; 1]; averagingIndexArg := [0; 1];
       splitMiddle := false; maxObs := 10; hasNas := false; naDirection := false;
       linear := false; overfitPenalty := 1%float; seedArg := 42 |} 0
  = @Threw scripted maxDepth_zero.
Proof. reflexivity. Qed.

(** ** The terminal tests of the partitioner *)

(** C5.  When the averaging set is smaller than [minNodeSizeAvg], or the
    splitting set smaller than [minNodeSizeSpt], or the depth equals
    [maxDepth], [recursivePartition] seals the node as a leaf: its weight
    is [partitionMean] of the averaging set, its counts are the sizes of
    the two sets, its ridge coefficients are fit on the averaging set when
    [linear] holds, its id is the one [assignNodeId] hands out, and no
    split is searched: the generator comes back as it was handed in. *)
Theorem terminal_test_seals_leaf `{Collaborators} (fuel : nat) (this : forestryTree)
    (nodeCount : Z) (avg spt : list Z) (data : DataFrame) (g : mt19937_64)
    (depth : Z) (splitMiddle : bool) (maxObs : Z) (linear : bool)
    (overfitPenalty : double) (gtotal : option arma_mat) (stotal : option arma_col)
    (monotone_splits : bool) (monotone_details : monotonic_info) (naDirection : bool) :
  vsize avg < _minNodeSizeAvg this \/ vsize spt < _minNodeSizeSpt this
  \/ depth = _maxDepth this ->
  recursivePartition (S fuel) this nodeCount avg spt data g depth splitMiddle
    maxObs linear overfitPenalty gtotal stotal monotone_splits monotone_details
    naDirection
  = Some (Leaf (vsize avg) (vsize spt) (assignNodeId nodeCount).1
               (partitionMean data avg)
               (if linear then Some (ridgeCoefficientsOf avg data overfitPenalty)
                else None),
          (assignNodeId nodeCount).2, g).
Proof.
  intros Hterm. cbn [recursivePartition].
  assert ((vsize avg <? _minNodeSizeAvg this) || (vsize spt <? _minNodeSizeSpt this)
          || (depth =? _maxDepth this) = true) as ->.
  { destruct Hterm as [Ha | [Hs | Hd]].
    - apply Z.ltb_lt in Ha. rewrite Ha. reflexivity.
    - apply Z.ltb_lt in Hs. rewrite Hs. rewrite orb_true_r. reflexivity.
    - apply Z.eqb_eq in Hd. rewrite Hd. rewrite orb_true_r. reflexivity. }
  unfold seal_leaf. destruct (assignNodeId nodeCount) as [node_id nodeCount'].
  reflexivity.
Qed.

(** On S1, a child of the root sits at depth 1, the maximal depth. *)
Lemma terminal_test_seals_leaf_witness :
  (vsize [0; 1; 2; 3; 4] < _minNodeSizeAvg S1_tree
   \/ vsize [0; 1; 2; 3; 4] < _minNodeSizeSpt S1_tree \/ 1 = _maxDepth S1_tree)
  /\ @recursivePartition scripted 1 S1_tree 0 [0; 1; 2; 3; 4] [0; 1; 2; 3; 4]
       S1_data 0 1 false 10 false 1%float None None false
       (@unassigned_monotonic_info scripted) false
     = Some (Leaf 5 5 1 3%float None, 1, 0).
Proof.
  split.
  - right. right. reflexivity.
  - apply (@terminal_test_seals_leaf scripted 0 S1_tree 0 [0; 1; 2; 3; 4]
             [0; 1; 2; 3; 4] S1_data 0 1 false 10 false 1%float None None false
             (@unassigned_monotonic_info scripted) false).
    right. right. reflexivity.
Defined.

(** ** The monotone bound update *)

(** The record the constructor hands the root: the constraint vector and
    the [monotoneAvg] flag of the training data, between the widest
    bounds. *)
Lemma constructor_starts_from_the_constraints_of_the_data `{Collaborators}
    (fuel : nat) (this0 : forestryTree) (a : tree_args) (g g' : mt19937_64)
    (t : forestryTree) :
  forestryTree_ctor fuel this0 a g = Built t g' ->
  exists this gtotal stotal root,
    recursivePartition fuel this 0 (averagingIndexArg a) (splittingIndexArg a)
      (trainingData a) g 0 (splitMiddle a) (maxObs a) (linear a) (overfitPenalty a)
      gtotal stotal
      (negb (forallb (fun i => i =? 0) (getMonotonicConstraints (trainingData a))))
      {| monotonic_constraints := getMonotonicConstraints (trainingData a);
         upper_bound := DBL_MAX;
         lower_bound := (- DBL_MAX)%float;
         monotoneAvg := getMonotoneAvg (trainingData a) |}
      (naDirection a)
    = Some (root, _nodeCount t, g')
    /\ _root t = Some root.
Proof.
  unfold forestryTree_ctor, grow. intros Hrun.
  repeat (case_match; simplify_option_eq).
  all: eexists _, _, _, _; split; [eassumption|reflexivity].
Qed.

(** C8.  A call of [recursivePartition] under monotone splitting that
    seals a split on feature [j] (the node is not terminal, the search
    returns a split value that is a number, none of the four parts is
    empty and the gain test lets the split pass) is the two recursive calls
    on the parts, one level down, with two records for which the following
    holds.  With constraint +1 on [j] in the record of the parent, the
    upper bound of the left child and the lower bound of the right child
    are both the mean of the two child means (the means of the two
    splitting parts) projected through the bounds of the parent, the left
    child keeps the lower bound of the parent and the right child its upper
    bound; with constraint -1 the roles of the two bounds are exchanged;
    with any other constraint, 0 among them, both children keep both bounds
    of the parent.  In every case the children receive the constraint
    vector of the training data, which is the vector of the parent whenever
    the parent carries that of the training data, as the root does
    ([constructor_starts_from_the_constraints_of_the_data]) and hence every
    node of a run, and the [monotoneAvg] flag of the parent. *)
Theorem monotone_bounds_handed_down `{Collaborators} (fuel : nat) (this : forestryTree)
    (nodeCount : Z) (averagingSampleIndex splittingSampleIndex : list Z)
    (data : DataFrame) (g g1 g2 g3 : mt19937_64) (depth : Z) (splitMiddle : bool)
    (maxObs : Z) (linear : bool) (overfitPenalty : double)
    (gtotal : option arma_mat) (stotal : option arma_col)
    (monotone_details : monotonic_info) (naDirection : bool)
    (featureList : list Z) (best : best_split) (parts : split_parts) (direction : Z) :
  (vsize averagingSampleIndex <? _minNodeSizeAvg this)
  || (vsize splittingSampleIndex <? _minNodeSizeSpt this)
  || (depth =? _maxDepth this) = false ->
  sampleFeatures fuel (_mtry this) g (to_int (getNumColumns data)) false (getNumCols data)
    (if depth >=? _interactionDepth this
     then getdeepFeatureWeights data else getfeatureWeights data)
    (if depth >=? _interactionDepth this
     then getdeepFeatureWeightsVariables data else getfeatureWeightsVariables data)
  = Some (featureList, g1) ->
  selectBestFeature this featureList averagingSampleIndex splittingSampleIndex data g1
    splitMiddle maxObs linear overfitPenalty gtotal stotal true monotone_details
  = Some (best, g2) ->
  isnan (bestSplitValue best) = false ->
  parts = splitData data averagingSampleIndex splittingSampleIndex
            (bestSplitFeature best) (bestSplitValue best) (bestSplitNaDir best)
            [] [] [] [] 0 0
            (existsb (Z.eqb (bestSplitFeature best)) (getCatCols data)) (_hasNas this) ->
  to_size_t (vsize (averagingLeftPartitionIndex parts)
             * vsize (averagingRightPartitionIndex parts)
             * vsize (splittingLeftPartitionIndex parts)
             * vsize (splittingRightPartitionIndex parts)) <> 0 ->
  (if (0 <? _minSplitGain this)%float
   then let '(rSquaredDifference, g') :=
          crossValidatedRSquared data splittingSampleIndex
            (splittingLeftPartitionIndex parts) (splittingRightPartitionIndex parts)
            overfitPenalty 1 g2 in
        ((rSquaredDifference <? _minSplitGain this)%float, g')
   else (false, g2)) = (false, g3) ->
  vat (monotonic_constraints monotone_details) (bestSplitFeature best) = Some direction ->
  exists monotonic_details_left monotonic_details_right,
    updateMonotoneConstraints monotone_details (getMonotonicConstraints data)
      (partitionMean data (splittingLeftPartitionIndex parts))
      (partitionMean data (splittingRightPartitionIndex parts)) (bestSplitFeature best)
    = Some (monotonic_details_left, monotonic_details_right)
    /\ recursivePartition (S fuel) this nodeCount averagingSampleIndex
         splittingSampleIndex data g depth splitMiddle maxObs linear overfitPenalty
         gtotal stotal true monotone_details naDirection
       = ('(leftChild, nodeCount1, g4) ←
            recursivePartition fuel this nodeCount (averagingLeftPartitionIndex parts)
              (splittingLeftPartitionIndex parts) data g3 (depth + 1) splitMiddle maxObs
              linear overfitPenalty (if linear then bestSplitGL best else None)
              (if linear then bestSplitSL best else None) true monotonic_details_left
              naDirection;
          '(rightChild, nodeCount2, g5) ←
            recursivePartition fuel this nodeCount1 (averagingRightPartitionIndex parts)
              (splittingRightPartitionIndex parts) data g4 (depth + 1) splitMiddle maxObs
              linear overfitPenalty (if linear then bestSplitGR best else None)
              (if linear then bestSplitSR best else None) true monotonic_details_right
              naDirection;
          Some (SplitNode (bestSplitFeature best) (bestSplitValue best) leftChild
                  rightChild (naLeftCountOut parts) (naRightCountOut parts)
                  (if naDirection && (naLeftCountOut parts =? 0)
                      && (naRightCountOut parts =? 0)
                   then random_na_direction this (averagingLeftPartitionIndex parts)
                          (averagingRightPartitionIndex parts)
                   else bestSplitNaDir best),
                nodeCount2, g5))
    /\ (let midMean :=
          ((calculateMonotonicBound
              (partitionMean data (splittingLeftPartitionIndex parts)) monotone_details
            + calculateMonotonicBound
                (partitionMean data (splittingRightPartitionIndex parts))
                monotone_details) / 2)%float in
        (direction = 1 ->
           upper_bound monotonic_details_left = midMean
           /\ lower_bound monotonic_details_right = midMean
           /\ lower_bound monotonic_details_left = lower_bound monotone_details
           /\ upper_bound monotonic_details_right = upper_bound monotone_details)
        /\ (direction = -1 ->
            lower_bound monotonic_details_left = midMean
            /\ upper_bound monotonic_details_right = midMean
            /\ upper_bound monotonic_details_left = upper_bound monotone_details
            /\ lower_bound monotonic_details_right = lower_bound monotone_details)
        /\ (direction <> 1 -> direction <> -1 ->
            upper_bound monotonic_details_left = upper_bound monotone_details
            /\ lower_bound monotonic_details_left = lower_bound monotone_details
            /\ upper_bound monotonic_details_right = upper_bound monotone_details
            /\ lower_bound monotonic_details_right = lower_bound monotone_details))
    /\ monotonic_constraints monotonic_details_left = getMonotonicConstraints data
    /\ monotonic_constraints monotonic_details_right = getMonotonicConstraints data
    /\ (monotonic_constraints monotone_details = getMonotonicConstraints data ->
        monotonic_constraints monotonic_details_left
        = monotonic_constraints monotone_details
        /\ monotonic_constraints monotonic_details_right
           = monotonic_constraints monotone_details)
    /\ monotoneAvg monotonic_details_left = monotoneAvg monotone_details
    /\ monotoneAvg monotonic_details_right = monotoneAvg monotone_details.
Proof.
  intros Hterm Hsample Hbest Hnan Hparts Hguard Hgain Hdir.
  apply Z.eqb_neq in Hguard.
  destruct (updateMonotoneConstraints monotone_details (getMonotonicConstraints data)
              (partitionMean data (splittingLeftPartitionIndex parts))
              (partitionMean data (splittingRightPartitionIndex parts))
              (bestSplitFeature best)) as [[left right]|] eqn:Hupdate.
  2: { unfold updateMonotoneConstraints in Hupdate. rewrite Hdir in Hupdate.
       cbn [mbind option_bind] in Hupdate.
       destruct (direction =? -1); [discriminate|].
       destruct (direction =? 1); discriminate. }
  exists left, right. split; [reflexivity|]. split.
  - cbn [recursivePartition]. rewrite Hterm.
    destruct (depth >=? _interactionDepth this); rewrite Hsample;
      cbn [mbind option_bind]; rewrite Hbest; cbn [mbind option_bind];
      rewrite Hnan, <- Hparts, Hguard, Hgain, Hupdate; reflexivity.
  - unfold updateMonotoneConstraints in Hupdate. rewrite Hdir in Hupdate.
    cbn [mbind option_bind] in Hupdate.
    destruct (Z.eqb_spec direction (-1)) as [Hm | Hm].
    + injection Hupdate as <- <-. cbn. repeat split; auto; intros; lia.
    + destruct (Z.eqb_spec direction 1) as [Hp | Hp];
        injection Hupdate as <- <-; cbn; repeat split; auto; intros; lia.
Qed.

(** On the ten rows, under constraint +1 and a parent bounded by [0, 7],
    the script splits the root at 5.5: the children are grown under the
    bounds [0, 5] and [5, 7]. *)
Lemma monotone_bounds_handed_down_witness :
  (vsize (_averagingSampleIndex S1_tree) <? _minNodeSizeAvg S1_tree)
  || (vsize (_splittingSampleIndex S1_tree) <? _minNodeSizeSpt S1_tree)
  || (0 =? _maxDepth S1_tree) = false
  /\ @sampleFeatures scripted 1 (_mtry S1_tree) 0
       (to_int (getNumColumns increasing_data)) false (getNumCols increasing_data)
       (getfeatureWeights increasing_data) (getfeatureWeightsVariables increasing_data)
     = Some ([0], 0)
  /\ vat (monotonic_constraints bounded_parent) 0 = Some 1
  /\ exists monotonic_details_left monotonic_details_right,
       @recursivePartition scripted 2 S1_tree 0 (_averagingSampleIndex S1_tree)
         (_splittingSampleIndex S1_tree) increasing_data 0 0 false 10 false 1%float
         None None true bounded_parent false
       = ('(leftChild, nodeCount1, g4) ←
            @recursivePartition scripted 1 S1_tree 0 [0; 1; 2; 3; 4] [0; 1; 2; 3; 4]
              increasing_data 0 1 false 10 false 1%float None None true
              monotonic_details_left false;
          '(rightChild, nodeCount2, g5) ←
            @recursivePartition scripted 1 S1_tree nodeCount1 [5; 6; 7; 8; 9]
              [5; 6; 7; 8; 9] increasing_data g4 1 false 10 false 1%float None None
              true monotonic_details_right false;
          Some (SplitNode 0 5.5%float leftChild rightChild 0 0 0, nodeCount2, g5))
       /\ monotonic_details_left
          = {| monotonic_constraints := [1]; upper_bound := 5%float;
               lower_bound := 0%float; monotoneAvg := true |}
       /\ monotonic_details_right
          = {| monotonic_constraints := [1]; upper_bound := 7%float;
               lower_bound := 5%float; monotoneAvg := true |}.
Proof.
  assert ((vsize (_averagingSampleIndex S1_tree) <? _minNodeSizeAvg S1_tree)
          || (vsize (_splittingSampleIndex S1_tree) <? _minNodeSizeSpt S1_tree)
          || (0 =? _maxDepth S1_tree) = false) as Hterm by reflexivity.
  assert (@sampleFeatures scripted 1 (_mtry S1_tree) 0
            (to_int (getNumColumns increasing_data)) false (getNumCols increasing_data)
            (getfeatureWeights increasing_data)
            (getfeatureWeightsVariables increasing_data)
          = Some ([0], 0)) as Hsample by reflexivity.
  assert (vat (monotonic_constraints bounded_parent) 0 = Some 1) as Hdir by reflexivity.
  split; [exact Hterm|]. split; [exact Hsample|]. split; [exact Hdir|].
  destruct (@monotone_bounds_handed_down scripted 1 S1_tree 0
              (_averagingSampleIndex S1_tree) (_splittingSampleIndex S1_tree)
              increasing_data 0 0 0 0 0 false 10 false 1%float None None
              bounded_parent false [0]
              {| bestSplitFeature := 0; bestSplitValue := 5.5%float;
                 bestSplitLoss := 1%float; bestSplitNaDir := 0;
                 bestSplitGL := None; bestSplitGR := None;
                 bestSplitSL := None; bestSplitSR := None |}
              {| averagingLeftPartitionIndex := [0; 1; 2; 3; 4];
                 averagingRightPartitionIndex := [5; 6; 7; 8; 9];
                 splittingLeftPartitionIndex := [0; 1; 2; 3; 4];
                 splittingRightPartitionIndex := [5; 6; 7; 8; 9];
                 naLeftCountOut := 0; naRightCountOut := 0 |}
              1 Hterm Hsample)
    as (left & right & _ & Hrun & Hbounds & Hcl & Hcr & _ & Hal & Har).
  - vm_compute. reflexivity.
  - reflexivity.
  - vm_compute. reflexivity.
  - vm_compute. discriminate.
  - reflexivity.
  - exact Hdir.
  - exists left, right. split; [exact Hrun|].
    destruct Hbounds as [Hplus _].
    destruct (Hplus eq_refl) as (Hul & Hlr & Hll & Hur).
    destruct left as [cl ul ll al], right as [cr ur lr ar].
    cbn in Hcl, Hcr, Hal, Har, Hul, Hlr, Hll, Hur.
    subst. split; f_equal; vm_compute; reflexivity.
Defined.

(** ** The partition step on rows with NA *)

(** C3.  The partition step at [hasNas = true] and best NA direction 0,
    the value [recursivePartition] starts from: row 0, which holds NA on
    the split feature, reaches neither side of the averaging set nor of the
    splitting set, and no NA is counted. *)
Theorem partition_drops_na_rows_at_direction_zero :
  splitData na_data [0; 1; 2] [0; 1; 2] 0 1.5%float 0 [] [] [] [] 0 0 false true
  = {| averagingLeftPartitionIndex := [1];
       averagingRightPartitionIndex := [2];
       splittingLeftPartitionIndex := [1];
       splittingRightPartitionIndex := [2];
       naLeftCountOut := 0;
       naRightCountOut := 0 |}.
Proof. vm_compute. reflexivity. Qed.

(** With direction -1 or +1 the same row is kept and counted. *)
Example partition_keeps_na_rows_at_direction_plus_one :
  splitData na_data [0; 1; 2] [0; 1; 2] 0 1.5%float 1 [] [] [] [] 0 0 false true
  = {| averagingLeftPartitionIndex := [1];
       averagingRightPartitionIndex := [2; 0];
       splittingLeftPartitionIndex := [1];
       splittingRightPartitionIndex := [2; 0];
       naLeftCountOut := 0;
       naRightCountOut := 1 |}.
Proof. vm_compute. reflexivity. Qed.

(** Direction 0 reaches the partition step: under [linear] the loop of
    [selectBestFeature] calls the ridge kernels only, which are not handed
    the NA-direction array, so [determineBestSplit] receives it as it was
    initialised, all zeros. *)
Lemma ridge_kernels_leave_na_directions `{Collaborators} (this : forestryTree)
    (avg spt : list Z) (data : DataFrame) (splitMiddle : bool) (maxObs : Z)
    (pen : double) (gtotal : option arma_mat) (stotal : option arma_col)
    (ms : bool) (md : monotonic_info) (featureList : list Z) :
  forall arrays naDirs g i,
    (fold_left
       (selectBestFeature_step this avg spt data splitMiddle maxObs true pen
          gtotal stotal ms md)
       featureList (arrays, naDirs, g, i)).1.1.2 = naDirs.
Proof.
  induction featureList as [|feature featureList IH]; intros arrays naDirs g i;
    [reflexivity|].
  cbn [fold_left]. unfold selectBestFeature_step at 2.
  destruct (existsb (Z.eqb feature) (getCatCols data)).
  - destruct (findBestSplitRidgeCategorical avg spt i feature arrays data
                (_minNodeSizeToSplitSpt this) (_minNodeSizeToSplitAvg this) g pen
                gtotal stotal) as [a g'].
    apply IH.
  - destruct (findBestSplitRidge avg spt i feature arrays data
                (_minNodeSizeToSplitSpt this) (_minNodeSizeToSplitAvg this) g
                splitMiddle maxObs pen gtotal stotal) as [a g'].
    apply IH.
Qed.

(** A linear tree grown on the three rows of [na_data] with [hasNas] on,
    the script proposing the cut 1.5: the root is split, and its two
    leaves hold two of the three rows; row 0 is in no leaf. *)
Example na_row_is_lost_in_a_linear_tree :
  exists t g,
    @forestryTree_ctor (scripted_with 1.5%float) 5 blank_tree
      {| trainingData := na_data; mtry := 1; minNodeSizeSpt := 1;
         minNodeSizeAvg := 1; minNodeSizeToSplitSpt := 1;
         minNodeSizeToSplitAvg := 1; minSplitGain := 0%float; maxDepth := 1;
         interactionDepth := 100; splittingIndexArg := [0; 1; 2];
         averagingIndexArg := [0; 1; 2]; splitMiddle := false; maxObs := 10;
         hasNas := true; naDirection := false; linear := true;
         overfitPenalty := 1%float; seedArg := 42 |} 0
    = @Built (scripted_with 1.5%float) t g
    /\ _root t = Some (SplitNode 0 1.5%float (Leaf 1 1 1 0%float (Some []))
                                 (Leaf 1 1 2 0%float (Some [])) 0 0 0).
Proof. eexists _, _. split; vm_compute; reflexivity. Qed.

(** ** The partition step away from direction 0 *)

Lemma route_with_na_step (data : DataFrame) (f : Z) (v : double) (cat : bool)
    (l r na : list Z) (it : Z) :
  route_with_na data f v cat (l, r, na) it
  = (l ++ (if negb (holds_na data f it) && value_goes_left data f v cat it
           then [it] else []),
     r ++ (if negb (holds_na data f it) && negb (value_goes_left data f v cat it)
           then [it] else []),
     na ++ (if holds_na data f it then [it] else [])).
Proof.
  unfold route_with_na, holds_na, value_goes_left.
  destruct cat; destruct (isnan (getPoint data it f)); cbn [negb andb];
    rewrite ?app_nil_r; try reflexivity.
  - destruct (getPoint data it f =? v)%float; cbn [negb]; rewrite ?app_nil_r; reflexivity.
  - destruct (getPoint data it f <? v)%float; cbn [negb]; rewrite ?app_nil_r; reflexivity.
Qed.

Lemma route_with_na_fold (data : DataFrame) (f : Z) (v : double) (cat : bool)
    (idx : list Z) :
  forall l r na,
    fold_left (route_with_na data f v cat) idx (l, r, na)
    = (l ++ List.filter (fun it => negb (holds_na data f it)
                                   && value_goes_left data f v cat it) idx,
       r ++ List.filter (fun it => negb (holds_na data f it)
                                   && negb (value_goes_left data f v cat it)) idx,
       na ++ List.filter (holds_na data f) idx).
Proof.
  induction idx as [|it idx IH]; intros l r na; cbn [fold_left List.filter].
  - rewrite !app_nil_r. reflexivity.
  - rewrite route_with_na_step, IH, <- !app_assoc.
    destruct (holds_na data f it), (value_goes_left data f v cat it); reflexivity.
Qed.

Lemma route_plain_step (data : DataFrame) (f : Z) (v : double) (cat : bool)
    (l r : list Z) (it : Z) :
  route_plain data f v cat (l, r) it
  = (l ++ (if value_goes_left data f v cat it then [it] else []),
     r ++ (if negb (value_goes_left data f v cat it) then [it] else [])).
Proof.
  unfold route_plain, value_goes_left. destruct cat.
  - destruct (getPoint data it f =? v)%float; cbn [negb]; rewrite ?app_nil_r; reflexivity.
  - destruct (getPoint data it f <? v)%float; cbn [negb]; rewrite ?app_nil_r; reflexivity.
Qed.

Lemma route_plain_fold (data : DataFrame) (f : Z) (v : double) (cat : bool)
    (idx : list Z) :
  forall l r,
    fold_left (route_plain data f v cat) idx (l, r)
    = (l ++ List.filter (value_goes_left data f v cat) idx,
       r ++ List.filter (fun it => negb (value_goes_left data f v cat it)) idx).
Proof.
  induction idx as [|it idx IH]; intros l r; cbn [fold_left List.filter].
  - rewrite !app_nil_r. reflexivity.
  - rewrite route_plain_step, IH, <- !app_assoc.
    destruct (value_goes_left data f v cat it); reflexivity.
Qed.

Lemma push_na_all (naIndices partitionIndex : list Z) (naCount : Z) :
  push_na naIndices partitionIndex naCount
  = (partitionIndex ++ naIndices, naCount + vsize naIndices).
Proof.
  unfold push_na, vsize. revert partitionIndex naCount.
  induction naIndices as [|x na IH]; intros p c; cbn [fold_left length].
  - rewrite app_nil_r. f_equal. lia.
  - rewrite IH, <- app_assoc. f_equal. lia.
Qed.

(** Three tests of which every row passes exactly one cut a vector into
    three parts that make it up. *)
Lemma three_way_permutation (p q n : Z -> bool) (idx : list Z) :
  (forall x, (p x, q x, n x) = (true, false, false)
             \/ (p x, q x, n x) = (false, true, false)
             \/ (p x, q x, n x) = (false, false, true)) ->
  Permutation (List.filter p idx ++ List.filter n idx ++ List.filter q idx) idx
  /\ Permutation (List.filter p idx ++ List.filter q idx ++ List.filter n idx) idx.
Proof.
  intros Hone. induction idx as [|x idx [IH1 IH2]]; [split; constructor|].
  cbn [List.filter].
  destruct (Hone x) as [H | [H | H]]; injection H as -> -> ->; cbn [app]; split.
  - constructor. exact IH1.
  - constructor. exact IH2.
  - rewrite app_assoc. symmetry. apply Permutation_cons_app.
    rewrite <- app_assoc. symmetry. exact IH1.
  - symmetry. apply Permutation_cons_app. symmetry. exact IH2.
  - symmetry. apply Permutation_cons_app. symmetry. exact IH1.
  - rewrite app_assoc. symmetry. apply Permutation_cons_app.
    rewrite <- app_assoc. symmetry. exact IH2.
Qed.

Lemma two_way_permutation (p : Z -> bool) (idx : list Z) :
  Permutation (List.filter p idx ++ List.filter (fun x => negb (p x)) idx) idx.
Proof.
  induction idx as [|x idx IH]; [constructor|].
  cbn [List.filter]. destruct (p x); cbn [negb app].
  - constructor. exact IH.
  - symmetry. apply Permutation_cons_app. symmetry. exact IH.
Qed.

(** With [hasNas] off, or with best NA direction -1 or +1,
    [splitDataIntoTwoParts] started on empty vectors routes every index of
    the incoming vector to exactly one side: the two parts together are a
    permutation of the incoming vector (repeated indices keep their
    multiplicity), no index is on both sides, and under [hasNas] the two NA
    counters grow together by the number of incoming rows that hold NA on
    the split feature. *)
Theorem partition_keeps_every_row (data : DataFrame) (idx : list Z) (f : Z)
    (v : double) (d : Z) (cat hasNas : bool) (nl nr : Z) :
  hasNas = false \/ d = -1 \/ d = 1 ->
  exists l r nl' nr',
    splitDataIntoTwoParts data idx f v d [] [] cat hasNas nl nr = (l, r, nl', nr')
    /\ Permutation (l ++ r) idx
    /\ (forall x, In x l -> In x r -> False)
    /\ (if hasNas
        then (nl' - nl) + (nr' - nr) = vsize (List.filter (holds_na data f) idx)
        else nl' = nl /\ nr' = nr).
Proof.
  intros Hcase. unfold splitDataIntoTwoParts.
  assert (forall x,
            (negb (holds_na data f x) && value_goes_left data f v cat x,
             negb (holds_na data f x) && negb (value_goes_left data f v cat x),
             holds_na data f x) = (true, false, false)
            \/ (negb (holds_na data f x) && value_goes_left data f v cat x,
                negb (holds_na data f x) && negb (value_goes_left data f v cat x),
                holds_na data f x) = (false, true, false)
            \/ (negb (holds_na data f x) && value_goes_left data f v cat x,
                negb (holds_na data f x) && negb (value_goes_left data f v cat x),
                holds_na data f x) = (false, false, true)) as Hone.
  { intros x. destruct (holds_na data f x), (value_goes_left data f v cat x); cbn; auto. }
  destruct hasNas.
  - rewrite route_with_na_fold. cbn [app].
    destruct (three_way_permutation _ _ _ idx Hone) as [Hperm1 Hperm2].
    assert (d = -1 \/ d = 1) as [-> | ->] by (destruct Hcase as [? | ?]; [discriminate | assumption]).
    + cbn [Z.eqb Pos.eqb]. rewrite push_na_all.
      eexists _, _, _, _. split; [reflexivity|].
      split; [rewrite <- app_assoc; exact Hperm1|].
      split; [|lia].
      intros x Hl Hr. apply in_app_or in Hl.
      apply filter_In in Hr as [_ Hr].
      destruct Hl as [Hl | Hl]; apply filter_In in Hl as [_ Hl];
        destruct (holds_na data f x), (value_goes_left data f v cat x); discriminate.
    + cbn [Z.eqb Pos.eqb]. rewrite push_na_all.
      eexists _, _, _, _. split; [reflexivity|].
      split; [exact Hperm2|].
      split; [|lia].
      intros x Hl Hr. apply in_app_or in Hr.
      apply filter_In in Hl as [_ Hl].
      destruct Hr as [Hr | Hr]; apply filter_In in Hr as [_ Hr];
        destruct (holds_na data f x), (value_goes_left data f v cat x); discriminate.
  - rewrite route_plain_fold. cbn [app].
    eexists _, _, _, _. split; [reflexivity|].
    split; [apply two_way_permutation|].
    split; [|split; reflexivity].
    intros x Hl Hr. apply filter_In in Hl as [_ Hl]. apply filter_In in Hr as [_ Hr].
    rewrite Hl in Hr. discriminate.
Qed.

Lemma partition_keeps_every_row_witness :
  (true = false \/ 1 = -1 \/ 1 = 1)
  /\ exists l r nl' nr',
       splitDataIntoTwoParts na_data [0; 1; 2] 0 1.5%float 1 [] [] false true 0 0
       = (l, r, nl', nr')
       /\ Permutation (l ++ r) [0; 1; 2]
       /\ (forall x, In x l -> In x r -> False)
       /\ (nl' - 0) + (nr' - 0) = vsize (List.filter (holds_na na_data 0) [0; 1; 2]).
Proof.
  assert (true = false \/ 1 = -1 \/ 1 = 1) as Hcase by (right; right; reflexivity).
  split; [exact Hcase|].
  exact (partition_keeps_every_row na_data [0; 1; 2] 0 1.5%float 1 false true 0 0 Hcase).
Defined.

(** ** Node ids *)

Lemma recursivePartition_leaf_ids `{Collaborators} (fuel : nat) :
  forall this nc avg spt data g depth splitMiddle maxObs linear pen gtotal stotal
         ms md naDirection node nc' g',
    recursivePartition fuel this nc avg spt data g depth splitMiddle maxObs linear
      pen gtotal stotal ms md naDirection = Some (node, nc', g') ->
    leaf_ids node = seqZ (nc + 1) (Z.of_nat (count_leaves node))
    /\ nc' = nc + Z.of_nat (count_leaves node).
Proof.
  induction fuel as [|fuel IH]; intros until g'; intros Hrun; [discriminate|].
  cbn [recursivePartition] in Hrun.
  repeat (case_match; simplify_option_eq);
    try (split; [cbn; f_equal; lia | cbn; lia]).
  all: repeat match goal with
       | Hr : recursivePartition _ _ _ _ _ _ _ _ _ _ _ _ _ _ _ _ _ = Some _ |- _ =>
           apply IH in Hr; destruct Hr as [? ?]
       end.
  all: cbn [leaf_ids count_leaves]; subst.
  all: rewrite Nat2Z.inj_add, seqZ_app by lia.
  all: split; [|lia].
  all: repeat match goal with Hl : leaf_ids _ = _ |- _ => rewrite Hl; clear Hl end.
  all: f_equal; f_equal; lia.
Qed.

Lemma assigned_ids_leaf_ids (node : RFNode) :
  omap id (assigned_ids node) = leaf_ids node
  /\ length (assigned_ids node) = count_nodes node.
Proof.
  induction node as [| f v l [IHl1 IHl2] r [IHr1 IHr2] nl nr nd]; [split; reflexivity|].
  cbn [assigned_ids leaf_ids count_nodes]. split.
  - cbn. rewrite omap_app, IHl1, IHr1. reflexivity.
  - cbn. rewrite length_app, IHl2, IHr2. reflexivity.
Qed.

(** On S1 the root is a split node: it was given no id, and the counter
    of the tree stands at 2 for 3 nodes. *)
Lemma split_node_has_no_id :
  exists t g,
    @forestryTree_ctor scripted 5 blank_tree S1_args 0 = @Built scripted t g
    /\ count_nodes S1_root = 3%nat /\ _nodeCount t = 2
    /\ ~ every_node_has_a_dense_id t.
Proof.
  exists S1_tree, 0. split; [vm_compute; reflexivity|].
  split; [reflexivity|]. split; [reflexivity|].
  intros (root & ids & Hroot & Hids & _).
  injection Hroot as <-. destruct ids; discriminate.
Qed.

(** C9 (amended).  In every grown tree the ids handed out by the counter
    of the tree are the ids of its leaves: read from left to right they
    are 1, 2, ..., [_nodeCount], so they are unique and dense from 1 to the
    number of leaves, which is where the counter stands; a split node is
    given no id, so the ids that were assigned are exactly those of the
    leaves. *)
Theorem leaf_ids_are_dense `{Collaborators} (fuel : nat) (this0 : forestryTree)
    (a : tree_args) (g g' : mt19937_64) (t : forestryTree) :
  forestryTree_ctor fuel this0 a g = Built t g' ->
  exists root,
    _root t = Some root
    /\ leaf_ids root = seqZ 1 (_nodeCount t)
    /\ List.NoDup (leaf_ids root)
    /\ _nodeCount t = Z.of_nat (count_leaves root)
    /\ omap id (assigned_ids root) = leaf_ids root.
Proof.
  unfold forestryTree_ctor, grow. intros Hrun.
  repeat (case_match; simplify_option_eq).
  all: match goal with
  | Hr : recursivePartition _ _ _ _ _ _ _ _ _ _ _ _ _ _ _ _ _ = Some (?r, ?n, _) |- _ =>
      apply recursivePartition_leaf_ids in Hr; destruct Hr as [Hids Hcount];
      assert (leaf_ids r = seqZ 1 n) as Hseq by (rewrite Hids, Hcount; f_equal; lia)
  end.
  all: eexists; split; [reflexivity|]; cbn in *.
  all: repeat split;
    [exact Hseq | rewrite Hseq; apply NoDup_ListNoDup, NoDup_seqZ | lia
    | apply assigned_ids_leaf_ids].
Qed.

Lemma leaf_ids_are_dense_witness :
  @forestryTree_ctor scripted 5 blank_tree S1_args 0 = @Built scripted S1_tree 0
  /\ exists root,
       _root S1_tree = Some root
       /\ leaf_ids root = seqZ 1 (_nodeCount S1_tree)
       /\ List.NoDup (leaf_ids root)
       /\ _nodeCount S1_tree = Z.of_nat (count_leaves root)
       /\ omap id (assigned_ids root) = leaf_ids root.
Proof.
  assert (@forestryTree_ctor scripted 5 blank_tree S1_args 0 = @Built scripted S1_tree 0)
    as Hrun by (vm_compute; reflexivity).
  split; [exact Hrun|].
  exact (@leaf_ids_are_dense scripted 5 blank_tree S1_args 0 0 S1_tree Hrun).
Defined.

(** ** Out-of-bag indices: sorting and merging *)

Lemma std_sort_sorted (v : list Z) : StronglySorted Z.le (std_sort v).
Proof. apply StronglySorted_merge_sort; apply _. Qed.

Lemma std_sort_permutation (v : list Z) : Permutation (std_sort v) v.
Proof. apply merge_sort_Permutation. Qed.

Lemma std_sort_occurrences (l : list Z) (v : Z) :
  occurrences (std_sort l) v = occurrences l v.
Proof. apply Permutation_count_occ, std_sort_permutation. Qed.

Lemma std_sort_In (l : list Z) (v : Z) : In v (std_sort l) <-> In v l.
Proof.
  split; apply Permutation_in; [|symmetry]; apply std_sort_permutation.
Qed.

Lemma push_back_all (out l : list Z) :
  fold_left (fun out it_ => out ++ [it_]) l out = out ++ l.
Proof.
  revert out. induction l as [|x l IH]; intros out; cbn.
  - rewrite app_nil_r. reflexivity.
  - rewrite IH, <- app_assoc. reflexivity.
Qed.

Lemma set_union_nil_r (a : list Z) : set_union a [] = a.
Proof. destruct a; reflexivity. Qed.

Lemma set_union_cons (x y : Z) (a b : list Z) :
  set_union (x :: a) (y :: b)
  = if y <? x then y :: set_union (x :: a) b
    else if x <? y then x :: set_union a (y :: b)
    else x :: set_union a b.
Proof. reflexivity. Qed.

Lemma set_difference_nil_r (a : list Z) : set_difference a [] = a.
Proof. destruct a; reflexivity. Qed.

Lemma set_difference_cons (x y : Z) (a b : list Z) :
  set_difference (x :: a) (y :: b)
  = if x <? y then x :: set_difference a (y :: b)
    else if y <? x then set_difference (x :: a) b
    else set_difference a b.
Proof. reflexivity. Qed.

Lemma occurrences_cons (x v : Z) (l : list Z) :
  occurrences (x :: l) v = ((if Z.eq_dec x v then 1 else 0) + occurrences l v)%nat.
Proof. unfold occurrences. cbn. destruct (Z.eq_dec x v); reflexivity. Qed.

(** Below the head of a sorted vector nothing occurs. *)
Lemma occurrences_below_head (x v : Z) (l : list Z) :
  StronglySorted Z.le (x :: l) -> v < x -> occurrences (x :: l) v = 0%nat.
Proof.
  intros Hs Hlt. apply StronglySorted_inv in Hs as [_ Hall].
  apply count_occ_not_In. intros [-> | Hin]; [lia|].
  rewrite List.Forall_forall in Hall. apply Hall in Hin. lia.
Qed.

Lemma set_union_Forall (P : Z -> Prop) (a : list Z) :
  forall b, Forall P a -> Forall P b -> Forall P (set_union a b).
Proof.
  induction a as [|x a IHa]; intros b Ha Hb; [destruct b; exact Hb|].
  induction b as [|y b IHb]; [rewrite set_union_nil_r; exact Ha|].
  rewrite set_union_cons.
  pose proof (Forall_inv Ha) as Hx. pose proof (Forall_inv_tail Ha) as Ha'.
  pose proof (Forall_inv Hb) as Hy. pose proof (Forall_inv_tail Hb) as Hb'.
  destruct (y <? x); [constructor; auto|].
  destruct (x <? y); constructor; auto.
Qed.

Lemma set_union_sorted (a : list Z) :
  forall b, StronglySorted Z.le a -> StronglySorted Z.le b ->
            StronglySorted Z.le (set_union a b).
Proof.
  induction a as [|x a IHa]; intros b Ha Hb; [destruct b; exact Hb|].
  induction b as [|y b IHb]; [rewrite set_union_nil_r; exact Ha|].
  rewrite set_union_cons.
  pose proof (StronglySorted_inv Ha) as [Ha' Hxa].
  pose proof (StronglySorted_inv Hb) as [Hb' Hyb].
  destruct (Z.ltb_spec y x) as [Hyx | Hxy].
  - apply SSorted_cons; [apply IHb; exact Hb'|].
    apply set_union_Forall; [|exact Hyb].
    constructor; [lia|]. eapply List.Forall_impl; [|exact Hxa]. cbn. intros; lia.
  - destruct (Z.ltb_spec x y) as [Hlt | Hge].
    + apply SSorted_cons; [apply IHa; assumption|].
      apply set_union_Forall; [exact Hxa|].
      constructor; [lia|]. eapply List.Forall_impl; [|exact Hyb]. cbn. intros; lia.
    + assert (x = y) as -> by lia.
      apply SSorted_cons; [apply IHa; assumption|].
      apply set_union_Forall; assumption.
Qed.

(** [std::set_union] keeps of every value the larger of its two
    multiplicities. *)
Lemma set_union_occurrences (a : list Z) :
  forall b, StronglySorted Z.le a -> StronglySorted Z.le b ->
    forall v, occurrences (set_union a b) v
              = Nat.max (occurrences a v) (occurrences b v).
Proof.
  induction a as [|x a IHa]; intros b Ha Hb v; [destruct b; reflexivity|].
  induction b as [|y b IHb]; [rewrite set_union_nil_r; cbn; lia|].
  rewrite set_union_cons.
  pose proof (StronglySorted_inv Ha) as [Ha' _].
  pose proof (StronglySorted_inv Hb) as [Hb' _].
  destruct (Z.ltb_spec y x) as [Hyx | Hxy].
  - rewrite occurrences_cons, (IHb Hb'), (occurrences_cons y v b).
    destruct (Z.eq_dec y v) as [<- | Hne]; [|lia].
    rewrite (occurrences_below_head x y a Ha Hyx). lia.
  - destruct (Z.ltb_spec x y) as [Hlt | Hge].
    + rewrite occurrences_cons, (IHa (y :: b) Ha' Hb), (occurrences_cons x v a).
      destruct (Z.eq_dec x v) as [<- | Hne]; [|lia].
      rewrite (occurrences_below_head y x b Hb Hlt). lia.
    + assert (x = y) as -> by lia.
      rewrite !occurrences_cons, (IHa b Ha' Hb').
      destruct (Z.eq_dec y v); lia.
Qed.

Lemma set_difference_Forall (P : Z -> Prop) (a : list Z) :
  forall b, Forall P a -> Forall P (set_difference a b).
Proof.
  induction a as [|x a IHa]; intros b Ha; [destruct b; constructor|].
  induction b as [|y b IHb]; [rewrite set_difference_nil_r; exact Ha|].
  rewrite set_difference_cons.
  pose proof (Forall_inv Ha) as Hx. pose proof (Forall_inv_tail Ha) as Ha'.
  destruct (x <? y); [constructor; auto|].
  destruct (y <? x); auto.
Qed.

Lemma set_difference_sorted (a : list Z) :
  forall b, StronglySorted Z.le a -> StronglySorted Z.le (set_difference a b).
Proof.
  induction a as [|x a IHa]; intros b Ha; [destruct b; constructor|].
  induction b as [|y b IHb]; [rewrite set_difference_nil_r; exact Ha|].
  rewrite set_difference_cons.
  pose proof (StronglySorted_inv Ha) as [Ha' Hxa].
  destruct (x <? y); [|destruct (y <? x); auto].
  apply SSorted_cons; [apply IHa; exact Ha'|].
  apply set_difference_Forall; exact Hxa.
Qed.

(** [std::set_difference] takes from the multiplicity of every value in
    the first range its multiplicity in the second. *)
Lemma set_difference_occurrences (a : list Z) :
  forall b, StronglySorted Z.le a -> StronglySorted Z.le b ->
    forall v, occurrences (set_difference a b) v
              = (occurrences a v - occurrences b v)%nat.
Proof.
  induction a as [|x a IHa]; intros b Ha Hb v; [destruct b; reflexivity|].
  induction b as [|y b IHb]; [rewrite set_difference_nil_r; cbn; lia|].
  rewrite set_difference_cons.
  pose proof (StronglySorted_inv Ha) as [Ha' _].
  pose proof (StronglySorted_inv Hb) as [Hb' _].
  destruct (Z.ltb_spec x y) as [Hlt | Hge].
  - rewrite occurrences_cons, (IHa (y :: b) Ha' Hb), (occurrences_cons x v a).
    destruct (Z.eq_dec x v) as [<- | Hne]; [|lia].
    rewrite (occurrences_below_head y x b Hb Hlt). lia.
  - destruct (Z.ltb_spec y x) as [Hyx | Hxy].
    + rewrite (IHb Hb'), (occurrences_cons y v b).
      destruct (Z.eq_dec y v) as [<- | Hne]; [|lia].
      rewrite (occurrences_below_head x y a Ha Hyx). lia.
    + assert (x = y) as -> by lia.
      rewrite (IHa b Ha' Hb'), !occurrences_cons.
      destruct (Z.eq_dec y v); lia.
Qed.

(** ** The standard and the honest out-of-bag index *)

Lemma repeated_row_is_appended :
  outputOOBIndex (getOOBindex repeated_row_state) = [5]
  /\ outputOOBIndex (getOOBhonestIndex repeated_row_state) = [5]
  /\ ~ appends_exactly_the_unsampled getOOBindex
         (fun t v => In v (_splittingSampleIndex t) \/ In v (_averagingSampleIndex t))
         repeated_row_state
  /\ ~ appends_exactly_the_unsampled getOOBhonestIndex
         (fun t v => In v (_averagingSampleIndex t)) repeated_row_state.
Proof.
  split; [vm_compute; reflexivity|]. split; [vm_compute; reflexivity|].
  split.
  - intros (oob & Hout & _ & Hin). vm_compute in Hout. subst oob.
    destruct (proj1 (Hin 5)) as [_ Hno]; [left; reflexivity|].
    apply Hno. right. left. reflexivity.
  - intros (oob & Hout & _ & Hin). vm_compute in Hout. subst oob.
    destruct (proj1 (Hin 5)) as [_ Hno]; [left; reflexivity|].
    apply Hno. left. reflexivity.
Qed.

(** What a sorted vector with the multiplicities of a difference holds
    when the first operand has no repeated value. *)
Lemma difference_of_distinct (all oob : list Z) (sampled : Z -> nat) :
  List.NoDup all ->
  (forall v, occurrences oob v = (occurrences all v - sampled v)%nat) ->
  List.NoDup oob /\ forall v, In v oob <-> In v all /\ sampled v = 0%nat.
Proof.
  intros Hnd Hocc. pose proof (proj1 (NoDup_count_occ Z.eq_dec all) Hnd) as Hle.
  split.
  - apply (NoDup_count_occ Z.eq_dec). intros v.
    specialize (Hocc v). specialize (Hle v). unfold occurrences in Hocc. lia.
  - intros v. specialize (Hocc v). specialize (Hle v). unfold occurrences in Hocc.
    rewrite (count_occ_In Z.eq_dec oob v), (count_occ_In Z.eq_dec all v). lia.
Qed.

(** C6 (amended).  For every [allIndex], in any order, and every tree:
    what [getOOBindex] appends to its output is in ascending order and
    holds every value [v] as many times as [v] occurs in [allIndex] beyond
    the larger of its numbers of occurrences in the splitting and in the
    averaging vector; what [getOOBhonestIndex] appends is in ascending
    order and holds [v] as many times as it occurs in [allIndex] beyond
    its occurrences in the averaging vector.  When [allIndex] has no
    repeated value, the appended values have none either and are exactly
    the elements of [allIndex] that are in neither vector (for the honest
    index: not in the averaging vector). *)
Theorem oob_index_is_sorted_difference (s : oob_state) :
  (exists oob,
     outputOOBIndex (getOOBindex s) = outputOOBIndex s ++ oob
     /\ StronglySorted Z.le oob
     /\ (forall v,
           occurrences oob v
           = (occurrences (allIndex s) v
              - Nat.max (occurrences (_splittingSampleIndex (oob_tree s)) v)
                        (occurrences (_averagingSampleIndex (oob_tree s)) v))%nat)
     /\ (List.NoDup (allIndex s) ->
         List.NoDup oob
         /\ forall v, In v oob <->
                      In v (allIndex s)
                      /\ ~ In v (_splittingSampleIndex (oob_tree s))
                      /\ ~ In v (_averagingSampleIndex (oob_tree s))))
  /\ (exists oob,
        outputOOBIndex (getOOBhonestIndex s) = outputOOBIndex s ++ oob
        /\ StronglySorted Z.le oob
        /\ (forall v,
              occurrences oob v
              = (occurrences (allIndex s) v
                 - occurrences (_averagingSampleIndex (oob_tree s)) v)%nat)
        /\ (List.NoDup (allIndex s) ->
            List.NoDup oob
            /\ forall v, In v oob <->
                         In v (allIndex s)
                         /\ ~ In v (_averagingSampleIndex (oob_tree s)))).
Proof.
  split.
  - eexists. split; [unfold getOOBindex; cbn; apply push_back_all|].
    assert (forall v,
              occurrences
                (set_difference (std_sort (allIndex s))
                   (set_union (std_sort (_splittingSampleIndex (oob_tree s)))
                              (std_sort (_averagingSampleIndex (oob_tree s))))) v
              = (occurrences (allIndex s) v
                 - Nat.max (occurrences (_splittingSampleIndex (oob_tree s)) v)
                           (occurrences (_averagingSampleIndex (oob_tree s)) v))%nat)
      as Hocc.
    { intros v.
      rewrite set_difference_occurrences, set_union_occurrences,
        !std_sort_occurrences;
        auto using std_sort_sorted, set_union_sorted. }
    split; [apply set_difference_sorted, std_sort_sorted|].
    split; [exact Hocc|].
    intros Hnd. destruct (difference_of_distinct _ _ _ Hnd Hocc) as [Hnd' Hin].
    split; [exact Hnd'|]. intros v. rewrite Hin.
    pose proof (count_occ_not_In Z.eq_dec (_splittingSampleIndex (oob_tree s)) v) as Hs.
    pose proof (count_occ_not_In Z.eq_dec (_averagingSampleIndex (oob_tree s)) v) as Ha.
    unfold occurrences. split.
    + intros [Hall Hmax]. split; [exact Hall|].
      split; [apply Hs; lia | apply Ha; lia].
    + intros (Hall & Hns & Hna). split; [exact Hall|].
      apply Hs in Hns. apply Ha in Hna. lia.
  - eexists. split; [unfold getOOBhonestIndex; cbn; apply push_back_all|].
    assert (forall v,
              occurrences
                (set_difference (std_sort (allIndex s))
                   (std_sort (_averagingSampleIndex (oob_tree s)))) v
              = (occurrences (allIndex s) v
                 - occurrences (_averagingSampleIndex (oob_tree s)) v)%nat)
      as Hocc.
    { intros v.
      rewrite set_difference_occurrences, !std_sort_occurrences;
        auto using std_sort_sorted. }
    split; [apply set_difference_sorted, std_sort_sorted|].
    split; [exact Hocc|].
    intros Hnd. destruct (difference_of_distinct _ _ _ Hnd Hocc) as [Hnd' Hin].
    split; [exact Hnd'|]. intros v. rewrite Hin.
    pose proof (count_occ_not_In Z.eq_dec (_averagingSampleIndex (oob_tree s)) v) as Ha.
    unfold occurrences. split.
    + intros [Hall Hzero]. split; [exact Hall | apply Ha; exact Hzero].
    + intros [Hall Hna]. split; [exact Hall | apply Ha; exact Hna].
Qed.

(** ** The double-honest index *)

(** C7.  [getDoubleOOBIndex] and [getOOBindex] leave the same output, the
    same [allIndex] and the same tree, for every tree, output and
    [allIndex]. *)
Theorem double_oob_index_is_oob_index (s : oob_state) :
  getDoubleOOBIndex s = getOOBindex s.
Proof. unfold getDoubleOOBIndex, getOOBindex. reflexivity. Qed.

(** ** The effects of the out-of-bag functions *)

Lemma vat_in_range {A : Type} (v : list A) (i : Z) :
  0 <= i < vsize v -> exists x, vat v i = Some x.
Proof.
  intros [Hlo Hhi]. unfold vat, vsize in *.
  destruct (Z.ltb_spec i 0) as [|_]; [lia|].
  destruct (nth_error v (Z.to_nat i)) as [x|] eqn:Hnth; [eauto|].
  apply nth_error_None in Hnth. lia.
Qed.

Lemma insert_groups_in_range (groupMemberships rows : list Z) :
  Forall (fun row => 0 <= row < vsize groupMemberships) rows ->
  forall seen, exists seen', insert_groups groupMemberships rows seen = Some seen'.
Proof.
  induction 1 as [|row rows Hrow _ IH]; intros seen; cbn; [eauto|].
  destruct (vat_in_range groupMemberships row Hrow) as [grp ->]. cbn. apply IH.
Qed.

Lemma push_out_of_group_in_range (groupMemberships rows : list Z) (seen : gset Z) :
  Forall (fun row => 0 <= row < vsize groupMemberships) rows ->
  forall out, exists oob,
    push_out_of_group groupMemberships seen rows out = Some (out ++ oob).
Proof.
  induction 1 as [|row rows Hrow _ IH]; intros out; cbn.
  - exists []. rewrite app_nil_r. reflexivity.
  - destruct (vat_in_range groupMemberships row Hrow) as [grp ->]. cbn.
    destruct (bool_decide (grp ∈ seen)); [apply IH|].
    destruct (IH (out ++ [row])) as [oob ->].
    exists (row :: oob). rewrite <- app_assoc. reflexivity.
Qed.

Lemma Forall_std_sort (P : Z -> Prop) (v : list Z) : Forall P v -> Forall P (std_sort v).
Proof.
  intros Hall. rewrite List.Forall_forall in *. intros x Hx.
  apply Hall, std_sort_In, Hx.
Qed.

Lemma grouped_double_leaves_splitting_unsorted :
  getOOGIndex unsorted_splitting_state [7; 8; 9; 10] true
  = Some {| oob_tree := tree_with_indices [0] [2; 1]; outputOOBIndex := [3];
            allIndex := [0; 1; 2; 3] |}
  /\ ~ grouped_double_sorts_splitting unsorted_splitting_state [7; 8; 9; 10].
Proof.
  assert (getOOGIndex unsorted_splitting_state [7; 8; 9; 10] true
          = Some {| oob_tree := tree_with_indices [0] [2; 1]; outputOOBIndex := [3];
                    allIndex := [0; 1; 2; 3] |}) as Hrun by (vm_compute; reflexivity).
  split; [exact Hrun|].
  intros (s' & Hs' & _ & Hspt & _). rewrite Hrun in Hs'. injection Hs' as <-.
  vm_compute in Hspt. discriminate.
Qed.

(** C10 (amended).  Each OOB index computation sorts in place the
    caller's [allIndex] and the stored averaging vector of the tree;
    [getOOBindex] and [getDoubleOOBIndex] also sort the stored splitting
    vector, while [getOOBhonestIndex] and [getOOGIndex] (with and without
    [doubleOOB]) leave it as it is; beside this and the values appended to
    the output, nothing of the tree or of the arguments changes.  Sorting
    leaves the sorted permutation of the vector.  [getOOGIndex] reads the
    group of every row it meets, so the rows are to be positions of
    [groupMemberships]. *)
Theorem oob_functions_sort_and_append (s : oob_state) (groupMemberships : list Z)
    (doubleOOB : bool) :
  Forall (fun row => 0 <= row < vsize groupMemberships)
         (_averagingSampleIndex (oob_tree s) ++ _splittingSampleIndex (oob_tree s)
          ++ allIndex s) ->
  (forall v, StronglySorted Z.le (std_sort v) /\ Permutation (std_sort v) v)
  /\ sorts_and_appends true s (getOOBindex s)
  /\ sorts_and_appends true s (getDoubleOOBIndex s)
  /\ sorts_and_appends false s (getOOBhonestIndex s)
  /\ exists s', getOOGIndex s groupMemberships doubleOOB = Some s'
                /\ sorts_and_appends false s s'.
Proof.
  intros Hrange.
  apply Forall_app in Hrange as [Havg Hrest].
  apply Forall_app in Hrest as [Hspt Hall].
  split; [intros v; split; [apply std_sort_sorted | apply std_sort_permutation]|].
  split; [|split; [|split]].
  - unfold sorts_and_appends, getOOBindex. cbn.
    repeat split. eexists. apply push_back_all.
  - unfold sorts_and_appends, getDoubleOOBIndex. cbn.
    repeat split. eexists. apply push_back_all.
  - unfold sorts_and_appends, getOOBhonestIndex. cbn.
    repeat split. eexists. apply push_back_all.
  - unfold getOOGIndex. cbn.
    destruct (insert_groups_in_range groupMemberships
                (std_sort (_averagingSampleIndex (oob_tree s)))
                (Forall_std_sort _ _ Havg) ∅) as [seen1 ->]. cbn.
    assert (exists seen2,
              (if doubleOOB
               then insert_groups groupMemberships (_splittingSampleIndex (oob_tree s)) seen1
               else Some seen1) = Some seen2) as [seen2 ->].
    { destruct doubleOOB; [apply insert_groups_in_range; exact Hspt | eauto]. }
    cbn.
    destruct (push_out_of_group_in_range groupMemberships (std_sort (allIndex s))
                seen2 (Forall_std_sort _ _ Hall) (outputOOBIndex s)) as [oob ->].
    cbn. eexists. split; [reflexivity|].
    unfold sorts_and_appends. cbn. repeat split. exists oob. reflexivity.
Qed.

Lemma oob_functions_sort_and_append_witness :
  Forall (fun row => 0 <= row < vsize [7; 8; 9; 10])
         (_averagingSampleIndex (oob_tree unsorted_splitting_state)
          ++ _splittingSampleIndex (oob_tree unsorted_splitting_state)
          ++ allIndex unsorted_splitting_state)
  /\ sorts_and_appends true unsorted_splitting_state
       (getOOBindex unsorted_splitting_state)
  /\ exists s', getOOGIndex unsorted_splitting_state [7; 8; 9; 10] true = Some s'
                /\ sorts_and_appends false unsorted_splitting_state s'.
Proof.
  assert (Forall (fun row => 0 <= row < vsize [7; 8; 9; 10])
            (_averagingSampleIndex (oob_tree unsorted_splitting_state)
             ++ _splittingSampleIndex (oob_tree unsorted_splitting_state)
             ++ allIndex unsorted_splitting_state)) as Hrange.
  { cbn. repeat constructor; vm_compute; discriminate. }
  split; [exact Hrange|].
  destruct (oob_functions_sort_and_append unsorted_splitting_state [7; 8; 9; 10]
              true Hrange) as (_ & Hoob & _ & _ & Hgroup).
  split; [exact Hoob | exact Hgroup].
Defined.

(** ** Rebuilding and flattening again *)

Lemma int_through_size_t (x : Z) : is_int x = true -> to_int (to_size_t x) = x.
Proof. intros H. unfold_ranges. solve_wrap. Qed.

Lemma split_var_id_round_trip (v : Z) :
  is_int v = true -> (v <? 0) = false ->
  to_int (to_size_t (to_size_t (v - 1) + 1)) = v.
Proof. intros H Hneg. unfold_ranges. solve_wrap. Qed.

Lemma index_round_trip (i : Z) :
  is_size_t i = true -> to_size_t (to_size_t (i - 1) + 1) = i.
Proof. intros H. unfold_ranges. solve_wrap. Qed.

Lemma pop_front_Some {A : Type} (v : list A) (x : A) (v' : list A) :
  pop_front v = Some (x, v') -> v = x :: v'.
Proof. destruct v; cbn; congruence. Qed.

(** On well-formed arrays the deserialiser builds a node, consumes what
    the check consumed, and flattening the node writes back what was
    consumed. *)
Lemma reconstruction_inverts_flattening (pad : leaf_padding) (fuel : nat) :
  forall a a', well_formed_nodes pad fuel a = Some a' ->
  forall nodeCount, exists node nodeCount',
    recursive_reconstruction fuel (state_of_arrays a nodeCount)
    = Some (node, state_of_arrays a' nodeCount')
    /\ forall info,
         arrays_app (arrays_of_info (write_node_info pad node info)) a'
         = arrays_app (arrays_of_info info) a
         /\ averagingSampleIndex (write_node_info pad node info)
            = averagingSampleIndex info
         /\ splittingSampleIndex (write_node_info pad node info)
            = splittingSampleIndex info
         /\ seed (write_node_info pad node info) = seed info.
Proof.
  induction fuel as [|fuel IH]; intros a a' Hwf nodeCount; [discriminate|].
  destruct a as [vids svals nls nrs nds ws].
  cbn [well_formed_nodes a_var_ids a_split_vals a_naLeftCounts a_naRightCounts
       a_naDefaultDirections a_weights] in Hwf.
  destruct (pop_front vids) as [[v vs]|] eqn:Hv; [|discriminate].
  destruct (pop_front svals) as [[sv svs]|] eqn:Hsv; [|discriminate].
  destruct (pop_front nls) as [[nl nls']|] eqn:Hnl; [|discriminate].
  destruct (pop_front nrs) as [[nr nrs']|] eqn:Hnr; [|discriminate].
  destruct (pop_front nds) as [[nd nds']|] eqn:Hnd; [|discriminate].
  cbn [mbind option_bind] in Hwf.
  apply pop_front_Some in Hv, Hsv, Hnl, Hnr, Hnd. subst vids svals nls nrs nds.
  destruct (is_int v && is_int nl && is_int nr && is_int nd) eqn:Hint;
    [|discriminate].
  cbn [negb] in Hwf.
  apply andb_true_iff in Hint as [Hint Hind].
  apply andb_true_iff in Hint as [Hint Hinr].
  apply andb_true_iff in Hint as [Hiv Hinl].
  destruct (v <? 0) eqn:Hneg.
  all: cbn [recursive_reconstruction state_of_arrays r_var_ids r_split_vals
            r_naLeftCounts r_naRightCounts r_naDefaultDirections r_weights
            r_nodeCount pop_front mbind option_bind a_var_ids a_split_vals
            a_naLeftCounts a_naRightCounts a_naDefaultDirections a_weights].
  all: rewrite Hneg.
  - destruct (pop_front vs) as [[n vs']|] eqn:Hn; [|discriminate].
    destruct (pop_front ws) as [[w ws']|] eqn:Hw; [|discriminate].
    cbn [mbind option_bind] in Hwf.
    apply pop_front_Some in Hn, Hw. subst vs ws.
    match type of Hwf with
    | (if ?c then _ else _) = _ => destruct c eqn:Hc; [|discriminate]
    end.
    injection Hwf as <-.
    repeat (apply andb_true_iff in Hc; destruct Hc as [Hc ?]).
    assert (sv = leaf_split_val pad) as ->
      by (apply FloatAxioms.Leibniz.eqb_spec; assumption).
    unfold_ranges. subst nl nr nd.
    assert (int_abs v = Some (- v)) as Habs_v.
    { unfold int_abs. destruct (Z.eqb_spec v (- 2 ^ 31)); [lia|].
      f_equal. lia. }
    assert (int_abs n = Some n) as Habs_n.
    { unfold int_abs. destruct (Z.eqb_spec n (- 2 ^ 31)); [lia|].
      f_equal. lia. }
    eexists _, _. split.
    { rewrite Habs_v. cbn [mbind option_bind pop_front]. rewrite Habs_n.
      cbn [mbind option_bind pop_front assignNodeId]. reflexivity. }
    intros info. cbn [write_node_info]. repeat split.
    unfold arrays_app, arrays_of_info. cbn.
    rewrite <- !app_assoc. cbn.
    assert (to_int (- - v) = v) as -> by solve_wrap.
    assert (to_int n = n) as -> by solve_wrap.
    reflexivity.
  - destruct (well_formed_nodes pad fuel _) as [a2|] eqn:Hleft in Hwf;
      [|discriminate].
    cbn [mbind option_bind] in Hwf.
    destruct (IH _ _ Hleft nodeCount) as (leftChild & nc1 & Hrun1 & Hinfo1).
    destruct (IH _ _ Hwf nc1) as (rightChild & nc2 & Hrun2 & Hinfo2).
    unfold state_of_arrays in Hrun1 at 1. cbn in Hrun1.
    eexists _, _. split.
    { rewrite Hrun1. cbn [mbind option_bind]. rewrite Hrun2.
      cbn [mbind option_bind]. reflexivity. }
    intros info. cbn [write_node_info].
    match goal with
    | |- context [write_node_info pad rightChild (write_node_info pad leftChild ?h)] =>
        set (here := h)
    end.
    destruct (Hinfo1 here) as (Ha1 & Hb1 & Hc1 & Hd1).
    destruct (Hinfo2 (write_node_info pad leftChild here)) as (Ha2 & Hb2 & Hc2 & Hd2).
    rewrite Ha2, Ha1, Hb2, Hb1, Hc2, Hc1, Hd2, Hd1.
    repeat split.
    unfold arrays_app, arrays_of_info, here. cbn.
    rewrite <- !app_assoc. cbn.
    rewrite (split_var_id_round_trip v Hiv Hneg), !int_through_size_t by assumption.
    reflexivity.
Qed.

Lemma push_back_map {A : Type} (f : A -> Z) (l : list A) (out : list Z) :
  fold_left (fun out i => out ++ [f i]) l out = out ++ map f l.
Proof.
  revert out. induction l as [|x l IH]; intros out; cbn.
  - rewrite app_nil_r. reflexivity.
  - rewrite IH, <- app_assoc. reflexivity.
Qed.

Lemma indices_round_trip (l : list Z) :
  forallb is_size_t l = true ->
  fold_left (fun out i => out ++ [to_size_t (i + 1)])
            (fold_left (fun out i => out ++ [to_size_t (i - 1)]) l []) []
  = l.
Proof.
  intros Hall. rewrite !push_back_map. cbn. rewrite map_map.
  induction l as [|i l IH]; [reflexivity|].
  cbn in Hall. apply andb_true_iff in Hall as [Hi Hl].
  cbn. rewrite (index_round_trip i Hi), (IH Hl). reflexivity.
Qed.

Lemma is_empty_nil {A : Type} (v : list A) : is_empty v = true -> v = [].
Proof. destruct v; [reflexivity | discriminate]. Qed.

(** C2.  For every well-formed flat record, [reconstruct_tree] builds a
    tree from it and [getTreeInfo] flattens that tree to the very same
    record, the sample index vectors in base 1 and the seed included. *)
Theorem flatten_after_reconstruct_is_identity (pad : leaf_padding)
    (h : reconstruct_args) (r : tree_info) :
  well_formed_record pad r = true ->
  exists t, reconstruct_tree h r = Some t /\ getTreeInfo pad t = Some r.
Proof.
  unfold well_formed_record. intros Hwf.
  destruct (well_formed_nodes pad (length (var_ids r)) (arrays_of_info r))
    as [rest|] eqn:Hnodes; [|discriminate].
  repeat (apply andb_true_iff in Hwf; destruct Hwf as [Hwf ?]).
  repeat match goal with
         | H : is_empty _ = true |- _ => apply is_empty_nil in H
         end.
  destruct (reconstruction_inverts_flattening pad _ _ _ Hnodes 0)
    as (root & nodeCount & Hrun & Hinfo).
  unfold reconstruct_tree.
  change {| r_var_ids := var_ids r; r_split_vals := split_vals r;
            r_naLeftCounts := naLeftCounts r; r_naRightCounts := naRightCounts r;
            r_naDefaultDirections := naDefaultDirections r;
            r_weights := weights r; r_nodeCount := 0 |}
    with (state_of_arrays (arrays_of_info r) 0).
  rewrite Hrun. cbn [mbind option_bind].
  eexists. split; [reflexivity|].
  unfold getTreeInfo.
  cbn [_root _averagingSampleIndex _splittingSampleIndex _seed mbind option_bind].
  destruct (Hinfo new_tree_info) as (Harrays & Havg & Hspt & _).
  rewrite Havg, Hspt. cbn [new_tree_info averagingSampleIndex splittingSampleIndex].
  rewrite !indices_round_trip by assumption.
  destruct rest as [vs svs nls nrs nds ws]. cbn in *. subst.
  unfold arrays_app, arrays_of_info in Harrays. cbn in Harrays.
  rewrite !app_nil_r in Harrays.
  injection Harrays as -> -> -> -> -> ->.
  destruct r; reflexivity.
Qed.

Example S1_flat_record : getTreeInfo zero_padding S1_tree = Some S1_record.
Proof. vm_compute. reflexivity. Qed.

Lemma flatten_after_reconstruct_is_identity_witness :
  well_formed_record zero_padding S1_record = true
  /\ exists t, reconstruct_tree S1_reconstruct_args S1_record = Some t
               /\ getTreeInfo zero_padding t = Some S1_record.
Proof.
  assert (well_formed_record zero_padding S1_record = true) as Hwf
    by (vm_compute; reflexivity).
  split; [exact Hwf|].
  exact (flatten_after_reconstruct_is_identity zero_padding S1_reconstruct_args
           S1_record Hwf).
Defined.

(** A record that stops in the middle of a leaf is not well formed, and
    the deserialiser reads past the end of its arrays. *)
Example truncated_record_is_rejected :
  let r := {| var_ids := [1; -5; 5; -5]; split_vals := [5.5%float; 0%float; 0%float];
              naLeftCounts := [0; 0; 0]; naRightCounts := [0; 0; 0];
              naDefaultDirections := [0; 0; 0]; averagingSampleIndex := [1];
              splittingSampleIndex := [1]; weights := [3%float; 8%float];
              seed := 42 |} in
  well_formed_record zero_padding r = false
  /\ reconstruct_tree S1_reconstruct_args r = None.
Proof. split; vm_compute; reflexivity. Qed.

(** ** The depth of a grown tree *)

Lemma recursivePartition_height `{Collaborators} (fuel : nat) :
  forall this nc avg spt data g depth splitMiddle maxObs linear pen gtotal stotal
         ms md naDirection node nc' g',
    0 <= depth <= _maxDepth this ->
    recursivePartition fuel this nc avg spt data g depth splitMiddle maxObs linear
      pen gtotal stotal ms md naDirection = Some (node, nc', g') ->
    depth + height node <= _maxDepth this.
Proof.
  induction fuel as [|fuel IH]; intros until g'; intros Hdepth Hrun; [discriminate|].
  cbn [recursivePartition] in Hrun.
  destruct ((vsize avg <? _minNodeSizeAvg this)
            || (vsize spt <? _minNodeSizeSpt this)
            || (depth =? _maxDepth this)) eqn:Hterm.
  - simplify_option_eq. cbn [height]. lia.
  - apply orb_false_iff in Hterm as [_ Hne]. apply Z.eqb_neq in Hne.
    repeat (case_match; simplify_option_eq); cbn [height]; try lia.
    all: repeat match goal with
         | Hr : recursivePartition _ _ _ _ _ _ _ _ _ _ _ _ _ _ _ _ _ = Some _ |- _ =>
             apply IH in Hr; [|lia]
         end.
    all: lia.
Qed.

(** No leaf of a grown tree lies deeper than [maxDepth]. *)
Theorem grown_tree_respects_maxDepth `{Collaborators} (fuel : nat)
    (this0 : forestryTree) (a : tree_args) (g g' : mt19937_64) (t : forestryTree) :
  0 <= maxDepth a ->
  forestryTree_ctor fuel this0 a g = Built t g' ->
  exists root, _root t = Some root /\ height root <= maxDepth a.
Proof.
  unfold forestryTree_ctor, grow. intros Hmax Hrun.
  repeat (case_match; simplify_option_eq).
  all: match goal with
       | Hr : recursivePartition _ _ _ _ _ _ _ _ _ _ _ _ _ _ _ _ _ = Some _ |- _ =>
           apply recursivePartition_height in Hr; [|cbn; lia]
       end.
  all: eexists; split; [reflexivity|]; cbn in *; lia.
Qed.

Lemma grown_tree_respects_maxDepth_witness :
  0 <= maxDepth S1_args
  /\ @forestryTree_ctor scripted 5 blank_tree S1_args 0 = @Built scripted S1_tree 0
  /\ exists root, _root S1_tree = Some root /\ height root <= maxDepth S1_args.
Proof.
  assert (0 <= maxDepth S1_args) as Hmax by (vm_compute; discriminate).
  assert (@forestryTree_ctor scripted 5 blank_tree S1_args 0 = @Built scripted S1_tree 0)
    as Hrun by (vm_compute; reflexivity).
  split; [exact Hmax|]. split; [exact Hrun|].
  exact (@grown_tree_respects_maxDepth scripted 5 blank_tree S1_args 0 0 S1_tree
           Hmax Hrun).
Defined.

(** ** Feature sampling *)

Lemma vat_In {A : Type} (v : list A) (i : Z) (x : A) : vat v i = Some x -> In x v.
Proof.
  unfold vat. destruct (i <? 0); [discriminate|]. apply nth_error_In.
Qed.

Lemma not_found_not_In (x : Z) (l : list Z) : existsb (Z.eqb x) l = false -> ~ In x l.
Proof.
  intros Hex Hin. apply not_true_iff_false in Hex. apply Hex.
  apply existsb_exists. exists x. split; [exact Hin | apply Z.eqb_refl].
Qed.

Lemma NoDup_push_back (x : Z) (l : list Z) :
  List.NoDup l -> ~ In x l -> List.NoDup (l ++ [x]).
Proof.
  induction 1 as [|y l Hy Hnd IH]; intros Hnot; cbn.
  - constructor; [intros [] | constructor].
  - constructor.
    + intros Hin. apply in_app_or in Hin as [Hin | [<- | []]]; [exact (Hy Hin)|].
      apply Hnot. left. reflexivity.
    + apply IH. intros Hin. apply Hnot. right. exact Hin.
Qed.

Lemma vsize_push_back {A : Type} (l : list A) (x : A) : vsize (l ++ [x]) = vsize l + 1.
Proof. unfold vsize. rewrite length_app. cbn. lia. Qed.

Lemma vsize_nonneg {A : Type} (l : list A) : 0 <= vsize l.
Proof. unfold vsize. lia. Qed.

Lemma vsize_zero {A : Type} (l : list A) : vsize l = 0 -> l = [].
Proof. unfold vsize. destruct l; [reflexivity | cbn; lia]. Qed.

(** The loop keeps the list free of repetitions, only appends to it, and
    stops when the list holds [mtry] features. *)
Lemma sampleFeatures_loop_distinct `{Collaborators} (fuel : nat) :
  forall mtry g numFeaturesOnly numCols weights featureList0 featureList g',
    sampleFeatures_loop fuel mtry g numFeaturesOnly numCols weights featureList0
    = Some (featureList, g') ->
    List.NoDup featureList0 ->
    vsize featureList0 <= Z.max 0 mtry ->
    List.NoDup featureList
    /\ vsize featureList = Z.max 0 mtry
    /\ exists more,
         featureList = featureList0 ++ more
         /\ (numFeaturesOnly = true -> Forall (fun x => In x numCols) more).
Proof.
  induction fuel as [|fuel IH]; intros mtry g nfo numCols weights fl0 fl g' Hrun Hnd Hsize.
  - cbn [sampleFeatures_loop] in Hrun.
    destruct (Z.ltb_spec (vsize fl0) mtry) as [Hlt | Hge]; [discriminate|].
    injection Hrun as <- <-. pose proof (vsize_nonneg fl0).
    split; [exact Hnd|]. split; [lia|].
    exists []. rewrite app_nil_r. split; [reflexivity | constructor].
  - cbn [sampleFeatures_loop] in Hrun.
    destruct (Z.ltb_spec (vsize fl0) mtry) as [Hlt | Hge].
    + destruct (discrete_distribution weights g) as [index g1].
      destruct (if nfo then vat numCols index else Some index) as [x|] eqn:Hx;
        [|discriminate].
      cbn [mbind option_bind] in Hrun.
      destruct ((vsize fl0 =? 0) || negb (existsb (Z.eqb x) fl0)) eqn:Hfresh.
      * assert (~ In x fl0) as Hnot.
        { apply orb_true_iff in Hfresh as [Hempty | Hnew].
          - apply Z.eqb_eq, vsize_zero in Hempty. subst fl0. intros [].
          - apply negb_true_iff in Hnew. apply not_found_not_In, Hnew. }
        apply IH in Hrun as (Hnd' & Hsize' & more & -> & Hcols).
        -- split; [exact Hnd'|]. split; [exact Hsize'|].
           exists (x :: more). rewrite <- app_assoc. split; [reflexivity|].
           intros Hnfo. constructor; [|apply Hcols, Hnfo].
           subst nfo. apply (vat_In _ _ _ Hx).
        -- apply NoDup_push_back; assumption.
        -- rewrite vsize_push_back. lia.
      * apply IH in Hrun; assumption.
    + injection Hrun as <- <-. pose proof (vsize_nonneg fl0).
      split; [exact Hnd|]. split; [lia|].
      exists []. rewrite app_nil_r. split; [reflexivity | constructor].
Qed.

(** [sampleFeatures] with weights to draw from returns [mtry] features
    without repetition (taken from [numCols] under [numFeaturesOnly]);
    without weights it returns the list it was given and draws nothing. *)
Theorem sampleFeatures_returns_mtry_distinct_features `{Collaborators} (fuel : nat)
    (mtry : Z) (g g' : mt19937_64) (totalColumns : Z) (numFeaturesOnly : bool)
    (numCols : list Z) (weights : list double) (sampledFeatures featureList : list Z) :
  sampleFeatures fuel mtry g totalColumns numFeaturesOnly numCols weights
    sampledFeatures = Some (featureList, g') ->
  if vsize weights =? 0
  then featureList = sampledFeatures /\ g' = g
  else List.NoDup featureList
       /\ vsize featureList = Z.max 0 mtry
       /\ (numFeaturesOnly = true -> Forall (fun x => In x numCols) featureList).
Proof.
  unfold sampleFeatures. intros Hrun.
  destruct (vsize weights =? 0).
  - injection Hrun as <- <-. split; reflexivity.
  - apply sampleFeatures_loop_distinct in Hrun as (Hnd & Hsize & more & -> & Hcols).
    + split; [exact Hnd|]. split; [exact Hsize|]. exact Hcols.
    + constructor.
    + unfold vsize. simpl length. lia.
Qed.

Lemma sampleFeatures_returns_mtry_distinct_features_witness :
  @sampleFeatures scripted 3 1 0 4 true [7; 8; 9; 10] [1%float; 1%float] []
  = Some ([7], 1)
  /\ List.NoDup [7] /\ vsize [7] = Z.max 0 1
  /\ (true = true -> Forall (fun x => In x [7; 8; 9; 10]) [7]).
Proof.
  assert (@sampleFeatures scripted 3 1 0 4 true [7; 8; 9; 10] [1%float; 1%float] []
          = Some ([7], 1)) as Hrun by (vm_compute; reflexivity).
  split; [exact Hrun|].
  exact (@sampleFeatures_returns_mtry_distinct_features scripted 3 1 0 1 4 true
           [7; 8; 9; 10] [1%float; 1%float] [] [7] Hrun).
Defined.

(** The rejection loop has no bound: an engine whose draws never bring a
    second feature keeps it turning, whatever the fuel. *)
Example sampleFeatures_may_not_return (fuel : nat) :
  @sampleFeatures scripted fuel 2 0 4 false [0; 1; 2; 3] [1%float; 1%float] [] = None.
Proof.
  unfold sampleFeatures. cbn [vsize length Z.of_nat Z.eqb].
  destruct fuel as [|fuel]; [reflexivity|]. cbn.
  change 1 with (0 + 1) at 1. generalize (0 + 1).
  induction fuel as [|fuel IH]; intros g; [reflexivity|]. cbn. apply IH.
Qed.

(** ** The two sides of the partition step *)

Lemma occurrences_app (l1 l2 : list Z) (x : Z) :
  occurrences (l1 ++ l2) x = (occurrences l1 x + occurrences l2 x)%nat.
Proof. unfold occurrences. apply count_occ_app. Qed.

Lemma occurrences_filter (p : Z -> bool) (l : list Z) (x : Z) :
  occurrences (List.filter p l) x = (if p x then occurrences l x else 0%nat).
Proof.
  unfold occurrences. induction l as [|y l IH]; cbn [List.filter count_occ].
  - destruct (p x); reflexivity.
  - destruct (Z.eq_dec y x) as [-> | Hne].
    + destruct (p x) eqn:Hp.
      * cbn [count_occ]. destruct (Z.eq_dec x x); [|congruence]. rewrite IH. reflexivity.
      * exact IH.
    + destruct (p y); [cbn [count_occ]; destruct (Z.eq_dec y x); [congruence|]|]; exact IH.
Qed.

(** What [splitDataIntoTwoParts] leaves in its four reference parameters,
    for every direction and whatever the vectors and counters held: the
    rows it appends to each side, by multiplicity, and the counters. *)
Lemma splitDataIntoTwoParts_sides (data : DataFrame) (idx : list Z) (f : Z)
    (v : double) (d : Z) (l0 r0 : list Z) (cat hasNas : bool) (nl nr : Z) :
  exists l r,
    splitDataIntoTwoParts data idx f v d l0 r0 cat hasNas nl nr
    = (l0 ++ l, r0 ++ r,
       nl + (if hasNas && (d =? -1) then na_rows data f idx else 0),
       nr + (if hasNas && negb (d =? -1) && (d =? 1) then na_rows data f idx else 0))
    /\ (forall x, occurrences l x
                  = (if sent_left data f v d cat hasNas x then occurrences idx x else 0%nat))
    /\ (forall x, occurrences r x
                  = (if sent_right data f v d cat hasNas x then occurrences idx x else 0%nat))
    /\ vsize l + vsize r
       = vsize idx
         - (if hasNas && negb (d =? -1) && negb (d =? 1) then na_rows data f idx else 0).
Proof.
  unfold splitDataIntoTwoParts, na_rows, sent_left, sent_right.
  assert (forall x,
            (negb (holds_na data f x) && value_goes_left data f v cat x,
             negb (holds_na data f x) && negb (value_goes_left data f v cat x),
             holds_na data f x) = (true, false, false)
            \/ (negb (holds_na data f x) && value_goes_left data f v cat x,
                negb (holds_na data f x) && negb (value_goes_left data f v cat x),
                holds_na data f x) = (false, true, false)
            \/ (negb (holds_na data f x) && value_goes_left data f v cat x,
                negb (holds_na data f x) && negb (value_goes_left data f v cat x),
                holds_na data f x) = (false, false, true)) as Hone.
  { intros x. destruct (holds_na data f x), (value_goes_left data f v cat x); cbn; auto. }
  destruct hasNas; cbn [andb].
  - rewrite route_with_na_fold. cbn [app].
    destruct (three_way_permutation _ _ _ idx Hone) as [Hperm _].
    apply Permutation_length in Hperm. rewrite !length_app in Hperm.
    destruct (d =? -1) eqn:Hleft; [|destruct (d =? 1) eqn:Hright]; cbn [negb andb].
    + rewrite push_na_all, <- app_assoc.
      eexists _, _. split; [rewrite (Z.add_0_r nr); reflexivity|].
      split; [|split].
      * intros x. rewrite occurrences_app, !occurrences_filter.
        destruct (holds_na data f x), (value_goes_left data f v cat x); cbn; lia.
      * intros x. rewrite occurrences_filter.
        assert ((d =? 1) = false) as -> by lia.
        destruct (holds_na data f x), (value_goes_left data f v cat x); cbn; lia.
      * unfold vsize. rewrite length_app. lia.
    + rewrite push_na_all, <- app_assoc.
      eexists _, _. split; [rewrite (Z.add_0_r nl); reflexivity|].
      split; [|split].
      * intros x. rewrite occurrences_filter.
        destruct (holds_na data f x), (value_goes_left data f v cat x); cbn; lia.
      * intros x. rewrite occurrences_app, !occurrences_filter.
        destruct (holds_na data f x), (value_goes_left data f v cat x); cbn; lia.
      * unfold vsize. rewrite length_app. lia.
    + eexists _, _. split; [rewrite (Z.add_0_r nl), (Z.add_0_r nr); reflexivity|].
      split; [|split].
      * intros x. rewrite occurrences_filter.
        destruct (holds_na data f x), (value_goes_left data f v cat x); cbn; lia.
      * intros x. rewrite occurrences_filter.
        destruct (holds_na data f x), (value_goes_left data f v cat x); cbn; lia.
      * unfold vsize. lia.
  - rewrite route_plain_fold.
    pose proof (Permutation_length (two_way_permutation (value_goes_left data f v cat) idx))
      as Hperm.
    rewrite length_app in Hperm.
    eexists _, _. split; [rewrite (Z.add_0_r nl), (Z.add_0_r nr); reflexivity|].
    split; [|split].
    + intros x. apply occurrences_filter.
    + intros x. rewrite occurrences_filter. reflexivity.
    + unfold vsize. lia.
Qed.

(** [splitData] cuts the averaging set and the splitting set by one and the
    same test: a row goes left, right, or (a row that holds NA, under
    [hasNas], at a direction other than -1 and +1) nowhere, whichever set it
    comes from, and as often as it occurs there.  The rows are appended to
    what the four vectors held.  The two NA counters that reach the caller
    count the NA rows of the splitting set alone: those of the averaging
    set are counted into locals of [splitData] and dropped. *)
Theorem splitData_cuts_both_sets_by_one_test (data : DataFrame)
    (avg spt : list Z) (f : Z) (v : double) (d : Z) (aL aR sL sR : list Z)
    (nl nr : Z) (cat hasNas : bool) :
  exists al ar sl sr,
    splitData data avg spt f v d aL aR sL sR nl nr cat hasNas
    = {| averagingLeftPartitionIndex := aL ++ al;
         averagingRightPartitionIndex := aR ++ ar;
         splittingLeftPartitionIndex := sL ++ sl;
         splittingRightPartitionIndex := sR ++ sr;
         naLeftCountOut :=
           nl + (if hasNas && (d =? -1) then na_rows data f spt else 0);
         naRightCountOut :=
           nr + (if hasNas && negb (d =? -1) && (d =? 1) then na_rows data f spt else 0) |}
    /\ forall x,
         occurrences al x
         = (if sent_left data f v d cat hasNas x then occurrences avg x else 0%nat)
         /\ occurrences ar x
            = (if sent_right data f v d cat hasNas x then occurrences avg x else 0%nat)
         /\ occurrences sl x
            = (if sent_left data f v d cat hasNas x then occurrences spt x else 0%nat)
         /\ occurrences sr x
            = (if sent_right data f v d cat hasNas x then occurrences spt x else 0%nat).
Proof.
  unfold splitData.
  destruct (splitDataIntoTwoParts_sides data avg f v d aL aR cat hasNas 0 0)
    as (al & ar & -> & Hal & Har & _).
  destruct (splitDataIntoTwoParts_sides data spt f v d sL sR cat hasNas nl nr)
    as (sl & sr & -> & Hsl & Hsr & _).
  exists al, ar, sl, sr. split; [reflexivity|].
  intros x. repeat split; auto.
Qed.

(** ** The nodes of a grown tree *)

(** Induction over a run of [recursivePartition]: a property of the sets a
    node is grown from and of the node holds of every run that returns, if
    it holds of a sealed leaf and passes from the two children of a split,
    grown from the four parts [splitData] cut (none of them empty, at a
    split value that is a number, from sets of the minimum sizes at
    least), to the split node. *)
Lemma recursivePartition_node_ind `{Collaborators} (this : forestryTree)
    (data : DataFrame) (linear : bool) (pen : double) (naDirection : bool)
    (P : list Z -> list Z -> RFNode -> Prop) :
  (forall nc avg spt, P avg spt (seal_leaf nc avg spt data linear pen).1) ->
  (forall avg spt f v d l r parts,
      parts = splitData data avg spt f v d [] [] [] [] 0 0
                (existsb (Z.eqb f) (getCatCols data)) (_hasNas this) ->
      _minNodeSizeAvg this <= vsize avg ->
      _minNodeSizeSpt this <= vsize spt ->
      isnan v = false ->
      vsize (averagingLeftPartitionIndex parts) <> 0 ->
      vsize (averagingRightPartitionIndex parts) <> 0 ->
      vsize (splittingLeftPartitionIndex parts) <> 0 ->
      vsize (splittingRightPartitionIndex parts) <> 0 ->
      P (averagingLeftPartitionIndex parts) (splittingLeftPartitionIndex parts) l ->
      P (averagingRightPartitionIndex parts) (splittingRightPartitionIndex parts) r ->
      P avg spt
        (SplitNode f v l r (naLeftCountOut parts) (naRightCountOut parts)
           (if naDirection && (naLeftCountOut parts =? 0) && (naRightCountOut parts =? 0)
            then random_na_direction this (averagingLeftPartitionIndex parts)
                   (averagingRightPartitionIndex parts)
            else d))) ->
  forall fuel nc avg spt g depth splitMiddle maxObs gtotal stotal ms md node nc' g',
    recursivePartition fuel this nc avg spt data g depth splitMiddle maxObs linear
      pen gtotal stotal ms md naDirection = Some (node, nc', g') ->
    P avg spt node.
Proof.
  intros Hleaf Hsplit fuel.
  assert (forall a b c d, to_size_t (a * b * c * d) <> 0 ->
                          a <> 0 /\ b <> 0 /\ c <> 0 /\ d <> 0) as Hnz.
  { intros a b c d Hp. repeat split; intros ->; apply Hp; unfold to_size_t;
      rewrite ?Z.mul_0_l, ?Z.mul_0_r, ?Z.mul_0_l; reflexivity. }
  induction fuel as [|fuel IH]; intros until g'; intros Hrun; [discriminate|].
  cbn [recursivePartition] in Hrun.
  repeat (case_match; simplify_option_eq).
  all: try apply Hleaf.
  all: match goal with
       | Hg : (to_size_t _ =? 0) = false, Ht : _ || _ || _ = false
         |- _ ?avg ?spt (SplitNode (bestSplitFeature ?b) _ ?l ?r _ _ _) =>
           apply Z.eqb_neq in Hg; apply Hnz in Hg as (? & ? & ? & ?);
           apply orb_false_iff in Ht as [Ht _];
           apply orb_false_iff in Ht as [Havg Hspt];
           apply Z.ltb_ge in Havg; apply Z.ltb_ge in Hspt;
           pose proof (Hsplit avg spt (bestSplitFeature b) (bestSplitValue b)
                         (bestSplitNaDir b) l r _ eq_refl Havg Hspt) as Hs
       end.
  all: repeat match goal with
         | Hc : _ && _ && _ = _ |- _ => rewrite Hc in Hs; clear Hc
         end.
  all: apply Hs; try assumption.
  all: match goal with
       | Hr : recursivePartition _ _ _ _ _ _ _ _ _ _ _ _ _ _ _ _ _ = Some (?n, _, _)
         |- _ _ _ ?n => exact (IH _ _ _ _ _ _ _ _ _ _ _ _ _ _ Hr)
       end.
Qed.

(** The sizes of the four parts [recursivePartition] has [splitData] cut
    (empty vectors, counters at 0), and the two counters. *)
Lemma splitData_sizes (data : DataFrame) (avg spt : list Z) (f : Z) (v : double)
    (d : Z) (cat hasNas : bool) (parts : split_parts) :
  parts = splitData data avg spt f v d [] [] [] [] 0 0 cat hasNas ->
  vsize (averagingLeftPartitionIndex parts) + vsize (averagingRightPartitionIndex parts)
  = vsize avg
    - (if hasNas && negb (d =? -1) && negb (d =? 1) then na_rows data f avg else 0)
  /\ vsize (splittingLeftPartitionIndex parts) + vsize (splittingRightPartitionIndex parts)
     = vsize spt
       - (if hasNas && negb (d =? -1) && negb (d =? 1) then na_rows data f spt else 0)
  /\ naLeftCountOut parts = (if hasNas && (d =? -1) then na_rows data f spt else 0)
  /\ naRightCountOut parts
     = (if hasNas && negb (d =? -1) && (d =? 1) then na_rows data f spt else 0).
Proof.
  intros ->. unfold splitData.
  destruct (splitDataIntoTwoParts_sides data avg f v d [] [] cat hasNas 0 0)
    as (al & ar & -> & _ & _ & Ha).
  destruct (splitDataIntoTwoParts_sides data spt f v d [] [] cat hasNas 0 0)
    as (sl & sr & -> & _ & _ & Hs).
  cbn [averagingLeftPartitionIndex averagingRightPartitionIndex
       splittingLeftPartitionIndex splittingRightPartitionIndex
       naLeftCountOut naRightCountOut app].
  repeat split; assumption || reflexivity.
Qed.

Lemma na_rows_nonneg (data : DataFrame) (f : Z) (idx : list Z) : 0 <= na_rows data f idx.
Proof. unfold na_rows, vsize. lia. Qed.

Lemma recursivePartition_totals `{Collaborators} (this : forestryTree)
    (fuel : nat) (nc : Z) (avg spt : list Z) (data : DataFrame) (g : mt19937_64)
    (depth : Z) (splitMiddle : bool) (maxObs : Z) (linear : bool) (pen : double)
    (gtotal : option arma_mat) (stotal : option arma_col) (ms : bool)
    (md : monotonic_info) (naDirection : bool) (node : RFNode) (nc' : Z)
    (g' : mt19937_64) :
  recursivePartition fuel this nc avg spt data g depth splitMiddle maxObs linear
    pen gtotal stotal ms md naDirection = Some (node, nc', g') ->
  averageCount_total node <= vsize avg
  /\ splitCount_total node <= vsize spt
  /\ (_hasNas this = false ->
      averageCount_total node = vsize avg /\ splitCount_total node = vsize spt).
Proof.
  apply (recursivePartition_node_ind this data linear pen naDirection
           (fun avg spt node =>
              averageCount_total node <= vsize avg
              /\ splitCount_total node <= vsize spt
              /\ (_hasNas this = false ->
                  averageCount_total node = vsize avg
                  /\ splitCount_total node = vsize spt))).
  - intros. cbn. lia.
  - intros avg0 spt0 f v d l r parts Hparts _ _ _ _ _ _ _
      (Hla & Hls & Hl) (Hra & Hrs & Hr).
    apply splitData_sizes in Hparts as (Ha & Hs & _ & _).
    pose proof (na_rows_nonneg data f avg0). pose proof (na_rows_nonneg data f spt0).
    cbn [averageCount_total splitCount_total].
    split; [|split].
    + destruct (_hasNas this && negb (d =? -1) && negb (d =? 1)); lia.
    + destruct (_hasNas this && negb (d =? -1) && negb (d =? 1)); lia.
    + intros Hno. rewrite Hno in Ha, Hs. cbn [andb] in Ha, Hs.
      specialize (Hl Hno). specialize (Hr Hno). lia.
Qed.

Lemma recursivePartition_leaves_inhabited `{Collaborators} (this : forestryTree)
    (fuel : nat) (nc : Z) (avg spt : list Z) (data : DataFrame) (g : mt19937_64)
    (depth : Z) (splitMiddle : bool) (maxObs : Z) (linear : bool) (pen : double)
    (gtotal : option arma_mat) (stotal : option arma_col) (ms : bool)
    (md : monotonic_info) (naDirection : bool) (node : RFNode) (nc' : Z)
    (g' : mt19937_64) :
  recursivePartition fuel this nc avg spt data g depth splitMiddle maxObs linear
    pen gtotal stotal ms md naDirection = Some (node, nc', g') ->
  vsize avg <> 0 -> vsize spt <> 0 ->
  Forall leaf_is_inhabited (nodes node).
Proof.
  apply (recursivePartition_node_ind this data linear pen naDirection
           (fun avg spt node =>
              vsize avg <> 0 -> vsize spt <> 0 ->
              Forall leaf_is_inhabited (nodes node))).
  - intros nc0 avg0 spt0 Ha Hs. cbn. constructor; [|constructor].
    cbn. unfold vsize in *. lia.
  - intros avg0 spt0 f v d l r parts _ _ _ _ Hal Har Hsl Hsr Hl Hr _ _.
    cbn [nodes]. constructor; [exact I|].
    apply Forall_app. split; auto.
Qed.

Lemma inhabited_leaves_count (node : RFNode) :
  Forall leaf_is_inhabited (nodes node) ->
  Z.of_nat (count_leaves node) <= averageCount_total node
  /\ Z.of_nat (count_leaves node) <= splitCount_total node.
Proof.
  induction node as [a s i w c | f v l IHl r IHr nl nr d]; cbn [nodes]; intros Hall.
  - apply Forall_cons_1 in Hall as [[Ha Hs] _]. cbn. lia.
  - apply Forall_cons_1 in Hall as [_ Hall].
    apply Forall_app in Hall as [Hl Hr].
    specialize (IHl Hl). specialize (IHr Hr).
    cbn [count_leaves averageCount_total splitCount_total]. lia.
Qed.

Lemma recursivePartition_split_nodes `{Collaborators} (this : forestryTree)
    (fuel : nat) (nc : Z) (avg spt : list Z) (data : DataFrame) (g : mt19937_64)
    (depth : Z) (splitMiddle : bool) (maxObs : Z) (linear : bool) (pen : double)
    (gtotal : option arma_mat) (stotal : option arma_col) (ms : bool)
    (md : monotonic_info) (naDirection : bool) (node : RFNode) (nc' : Z)
    (g' : mt19937_64) :
  recursivePartition fuel this nc avg spt data g depth splitMiddle maxObs linear
    pen gtotal stotal ms md naDirection = Some (node, nc', g') ->
  Forall (split_node_is_sound (_hasNas this) naDirection) (nodes node).
Proof.
  apply (recursivePartition_node_ind this data linear pen naDirection
           (fun avg spt node =>
              Forall (split_node_is_sound (_hasNas this) naDirection) (nodes node))).
  - intros. cbn. constructor; [exact I|constructor].
  - intros avg0 spt0 f v d l r parts Hparts _ _ Hnan _ _ _ _ Hl Hr.
    cbn [nodes]. constructor; [|apply Forall_app; split; assumption].
    apply splitData_sizes in Hparts as (_ & _ & -> & ->).
    pose proof (na_rows_nonneg data f spt0).
    cbn [split_node_is_sound].
    split; [exact Hnan|].
    split; [destruct (_hasNas this && (d =? -1)); lia|].
    split; [destruct (_hasNas this && negb (d =? -1) && (d =? 1)); lia|].
    split; [destruct (_hasNas this), (d =? -1); cbn; auto|].
    split; [intros ->; cbn; auto|].
    intros -> -> ->. cbn [andb Z.eqb].
    unfold random_na_direction.
    destruct (discrete_distribution _ _) as [draw ?].
    destruct (draw =? 0); auto.
Qed.

(** The leaves of a tree the constructor built hold the rows it was given:
    the averaging counts of the leaves add up to at most the size of the
    averaging set and the splitting counts to at most the size of the
    splitting set, and with [hasNas] off they add up to exactly these
    sizes: every row reaches exactly one leaf.  (With [hasNas] on, rows
    that are dropped at a split are missing from the sums.) *)
Theorem leaf_counts_add_up_to_the_samples `{Collaborators} (fuel : nat)
    (this0 : forestryTree) (a : tree_args) (g g' : mt19937_64) (t : forestryTree) :
  forestryTree_ctor fuel this0 a g = Built t g' ->
  exists root,
    _root t = Some root
    /\ averageCount_total root <= vsize (averagingIndexArg a)
    /\ splitCount_total root <= vsize (splittingIndexArg a)
    /\ (hasNas a = false ->
        averageCount_total root = vsize (averagingIndexArg a)
        /\ splitCount_total root = vsize (splittingIndexArg a)).
Proof.
  unfold forestryTree_ctor, grow. intros Hrun.
  repeat (case_match; simplify_option_eq).
  all: match goal with
       | Hr : recursivePartition _ _ _ _ _ _ _ _ _ _ _ _ _ _ _ _ _ = Some _ |- _ =>
           apply recursivePartition_totals in Hr
       end.
  all: eexists; split; [reflexivity|]; cbn in *; assumption.
Qed.

Lemma leaf_counts_add_up_to_the_samples_witness :
  @forestryTree_ctor scripted 5 blank_tree S1_args 0 = @Built scripted S1_tree 0
  /\ exists root,
       _root S1_tree = Some root
       /\ averageCount_total root <= vsize (averagingIndexArg S1_args)
       /\ splitCount_total root <= vsize (splittingIndexArg S1_args)
       /\ (hasNas S1_args = false ->
           averageCount_total root = vsize (averagingIndexArg S1_args)
           /\ splitCount_total root = vsize (splittingIndexArg S1_args)).
Proof.
  assert (@forestryTree_ctor scripted 5 blank_tree S1_args 0 = @Built scripted S1_tree 0)
    as Hrun by (vm_compute; reflexivity).
  split; [exact Hrun|].
  exact (@leaf_counts_add_up_to_the_samples scripted 5 blank_tree S1_args 0 0 S1_tree Hrun).
Defined.

(** No leaf of a tree the constructor built is empty: every leaf holds at
    least one averaging row and at least one splitting row.  So the tree
    has at most as many leaves as the averaging set has rows, and at most
    as many as the splitting set has. *)
Theorem built_tree_has_no_empty_leaf `{Collaborators} (fuel : nat)
    (this0 : forestryTree) (a : tree_args) (g g' : mt19937_64) (t : forestryTree) :
  forestryTree_ctor fuel this0 a g = Built t g' ->
  exists root,
    _root t = Some root
    /\ Forall leaf_is_inhabited (nodes root)
    /\ Z.of_nat (count_leaves root) <= vsize (averagingIndexArg a)
    /\ Z.of_nat (count_leaves root) <= vsize (splittingIndexArg a).
Proof.
  unfold forestryTree_ctor. intros Hrun.
  destruct (sanity_check a) eqn:Hcheck; [discriminate|].
  assert (vsize (averagingIndexArg a) <> 0 /\ vsize (splittingIndexArg a) <> 0)
    as [Havg Hspt].
  { unfold sanity_check in Hcheck.
    repeat (case_match; try discriminate). split; lia. }
  unfold grow in Hrun.
  repeat (case_match; simplify_option_eq).
  all: match goal with
       | Hr : recursivePartition _ _ _ _ _ _ _ _ _ _ _ _ _ _ _ _ _ = Some _ |- _ =>
           pose proof (recursivePartition_totals _ _ _ _ _ _ _ _ _ _ _ _ _ _ _ _ _ _ _ _ Hr)
             as (Ha & Hs & _);
           apply recursivePartition_leaves_inhabited in Hr; [|assumption..]
       end.
  all: eexists; split; [reflexivity|]; cbn in *.
  all: match goal with
       | Hl : Forall leaf_is_inhabited _ |- _ =>
           pose proof (inhabited_leaves_count _ Hl) as [? ?]
       end.
  all: split; [assumption|]; lia.
Qed.

Lemma built_tree_has_no_empty_leaf_witness :
  @forestryTree_ctor scripted 5 blank_tree S1_args 0 = @Built scripted S1_tree 0
  /\ exists root,
       _root S1_tree = Some root
       /\ Forall leaf_is_inhabited (nodes root)
       /\ Z.of_nat (count_leaves root) <= vsize (averagingIndexArg S1_args)
       /\ Z.of_nat (count_leaves root) <= vsize (splittingIndexArg S1_args).
Proof.
  assert (@forestryTree_ctor scripted 5 blank_tree S1_args 0 = @Built scripted S1_tree 0)
    as Hrun by (vm_compute; reflexivity).
  split; [exact Hrun|].
  exact (@built_tree_has_no_empty_leaf scripted 5 blank_tree S1_args 0 0 S1_tree Hrun).
Defined.

(** Every split node of a tree the constructor built holds a split value
    that is a number (a NaN best value seals a leaf); its two NA counters
    are not negative, at most one of them is positive, and both are 0 with
    [hasNas] off; and with [naDirection] on, a split node whose counters
    are both 0 has default direction -1 or +1. *)
Theorem built_tree_split_nodes_are_sound `{Collaborators} (fuel : nat)
    (this0 : forestryTree) (a : tree_args) (g g' : mt19937_64) (t : forestryTree) :
  forestryTree_ctor fuel this0 a g = Built t g' ->
  exists root,
    _root t = Some root
    /\ Forall (split_node_is_sound (hasNas a) (naDirection a)) (nodes root).
Proof.
  unfold forestryTree_ctor, grow. intros Hrun.
  repeat (case_match; simplify_option_eq).
  all: match goal with
       | Hr : recursivePartition _ _ _ _ _ _ _ _ _ _ _ _ _ _ _ _ _ = Some _ |- _ =>
           apply recursivePartition_split_nodes in Hr
       end.
  all: eexists; split; [reflexivity|]; cbn in *; assumption.
Qed.

Lemma built_tree_split_nodes_are_sound_witness :
  @forestryTree_ctor (scripted_with 1.5%float) 5 blank_tree na_args 0
  = @Built (scripted_with 1.5%float) na_tree 0
  /\ exists root,
       _root na_tree = Some root
       /\ Forall (split_node_is_sound (hasNas na_args) (naDirection na_args)) (nodes root).
Proof.
  assert (@forestryTree_ctor (scripted_with 1.5%float) 5 blank_tree na_args 0
          = @Built (scripted_with 1.5%float) na_tree 0)
    as Hrun by (vm_compute; reflexivity).
  split; [exact Hrun|].
  exact (@built_tree_split_nodes_are_sound (scripted_with 1.5%float) 5 blank_tree
           na_args 0 0 na_tree Hrun).
Defined.

(** ** Determinism of the construction *)

Lemma fold_left_pointwise {A B : Type} (f g : A -> B -> A) (l : list B) :
  (forall a x, f a x = g a x) -> forall a, fold_left f l a = fold_left g l a.
Proof.
  intros Hfg. induction l as [|x l IH]; intros a; [reflexivity|].
  cbn. rewrite Hfg. apply IH.
Qed.

Lemma selectBestFeature_reads_what_it_is_given `{H : Collaborators}
    (u1 u2 : monotonic_info) (t1 t2 : forestryTree)
    featureList avg spt data g splitMiddle maxObs linear pen gtotal stotal ms md1 md2 :
  kernels_read_bounds_under_monotone_splits_only ->
  same_configuration t1 t2 ->
  (ms = true -> md1 = md2) ->
  @selectBestFeature (with_unassigned H u1) t1 featureList avg spt data g splitMiddle
    maxObs linear pen gtotal stotal ms md1
  = @selectBestFeature (with_unassigned H u2) t2 featureList avg spt data g splitMiddle
      maxObs linear pen gtotal stotal ms md2.
Proof.
  intros [Himpute Hvalue] (_ & _ & _ & Hs & Ha & _ & _ & _ & Hn & _) Hmd.
  unfold selectBestFeature.
  rewrite (fold_left_pointwise
             (@selectBestFeature_step (with_unassigned H u1) t1 avg spt data
                splitMiddle maxObs linear pen gtotal stotal ms md1)
             (@selectBestFeature_step (with_unassigned H u2) t2 avg spt data
                splitMiddle maxObs linear pen gtotal stotal ms md2)); [reflexivity|].
  intros [[[arrays naDirs] g0] i] f. unfold selectBestFeature_step.
  rewrite Hs, Ha, Hn. cbn [with_unassigned findBestSplitImpute
    findBestSplitValueNonCategorical findBestSplitRidgeCategorical
    findBestSplitImputeCategorical findBestSplitValueCategorical findBestSplitRidge].
  destruct ms.
  - rewrite (Hmd eq_refl). reflexivity.
  - rewrite (Himpute _ _ _ _ _ _ _ _ _ _ _ _ md1 md2).
    rewrite (Hvalue _ _ _ _ _ _ _ _ _ _ _ md1 md2). reflexivity.
Qed.

Lemma sampleFeatures_loop_with_unassigned `{H : Collaborators} (u : monotonic_info)
    (fuel : nat) :
  forall mtry g numFeaturesOnly numCols weights featureList,
    @sampleFeatures_loop (with_unassigned H u) fuel mtry g numFeaturesOnly numCols
      weights featureList
    = @sampleFeatures_loop H fuel mtry g numFeaturesOnly numCols weights featureList.
Proof.
  induction fuel as [|fuel IH];
    intros mtry0 g numFeaturesOnly numCols weights0 featureList; [reflexivity|].
  cbn [sampleFeatures_loop].
  change (@discrete_distribution (with_unassigned H u)) with (@discrete_distribution H).
  change (@mt19937_64 (with_unassigned H u)) with (@mt19937_64 H) in *.
  destruct (vsize featureList <? mtry0); [|reflexivity].
  destruct (discrete_distribution weights0 g) as [index g'].
  destruct (if numFeaturesOnly then vat numCols index else Some index) as [x|];
    [|reflexivity].
  cbn [mbind option_bind]. rewrite !IH. reflexivity.
Qed.

Lemma sampleFeatures_with_unassigned `{H : Collaborators} (u : monotonic_info)
    fuel mtry g totalColumns numFeaturesOnly numCols weights sampledWeightsVariables :
  @sampleFeatures (with_unassigned H u) fuel mtry g totalColumns numFeaturesOnly
    numCols weights sampledWeightsVariables
  = @sampleFeatures H fuel mtry g totalColumns numFeaturesOnly numCols weights
      sampledWeightsVariables.
Proof. unfold sampleFeatures. rewrite sampleFeatures_loop_with_unassigned. reflexivity. Qed.

(** Two calls of [recursivePartition] on the same arguments return the
    same, from two objects of the same configuration and with different
    leftovers in the unassigned records; without monotone splitting the
    records the two calls are handed may differ as well. *)
Lemma recursivePartition_reads_what_it_is_given `{H : Collaborators}
    (u1 u2 : monotonic_info) (t1 t2 : forestryTree) (fuel : nat) :
  kernels_read_bounds_under_monotone_splits_only ->
  same_configuration t1 t2 ->
  forall nc avg spt data g depth splitMiddle maxObs linear pen gtotal stotal
         ms md1 md2 naDirection,
    (ms = true -> md1 = md2) ->
    @recursivePartition (with_unassigned H u1) fuel t1 nc avg spt data g depth
      splitMiddle maxObs linear pen gtotal stotal ms md1 naDirection
    = @recursivePartition (with_unassigned H u2) fuel t2 nc avg spt data g depth
        splitMiddle maxObs linear pen gtotal stotal ms md2 naDirection.
Proof.
  intros Hkernels Hcfg.
  pose proof Hcfg as (Hm & Hss & Hsa & _ & _ & Hg & Hd & Hi & Hn & Hseed).
  induction fuel as [|fuel IH];
    intros nc avg spt data g depth splitMiddle0 maxObs0 linear0 pen gtotal stotal
      ms md1 md2 naDirection0 Hmd; [reflexivity|].
  cbn [recursivePartition].
  change (@mt19937_64 (with_unassigned H u1)) with (@mt19937_64 H) in *.
  change (@mt19937_64 (with_unassigned H u2)) with (@mt19937_64 H) in *.
  change (@crossValidatedRSquared (with_unassigned H u1))
    with (@crossValidatedRSquared H).
  change (@crossValidatedRSquared (with_unassigned H u2))
    with (@crossValidatedRSquared H).
  change (@updateMonotoneConstraints (with_unassigned H u1))
    with (@updateMonotoneConstraints H).
  change (@updateMonotoneConstraints (with_unassigned H u2))
    with (@updateMonotoneConstraints H).
  change (@random_na_direction (with_unassigned H u1) t1)
    with (@random_na_direction H t1).
  change (@random_na_direction (with_unassigned H u2) t2)
    with (@random_na_direction H t2).
  change (@seal_leaf (with_unassigned H u1)) with (@seal_leaf H).
  change (@seal_leaf (with_unassigned H u2)) with (@seal_leaf H).
  unfold random_na_direction.
  rewrite Hm, Hss, Hsa, Hg, Hd, Hi, Hn, Hseed.
  destruct ((vsize avg <? _minNodeSizeAvg t2) || (vsize spt <? _minNodeSizeSpt t2)
            || (depth =? _maxDepth t2)); [reflexivity|].
  destruct (depth >=? _interactionDepth t2).
  all: rewrite !sampleFeatures_with_unassigned.
  all: match goal with
       | |- context [@mbind _ _ _ _ _ ?m] =>
           destruct m as [[featureList g1]|]; cbn [mbind option_bind]; [|reflexivity]
       end.
  all: rewrite (selectBestFeature_reads_what_it_is_given u1 u2 t1 t2 _ _ _ _ _ _ _ _ _ _ _
                  ms md1 md2 Hkernels Hcfg Hmd).
  all: match goal with
       | |- context [@mbind _ _ _ _ _ ?m] =>
           destruct m as [[best g2]|]; cbn [mbind option_bind]; [|reflexivity]
       end.
  all: destruct (isnan (bestSplitValue best)); [reflexivity|].
  all: match goal with
       | |- context [to_size_t ?p =? 0] => destruct (to_size_t p =? 0); [reflexivity|]
       end.
  all: match goal with
       | |- context [if (0 <? ?gain)%float then ?x else ?y] =>
           destruct (if (0 <? gain)%float then x else y) as [[|] g3];
             [reflexivity|]
       end.
  all: destruct ms.
  all: try (rewrite (Hmd eq_refl);
            match goal with
            | |- context [@mbind _ _ _ _ _ ?m] =>
                destruct m as [[left right]|]; cbn [mbind option_bind]; [|reflexivity]
            end;
            rewrite (IH _ _ _ _ _ _ _ _ _ _ _ _ true left left) by reflexivity).
  all: try (cbn [mbind option_bind with_unassigned unassigned_monotonic_info];
            rewrite (IH _ _ _ _ _ _ _ _ _ _ _ _ false u1 u2) by discriminate).
  all: match goal with
       | |- context [@mbind _ _ _ _ _ ?m] =>
           destruct m as [[[leftChild nodeCount1] g4]|]; cbn [mbind option_bind];
             [|reflexivity]
       end.
  all: try rewrite (IH _ _ _ _ _ _ _ _ _ _ _ _ true right right) by reflexivity.
  all: try rewrite (IH _ _ _ _ _ _ _ _ _ _ _ _ false u1 u2) by discriminate.
  all: reflexivity.
Qed.

(** With [naDirection] on and [hasNas] off, every split node of a run holds
    the draw of a fresh engine, seeded with the seed of the tree, for the
    numbers of averaging rows below its two children. *)
Lemma recursivePartition_default_directions `{Collaborators} (this : forestryTree)
    (fuel : nat) (nc : Z) (avg spt : list Z) (data : DataFrame) (g : mt19937_64)
    (depth : Z) (splitMiddle : bool) (maxObs : Z) (linear : bool) (pen : double)
    (gtotal : option arma_mat) (stotal : option arma_col) (ms : bool)
    (md : monotonic_info) (node : RFNode) (nc' : Z) (g' : mt19937_64) :
  _hasNas this = false ->
  recursivePartition fuel this nc avg spt data g depth splitMiddle maxObs linear
    pen gtotal stotal ms md true = Some (node, nc', g') ->
  Forall (default_direction_is
            (fun averagingLeft averagingRight =>
               let '(draw, _) :=
                 discrete_distribution
                   (map double_of_size_t [averagingLeft; averagingRight])
                   (seeded_engine (_seed this)) in
               if draw =? 0 then -1 else 1))
         (nodes node).
Proof.
  intros Hno Hrun.
  refine (proj2 (recursivePartition_node_ind this data linear pen true
           (fun avg spt node =>
              averageCount_total node = vsize avg
              /\ Forall (default_direction_is
                           (fun averagingLeft averagingRight =>
                              let '(draw, _) :=
                                discrete_distribution
                                  (map double_of_size_t [averagingLeft; averagingRight])
                                  (seeded_engine (_seed this)) in
                              if draw =? 0 then -1 else 1))
                        (nodes node))
           _ _ fuel nc avg spt g depth splitMiddle maxObs gtotal stotal ms md node nc' g'
           Hrun)).
  - intros. cbn. split; [reflexivity|]. constructor; [exact I|constructor].
  - intros avg0 spt0 f v d l r parts Hparts _ _ _ _ _ _ _ [Hl Hls] [Hr Hrs].
    apply splitData_sizes in Hparts as (Ha & _ & Hnl & Hnr).
    rewrite Hno in Ha, Hnl, Hnr. cbn [andb] in Ha, Hnl, Hnr.
    cbn [averageCount_total nodes]. split; [lia|].
    constructor; [|apply Forall_app; split; assumption].
    cbn [default_direction_is]. rewrite Hnl, Hnr, Hl, Hr. reflexivity.
Qed.

(** C4.  Two runs of the constructor on the same arguments (training
    data, hyperparameters, index vectors, seed) from the same state of the
    generator end alike, whatever the two objects held before and whatever
    the records that [recursivePartition] declares and never assigns hold
    in the one run and in the other, if the kernels read the record they
    are handed under monotone splitting only: both runs throw the same
    error, or both build trees with the same flat record (the same nodes,
    index vectors and seed, which is all that [getTreeInfo] reads) and
    leave the generator in the same state, or neither has a result.  The
    default NA direction is drawn by a function of the seed of the tree and
    of the sizes of the two averaging partitions alone, and in a tree built
    with [naDirection] on and [hasNas] off every split node holds the draw
    for the seed and the numbers of averaging rows below its two
    children. *)
Theorem construction_is_deterministic `{H : Collaborators} (pad : leaf_padding)
    (fuel : nat) (this1 this2 : forestryTree) (unassigned1 unassigned2 : monotonic_info)
    (a : tree_args) (g : mt19937_64) :
  kernels_read_bounds_under_monotone_splits_only ->
  match @forestryTree_ctor (with_unassigned H unassigned1) fuel this1 a g,
        @forestryTree_ctor (with_unassigned H unassigned2) fuel this2 a g with
  | Threw e1, Threw e2 => e1 = e2
  | Built t1 g1, Built t2 g2 =>
      getTreeInfo pad t1 = getTreeInfo pad t2
      /\ _root t1 = _root t2 /\ _nodeCount t1 = _nodeCount t2
      /\ _averagingSampleIndex t1 = _averagingSampleIndex t2
      /\ _splittingSampleIndex t1 = _splittingSampleIndex t2
      /\ _seed t1 = _seed t2
      /\ g1 = g2
  | NoResult, NoResult => True
  | _, _ => False
  end
  /\ exists draw : Z -> Z -> Z -> Z,
       (forall this averagingLeft averagingRight,
           random_na_direction this averagingLeft averagingRight
           = draw (_seed this) (vsize averagingLeft) (vsize averagingRight))
       /\ forall t1 g1 root,
            @forestryTree_ctor (with_unassigned H unassigned1) fuel this1 a g
            = Built t1 g1 ->
            naDirection a = true -> hasNas a = false ->
            _root t1 = Some root ->
            Forall (default_direction_is (draw (seedArg a))) (nodes root).
Proof.
  intros Hkernels. split.
  - unfold forestryTree_ctor. destruct (sanity_check a) as [e|]; [reflexivity|].
    unfold grow. cbn [_splittingSampleIndex _averagingSampleIndex _nodeCount].
    destruct (vat (splittingIndexArg a) 0) as [first|]; cbn [mbind option_bind];
      [|exact I].
    match goal with
    | |- context [@mbind _ _ _ _ _ ?m] =>
        destruct m as [[g_ptr s_ptr]|] eqn:Hptr; cbn [mbind option_bind]; [|exact I]
    end.
    match goal with
    | |- context [@recursivePartition (with_unassigned H unassigned1) fuel ?t1
                    _ _ _ _ _ _ _ _ _ _ _ _ _ _ _] =>
        match goal with
        | |- context [@recursivePartition (with_unassigned H unassigned2) fuel ?t2
                        _ _ _ _ _ _ _ _ _ _ _ _ _ ?md _] =>
            rewrite (recursivePartition_reads_what_it_is_given unassigned1 unassigned2
                       t1 t2 fuel Hkernels
                       ltac:(repeat split; reflexivity)
                       _ _ _ _ _ _ _ _ _ _ _ _ _ md md _ (fun _ => eq_refl))
        end
    end.
    match goal with
    | |- context [@mbind _ _ _ _ _ ?m] =>
        destruct m as [[[root nodeCount] g']|]; cbn [mbind option_bind]; [|exact I]
    end.
    repeat split; reflexivity.
  - exists (fun s l r =>
              let '(draw, _) :=
                discrete_distribution (map double_of_size_t [l; r]) (seeded_engine s) in
              if draw =? 0 then -1 else 1).
    split; [reflexivity|].
    intros t1 g1 root Hrun Hdir Hno Hroot.
    unfold forestryTree_ctor, grow in Hrun.
    repeat (case_match; simplify_option_eq).
    all: match goal with
         | Hr : recursivePartition _ _ _ _ _ _ _ _ _ _ _ _ _ _ _ _ _ = Some _ |- _ =>
             rewrite Hdir in Hr;
             apply (@recursivePartition_default_directions (with_unassigned H unassigned1))
               in Hr; [|exact Hno]
         end.
    all: cbn in *; assumption.
Qed.

(** The script reads no record; two runs on two levels, from a blank
    object and from a tree built before, with different leftovers in the
    records nobody assigned. *)
Lemma construction_is_deterministic_witness :
  @kernels_read_bounds_under_monotone_splits_only scripted
  /\ match @forestryTree_ctor (with_unassigned scripted leftover_record) 5 blank_tree
             two_level_args 0,
           @forestryTree_ctor
             (with_unassigned scripted (@unassigned_monotonic_info scripted)) 5
             S1_tree two_level_args 0 with
     | Threw e1, Threw e2 => e1 = e2
     | Built t1 g1, Built t2 g2 =>
         getTreeInfo zero_padding t1 = getTreeInfo zero_padding t2
         /\ _root t1 = _root t2 /\ _nodeCount t1 = _nodeCount t2
         /\ _averagingSampleIndex t1 = _averagingSampleIndex t2
         /\ _splittingSampleIndex t1 = _splittingSampleIndex t2
         /\ _seed t1 = _seed t2
         /\ g1 = g2
     | NoResult, NoResult => True
     | _, _ => False
     end
  /\ exists draw : Z -> Z -> Z -> Z,
       (forall this averagingLeft averagingRight,
           @random_na_direction scripted this averagingLeft averagingRight
           = draw (_seed this) (vsize averagingLeft) (vsize averagingRight))
       /\ forall t1 g1 root,
            @forestryTree_ctor (with_unassigned scripted leftover_record) 5 blank_tree
              two_level_args 0
            = Built t1 g1 ->
            naDirection two_level_args = true -> hasNas two_level_args = false ->
            _root t1 = Some root ->
            Forall (default_direction_is (draw (seedArg two_level_args))) (nodes root).
Proof.
  assert (@kernels_read_bounds_under_monotone_splits_only scripted) as Hkernels
    by (split; intros; reflexivity).
  split; [exact Hkernels|].
  exact (@construction_is_deterministic scripted zero_padding 5 blank_tree S1_tree
           leftover_record (@unassigned_monotonic_info scripted) two_level_args 0
           Hkernels).
Defined.

(** ** Runs of the constructor that return *)

Lemma sampleFeatures_loop_more_fuel `{Collaborators} (mtry : Z)
    (numFeaturesOnly : bool) (numCols : list Z) (weights : list double) (fuel : nat) :
  forall fuel' g featureList r,
    sampleFeatures_loop fuel mtry g numFeaturesOnly numCols weights featureList = Some r ->
    (fuel <= fuel')%nat ->
    sampleFeatures_loop fuel' mtry g numFeaturesOnly numCols weights featureList = Some r.
Proof.
  induction fuel as [|fuel IH]; intros fuel' g featureList r Hrun Hle.
  - destruct fuel'; cbn [sampleFeatures_loop] in *;
      destruct (vsize featureList <? mtry); congruence.
  - destruct fuel' as [|fuel']; [lia|].
    cbn [sampleFeatures_loop] in *.
    destruct (vsize featureList <? mtry); [|exact Hrun].
    destruct (discrete_distribution weights g) as [index g1].
    destruct (if numFeaturesOnly then vat numCols index else Some index) as [x|];
      [|discriminate].
    cbn [mbind option_bind] in *.
    destruct ((vsize featureList =? 0) || negb (existsb (Z.eqb x) featureList));
      apply IH; assumption || lia.
Qed.

Lemma sampleFeatures_more_fuel `{Collaborators} (fuel fuel' : nat) (mtry : Z)
    (g : mt19937_64) (totalColumns : Z) (numFeaturesOnly : bool) (numCols : list Z)
    (weights : list double) (sampledFeatures : list Z) :
  sampleFeatures fuel mtry g totalColumns numFeaturesOnly numCols weights
    sampledFeatures <> None ->
  (fuel <= fuel')%nat ->
  sampleFeatures fuel' mtry g totalColumns numFeaturesOnly numCols weights
    sampledFeatures <> None.
Proof.
  unfold sampleFeatures. destruct (vsize weights =? 0); [intros; discriminate|].
  intros Hrun Hle.
  destruct (sampleFeatures_loop fuel mtry g numFeaturesOnly numCols weights [])
    as [r|] eqn:Hr; [|congruence].
  rewrite (sampleFeatures_loop_more_fuel _ _ _ _ _ _ _ _ _ Hr Hle). discriminate.
Qed.

Lemma selectBestFeature_returns `{Collaborators} (this : forestryTree)
    (featureList avg spt : list Z) (data : DataFrame) (g : mt19937_64)
    (splitMiddle : bool) (maxObs : Z) (linear : bool) (pen : double)
    (gtotal : option arma_mat) (stotal : option arma_col) (ms : bool)
    (md : monotonic_info) :
  (linear = true -> gtotal <> None /\ stotal <> None) ->
  exists best g',
    selectBestFeature this featureList avg spt data g splitMiddle maxObs linear pen
      gtotal stotal ms md = Some (best, g')
    /\ (linear = true ->
        bestSplitGL best <> None /\ bestSplitGR best <> None
        /\ bestSplitSL best <> None /\ bestSplitSR best <> None).
Proof.
  intros Hlin. unfold selectBestFeature.
  destruct (fold_left _ _ _) as [[[arrays naDirs] g1] i].
  destruct (determineBestSplit _ _ _ _) as [[[[feature value] loss] naDir] g2].
  destruct linear.
  - destruct (Hlin eq_refl) as [Hg Hs].
    destruct gtotal as [gmat|]; [|congruence].
    destruct stotal as [scol|]; [|congruence].
    cbn [mbind option_bind].
    destruct (updateBestSplitG _ _ _ _ _) as [GL GR].
    destruct (updateBestSplitS _ _ _ _ _) as [SL SR].
    eexists _, _. split; [reflexivity|]. intros _. cbn. repeat split; discriminate.
  - eexists _, _. split; [reflexivity|]. intros; discriminate.
Qed.

Lemma recursivePartition_returns `{Collaborators} (this : forestryTree)
    (data : DataFrame) (bound : nat) (splitMiddle : bool) (maxObs : Z)
    (linear : bool) (pen : double) (naDirection : bool) :
  sampling_ends_within bound (_mtry this) data ->
  forall fuel nc avg spt g depth gtotal stotal md,
    0 <= depth <= _maxDepth this ->
    (Z.to_nat (_maxDepth this - depth) < fuel)%nat ->
    (bound + Z.to_nat (_maxDepth this - depth) <= fuel)%nat ->
    (linear = true -> gtotal <> None /\ stotal <> None) ->
    recursivePartition fuel this nc avg spt data g depth splitMiddle maxObs linear
      pen gtotal stotal false md naDirection <> None.
Proof.
  intros Hsample fuel.
  induction fuel as [|fuel IH]; intros nc avg spt g depth gtotal stotal md
    Hdepth Hone Hfuel Hlin; [lia|].
  cbn [recursivePartition].
  destruct ((vsize avg <? _minNodeSizeAvg this)
            || (vsize spt <? _minNodeSizeSpt this)
            || (depth =? _maxDepth this)) eqn:Hterm; [discriminate|].
  apply orb_false_iff in Hterm as [_ Hne]. apply Z.eqb_neq in Hne.
  assert (bound <= fuel)%nat as Hbound by lia.
  assert (exists featureList g1,
            (let '(featureWeightsUsed, sampledWeightsVariablesUsed) :=
               if depth >=? _interactionDepth this
               then (getdeepFeatureWeights data, getdeepFeatureWeightsVariables data)
               else (getfeatureWeights data, getfeatureWeightsVariables data) in
             sampleFeatures fuel (_mtry this) g (to_int (getNumColumns data)) false
               (getNumCols data) featureWeightsUsed sampledWeightsVariablesUsed)
            = Some (featureList, g1)) as (featureList & g1 & Hs).
  { destruct (Hsample g) as [Hshallow Hdeep].
    destruct (depth >=? _interactionDepth this).
    - apply (sampleFeatures_more_fuel bound fuel) in Hdeep; [|exact Hbound].
      destruct (sampleFeatures fuel _ _ _ _ _ _ _) as [[? ?]|]; [eauto|congruence].
    - apply (sampleFeatures_more_fuel bound fuel) in Hshallow; [|exact Hbound].
      destruct (sampleFeatures fuel _ _ _ _ _ _ _) as [[? ?]|]; [eauto|congruence]. }
  destruct (depth >=? _interactionDepth this); rewrite Hs; cbn [mbind option_bind].
  all: destruct (selectBestFeature_returns this featureList avg spt data g1 splitMiddle
                   maxObs linear pen gtotal stotal false md Hlin)
         as (best & g2 & -> & Hbest); cbn [mbind option_bind].
  all: destruct (isnan (bestSplitValue best)); [discriminate|].
  all: destruct (to_size_t _ =? 0); [discriminate|].
  all: destruct (if (0 <? _minSplitGain this)%float then _ else _) as [gain g3].
  all: destruct gain; [discriminate|].
  all: cbn [mbind option_bind].
  all: match goal with
       | |- context [recursivePartition _ _ ?n ?a ?s _ ?g ?d _ _ _ _ ?gt ?st _ ?m _] =>
           pose proof (IH n a s g d gt st m) as Hleft;
           destruct (recursivePartition fuel this n a s data g d splitMiddle maxObs
                       linear pen gt st false m naDirection) as [[[leftChild nc1] g4]|];
           [|exfalso; apply Hleft; [lia|lia|lia| |reflexivity];
             intros ->; specialize (Hbest eq_refl); tauto]
       end.
  all: cbn [mbind option_bind].
  all: match goal with
       | |- context [recursivePartition _ _ ?n ?a ?s _ ?g ?d _ _ _ _ ?gt ?st _ ?m _] =>
           pose proof (IH n a s g d gt st m) as Hright;
           destruct (recursivePartition fuel this n a s data g d splitMiddle maxObs
                       linear pen gt st false m naDirection) as [[[rightChild nc2] g5]|];
           [|exfalso; apply Hright; [lia|lia|lia| |reflexivity];
             intros ->; specialize (Hbest eq_refl); tauto]
       end.
  all: discriminate.
Qed.

Lemma vat_first {A : Type} (v : list A) : vsize v <> 0 -> exists x, vat v 0 = Some x.
Proof.
  destruct v as [|x v]; [intros Hne; exfalso; apply Hne; reflexivity|].
  intros _. exists x. reflexivity.
Qed.

(** The constructor returns a tree whenever the configuration passes its
    checks, no feature carries a monotone constraint, and feature sampling
    ends: with the rejection loop of [sampleFeatures] ending within [bound]
    draws, a recursion allowance above [maxDepth] (and of at least
    [bound + maxDepth]) is never exhausted, no vector is read out of range
    and, under [linear], no ridge accumulator is missing. *)
Theorem constructor_returns_a_tree `{Collaborators} (bound fuel : nat)
    (this0 : forestryTree) (a : tree_args) (g : mt19937_64) :
  sanity_check a = None ->
  0 <= maxDepth a ->
  forallb (fun i => i =? 0) (getMonotonicConstraints (trainingData a)) = true ->
  sampling_ends_within bound (mtry a) (trainingData a) ->
  (Z.to_nat (maxDepth a) < fuel)%nat ->
  (bound + Z.to_nat (maxDepth a) <= fuel)%nat ->
  exists t g', forestryTree_ctor fuel this0 a g = Built t g'.
Proof.
  intros Hcheck Hmax Hmono Hsample Hfuel Hbound.
  unfold forestryTree_ctor. rewrite Hcheck.
  assert (vsize (splittingIndexArg a) <> 0) as Hspt.
  { unfold sanity_check in Hcheck. repeat (case_match; try discriminate). lia. }
  destruct (vat_first _ Hspt) as [first Hfirst].
  unfold grow. cbn [_splittingSampleIndex _averagingSampleIndex _nodeCount].
  rewrite Hfirst, Hmono. cbn [mbind option_bind negb].
  unfold initializelinear. rewrite Hfirst. cbn [mbind option_bind].
  destruct (linear a) eqn:Hlin.
  - destruct (fold_left _ _ _) as [gTotal sTotal] eqn:Hinit.
    cbn [mbind option_bind].
    match goal with
    | |- context [recursivePartition fuel ?this ?nc ?avg ?spt ?data g 0 ?sm ?mo true ?pen
                    ?gt ?st false ?md ?nd] =>
        pose proof (recursivePartition_returns this data bound sm mo true pen nd
                      Hsample fuel nc avg spt g 0 gt st md) as Hrun;
        destruct (recursivePartition fuel this nc avg spt data g 0 sm mo true pen
                    gt st false md nd) as [[[root nodeCount] g']|] eqn:Hrp
    end.
    + cbn [mbind option_bind]. eauto.
    + exfalso. apply Hrun; cbn; try lia; [|reflexivity].
      intros _. split; discriminate.
  - cbn [mbind option_bind].
    match goal with
    | |- context [recursivePartition fuel ?this ?nc ?avg ?spt ?data g 0 ?sm ?mo false ?pen
                    ?gt ?st false ?md ?nd] =>
        pose proof (recursivePartition_returns this data bound sm mo false pen nd
                      Hsample fuel nc avg spt g 0 gt st md) as Hrun;
        destruct (recursivePartition fuel this nc avg spt data g 0 sm mo false pen
                    gt st false md nd) as [[[root nodeCount] g']|] eqn:Hrp
    end.
    + cbn [mbind option_bind]. eauto.
    + exfalso. apply Hrun; cbn; try lia; try reflexivity.
Qed.

Lemma constructor_returns_a_tree_witness :
  sanity_check S1_args = None
  /\ 0 <= maxDepth S1_args
  /\ forallb (fun i => i =? 0) (getMonotonicConstraints (trainingData S1_args)) = true
  /\ @sampling_ends_within scripted 0 (mtry S1_args) (trainingData S1_args)
  /\ (Z.to_nat (maxDepth S1_args) < 2)%nat
  /\ (0 + Z.to_nat (maxDepth S1_args) <= 2)%nat
  /\ exists t g', @forestryTree_ctor scripted 2 blank_tree S1_args 0 = @Built scripted t g'.
Proof.
  assert (sanity_check S1_args = None) as Hcheck by reflexivity.
  assert (0 <= maxDepth S1_args) as Hmax by (vm_compute; discriminate).
  assert (forallb (fun i => i =? 0) (getMonotonicConstraints (trainingData S1_args)) = true)
    as Hmono by reflexivity.
  assert (@sampling_ends_within scripted 0 (mtry S1_args) (trainingData S1_args))
    as Hsample by (intros g; split; discriminate).
  assert (Z.to_nat (maxDepth S1_args) < 2)%nat as Hfuel by (vm_compute; lia).
  assert (0 + Z.to_nat (maxDepth S1_args) <= 2)%nat as Hbound by (vm_compute; lia).
  repeat (split; [assumption|]).
  exact (@constructor_returns_a_tree scripted 0 2 blank_tree S1_args 0
           Hcheck Hmax Hmono Hsample Hfuel Hbound).
Defined.

(** ** The out-of-group index *)

Lemma insert_groups_collects (groupMemberships rows : list Z) :
  forall seen seen',
    insert_groups groupMemberships rows seen = Some seen' ->
    forall grp, grp ∈ seen' <->
                grp ∈ seen \/ exists row, In row rows /\ vat groupMemberships row = Some grp.
Proof.
  induction rows as [|row rows IH]; intros seen seen' Hrun grp; cbn in Hrun.
  - injection Hrun as <-. split; [auto|]. intros [Hin | (row & [] & _)]. exact Hin.
  - destruct (vat groupMemberships row) as [g|] eqn:Hrow; [|discriminate].
    cbn in Hrun. rewrite (IH _ _ Hrun grp), elem_of_union, elem_of_singleton.
    split.
    + intros [[-> | Hin] | (row' & Hin & Hgrp)]; eauto.
      * right. exists row. split; [left; reflexivity | exact Hrow].
      * right. exists row'. split; [right; exact Hin | exact Hgrp].
    + intros [Hin | (row' & [<- | Hin] & Hgrp)]; eauto.
      left. left. congruence.
Qed.

Lemma push_out_of_group_filters (groupMemberships rows : list Z) (seen : gset Z) :
  forall out out',
    push_out_of_group groupMemberships seen rows out = Some out' ->
    out' = out ++ List.filter
                    (fun row => match vat groupMemberships row with
                                | Some grp => negb (bool_decide (grp ∈ seen))
                                | None => false
                                end) rows.
Proof.
  induction rows as [|row rows IH]; intros out out' Hrun; cbn in Hrun.
  - injection Hrun as <-. cbn. rewrite app_nil_r. reflexivity.
  - cbn [List.filter].
    destruct (vat groupMemberships row) as [grp|]; [|discriminate].
    cbn in Hrun. apply IH in Hrun.
    destruct (bool_decide (grp ∈ seen)); cbn [negb]; [exact Hrun|].
    rewrite Hrun, <- app_assoc. reflexivity.
Qed.

Lemma StronglySorted_filter (p : Z -> bool) (l : list Z) :
  StronglySorted Z.le l -> StronglySorted Z.le (List.filter p l).
Proof.
  induction 1 as [|x l Hs IH Hx]; cbn [List.filter]; [constructor|].
  destruct (p x); [|exact IH].
  constructor; [exact IH|].
  rewrite List.Forall_forall in *. intros y Hy. apply filter_In in Hy as [Hy _]. auto.
Qed.

(** What [getOOGIndex] appends, when every row it meets is a position of
    [groupMemberships]: in ascending order, every row of [allIndex] whose
    group is the group of no averaging row (with [doubleOOB]: of no
    averaging and of no splitting row), as often as it occurs in
    [allIndex], and no other row.  So no row that the tree averaged over
    (or, with [doubleOOB], split on) is ever appended. *)
Theorem out_of_group_index_holds_the_unseen_groups (s : oob_state)
    (groupMemberships : list Z) (doubleOOB : bool) :
  Forall (fun row => 0 <= row < vsize groupMemberships)
         (group_sample (oob_tree s) doubleOOB ++ allIndex s) ->
  exists s' oob,
    getOOGIndex s groupMemberships doubleOOB = Some s'
    /\ outputOOBIndex s' = outputOOBIndex s ++ oob
    /\ StronglySorted Z.le oob
    /\ (forall v,
           shares_a_group groupMemberships (group_sample (oob_tree s) doubleOOB) v ->
           ~ In v oob)
    /\ (forall v,
           ~ shares_a_group groupMemberships (group_sample (oob_tree s) doubleOOB) v ->
           occurrences oob v = occurrences (allIndex s) v)
    /\ (forall v, In v (group_sample (oob_tree s) doubleOOB) -> ~ In v oob).
Proof.
  intros Hrange. unfold group_sample in *.
  apply Forall_app in Hrange as [Hsample Hall].
  apply Forall_app in Hsample as [Havg Hspt].
  unfold getOOGIndex. cbn [with_sorted_indices _averagingSampleIndex _splittingSampleIndex].
  destruct (insert_groups_in_range groupMemberships
              (std_sort (_averagingSampleIndex (oob_tree s)))
              (Forall_std_sort _ _ Havg) ∅) as [seen1 Hseen1].
  rewrite Hseen1. cbn [mbind option_bind].
  assert (exists seen2,
            (if doubleOOB
             then insert_groups groupMemberships (_splittingSampleIndex (oob_tree s)) seen1
             else Some seen1) = Some seen2
            /\ forall grp, grp ∈ seen2 <->
                 exists row,
                   In row (_averagingSampleIndex (oob_tree s)
                           ++ (if doubleOOB then _splittingSampleIndex (oob_tree s) else []))
                   /\ vat groupMemberships row = Some grp) as (seen2 & Hseen2 & Hgroups).
  { pose proof (insert_groups_collects _ _ _ _ Hseen1) as H1.
    destruct doubleOOB.
    - destruct (insert_groups_in_range groupMemberships _ Hspt seen1) as [seen2 Hseen2].
      exists seen2. split; [exact Hseen2|]. intros grp.
      rewrite (insert_groups_collects _ _ _ _ Hseen2 grp), H1.
      split.
      + intros [[Hin | (row & Hin & Hgrp)] | (row & Hin & Hgrp)].
        * apply elem_of_empty in Hin. destruct Hin.
        * exists row. split; [|exact Hgrp]. apply in_or_app. left.
          apply std_sort_In, Hin.
        * exists row. split; [|exact Hgrp]. apply in_or_app. right. exact Hin.
      + intros (row & Hin & Hgrp). apply in_app_or in Hin as [Hin | Hin].
        * left. right. exists row. split; [apply std_sort_In, Hin | exact Hgrp].
        * right. exists row. split; assumption.
    - exists seen1. split; [reflexivity|]. intros grp. rewrite H1, app_nil_r.
      split.
      + intros [Hin | (row & Hin & Hgrp)]; [apply elem_of_empty in Hin; destruct Hin|].
        exists row. split; [apply std_sort_In, Hin | exact Hgrp].
      + intros (row & Hin & Hgrp). right. exists row.
        split; [apply std_sort_In, Hin | exact Hgrp]. }
  rewrite Hseen2. cbn [mbind option_bind].
  destruct (push_out_of_group_in_range groupMemberships (std_sort (allIndex s))
              seen2 (Forall_std_sort _ _ Hall) (outputOOBIndex s)) as [oob Hpush].
  rewrite Hpush. cbn [mbind option_bind].
  apply push_out_of_group_filters in Hpush. apply app_inv_head in Hpush. subst oob.
  set (unseen := fun row => match vat groupMemberships row with
                            | Some grp => negb (bool_decide (grp ∈ seen2))
                            | None => false
                            end).
  assert (forall v, shares_a_group groupMemberships
                      (_averagingSampleIndex (oob_tree s)
                       ++ (if doubleOOB then _splittingSampleIndex (oob_tree s) else [])) v ->
                    unseen v = false) as Hseen.
  { intros v (row & Hin & Hsame). unfold unseen.
    destruct (vat groupMemberships v) as [grp|]; [|reflexivity].
    assert (grp ∈ seen2) as Hgrp by (apply Hgroups; eauto).
    rewrite (bool_decide_eq_true_2 _ Hgrp). reflexivity. }
  eexists _, _. split; [reflexivity|]. cbn [outputOOBIndex].
  split; [reflexivity|].
  split; [apply StronglySorted_filter, std_sort_sorted|].
  split; [|split].
  - intros v Hshare Hin. apply filter_In in Hin as [_ Hin].
    rewrite (Hseen v Hshare) in Hin. discriminate.
  - intros v Hno. rewrite occurrences_filter.
    destruct (unseen v) eqn:Hv; [apply std_sort_occurrences|].
    symmetry. apply count_occ_not_In. intros Hin.
    rewrite List.Forall_forall in Hall. apply Hall, vat_in_range in Hin as [grp Hgrp].
    unfold unseen in Hv. rewrite Hgrp in Hv.
    apply negb_false_iff, bool_decide_eq_true_1, Hgroups in Hv as (row & Hin & Hrow).
    apply Hno. exists row. split; [exact Hin | congruence].
  - intros v Hin Hout. apply filter_In in Hout as [_ Hout].
    rewrite (Hseen v) in Hout; [discriminate|].
    exists v. split; [exact Hin | reflexivity].
Qed.

Lemma out_of_group_index_holds_the_unseen_groups_witness :
  Forall (fun row => 0 <= row < vsize [7; 8; 7; 10])
         (group_sample (oob_tree unsorted_splitting_state) false
          ++ allIndex unsorted_splitting_state)
  /\ exists s' oob,
       getOOGIndex unsorted_splitting_state [7; 8; 7; 10] false = Some s'
       /\ outputOOBIndex s' = outputOOBIndex unsorted_splitting_state ++ oob
       /\ StronglySorted Z.le oob
       /\ (forall v,
              shares_a_group [7; 8; 7; 10]
                (group_sample (oob_tree unsorted_splitting_state) false) v ->
              ~ In v oob)
       /\ (forall v,
              ~ shares_a_group [7; 8; 7; 10]
                  (group_sample (oob_tree unsorted_splitting_state) false) v ->
              occurrences oob v = occurrences (allIndex unsorted_splitting_state) v)
       /\ (forall v, In v (group_sample (oob_tree unsorted_splitting_state) false) ->
                     ~ In v oob).
Proof.
  assert (Forall (fun row => 0 <= row < vsize [7; 8; 7; 10])
            (group_sample (oob_tree unsorted_splitting_state) false
             ++ allIndex unsorted_splitting_state)) as Hrange.
  { cbn. repeat constructor; vm_compute; discriminate. }
  split; [exact Hrange|].
  exact (out_of_group_index_holds_the_unseen_groups unsorted_splitting_state
           [7; 8; 7; 10] false Hrange).
Defined.

(** ** Calling an out-of-bag function again *)

Lemma std_sort_of_sorted (v : list Z) : StronglySorted Z.le v -> std_sort v = v.
Proof.
  intros Hs. apply (StronglySorted_unique Z.le); [apply std_sort_sorted | exact Hs|].
  apply std_sort_permutation.
Qed.

Lemma std_sort_again (v : list Z) : std_sort (std_sort v) = std_sort v.
Proof. apply std_sort_of_sorted, std_sort_sorted. Qed.

Lemma with_sorted_indices_again (t : forestryTree) (sortSplitting : bool) :
  with_sorted_indices (with_sorted_indices t sortSplitting) sortSplitting
  = with_sorted_indices t sortSplitting.
Proof.
  unfold with_sorted_indices. cbn. rewrite std_sort_again.
  destruct sortSplitting; [rewrite std_sort_again|]; reflexivity.
Qed.

(** The out-of-bag functions do not clear their output and are idempotent
    on everything else: a second call of [getOOBindex], [getDoubleOOBIndex]
    or [getOOBhonestIndex] on the state the first call left changes neither
    the tree nor [allIndex] again, and appends to the output the very rows
    the first call appended. *)
Theorem second_oob_call_appends_the_same_rows (s : oob_state) :
  (exists oob,
      outputOOBIndex (getOOBindex s) = outputOOBIndex s ++ oob
      /\ getOOBindex (getOOBindex s)
         = {| oob_tree := oob_tree (getOOBindex s);
              outputOOBIndex := outputOOBIndex s ++ oob ++ oob;
              allIndex := allIndex (getOOBindex s) |})
  /\ (exists oob,
         outputOOBIndex (getDoubleOOBIndex s) = outputOOBIndex s ++ oob
         /\ getDoubleOOBIndex (getDoubleOOBIndex s)
            = {| oob_tree := oob_tree (getDoubleOOBIndex s);
                 outputOOBIndex := outputOOBIndex s ++ oob ++ oob;
                 allIndex := allIndex (getDoubleOOBIndex s) |})
  /\ (exists oob,
         outputOOBIndex (getOOBhonestIndex s) = outputOOBIndex s ++ oob
         /\ getOOBhonestIndex (getOOBhonestIndex s)
            = {| oob_tree := oob_tree (getOOBhonestIndex s);
                 outputOOBIndex := outputOOBIndex s ++ oob ++ oob;
                 allIndex := allIndex (getOOBhonestIndex s) |}).
Proof.
  split; [|split].
  - eexists. split; [unfold getOOBindex; cbn [outputOOBIndex]; apply push_back_all|].
    unfold getOOBindex at 1 2 3.
    cbn [oob_tree outputOOBIndex allIndex].
    rewrite with_sorted_indices_again, std_sort_again, !push_back_all, <- app_assoc.
    cbn [with_sorted_indices _averagingSampleIndex _splittingSampleIndex].
    reflexivity.
  - eexists. split; [unfold getDoubleOOBIndex; cbn [outputOOBIndex]; apply push_back_all|].
    unfold getDoubleOOBIndex at 1 2 3.
    cbn [oob_tree outputOOBIndex allIndex].
    rewrite with_sorted_indices_again, std_sort_again, !push_back_all, <- app_assoc.
    cbn [with_sorted_indices _averagingSampleIndex _splittingSampleIndex].
    reflexivity.
  - eexists. split; [unfold getOOBhonestIndex; cbn [outputOOBIndex]; apply push_back_all|].
    unfold getOOBhonestIndex at 1 2 3.
    cbn [oob_tree outputOOBIndex allIndex].
    rewrite with_sorted_indices_again, std_sort_again, !push_back_all, <- app_assoc.
    cbn [with_sorted_indices _averagingSampleIndex _splittingSampleIndex].
    reflexivity.
Qed.

(** ** What rebuilding reads *)

Lemma recursive_reconstruction_more_fuel (fuel : nat) :
  forall fuel' st res,
    recursive_reconstruction fuel st = Some res ->
    (fuel <= fuel')%nat ->
    recursive_reconstruction fuel' st = Some res.
Proof.
  induction fuel as [|fuel IH]; intros fuel' st res Hrun Hle; [discriminate|].
  destruct fuel' as [|fuel']; [lia|].
  cbn [recursive_reconstruction] in *.
  repeat match goal with
         | H : context [@mbind _ _ _ _ _ (pop_front ?v)] |- _ =>
             destruct (pop_front v) as [[? ?]|]; cbn [mbind option_bind] in *;
             [|discriminate]
         end.
  destruct (_ <? 0); [exact Hrun|].
  destruct (recursive_reconstruction fuel _) as [[leftChild st2]|] eqn:Hl;
    [|discriminate].
  rewrite (IH fuel' _ _ Hl) by lia. cbn [mbind option_bind] in *.
  destruct (recursive_reconstruction fuel st2) as [[rightChild st3]|] eqn:Hr;
    [|discriminate].
  rewrite (IH fuel' _ _ Hr) by lia. exact Hrun.
Qed.

(** A run of [recursive_reconstruction] erases one entry of [var_ids] for
    every node and one more for every leaf, one entry of each of the four
    other arrays for every node, and one weight for every leaf; its
    recursion is as deep as the tree it builds. *)
Lemma recursive_reconstruction_consumes (fuel : nat) :
  forall st node st',
    recursive_reconstruction fuel st = Some (node, st') ->
    length (r_var_ids st)
    = (count_nodes node + count_leaves node + length (r_var_ids st'))%nat
    /\ length (r_split_vals st) = (count_nodes node + length (r_split_vals st'))%nat
    /\ length (r_naLeftCounts st) = (count_nodes node + length (r_naLeftCounts st'))%nat
    /\ length (r_naRightCounts st) = (count_nodes node + length (r_naRightCounts st'))%nat
    /\ length (r_naDefaultDirections st)
       = (count_nodes node + length (r_naDefaultDirections st'))%nat
    /\ length (r_weights st) = (count_leaves node + length (r_weights st'))%nat
    /\ Forall leaf_is_rebuilt (nodes node)
    /\ recursive_reconstruction (count_nodes node) st = Some (node, st').
Proof.
  induction fuel as [|fuel IH]; intros st node st' Hrun; [discriminate|].
  cbn [recursive_reconstruction] in Hrun.
  destruct st as [vs svs nls nrs nds ws nc]. cbn [r_var_ids r_split_vals
    r_naLeftCounts r_naRightCounts r_naDefaultDirections r_weights r_nodeCount] in *.
  destruct vs as [|v vs]; [discriminate|].
  destruct svs as [|sv svs]; [discriminate|].
  destruct nls as [|nl nls]; [discriminate|].
  destruct nrs as [|nr nrs]; [discriminate|].
  destruct nds as [|nd nds]; [discriminate|].
  cbn [pop_front mbind option_bind] in Hrun.
  destruct (v <? 0) eqn:Hneg.
  - destruct (int_abs v) as [nAve|] eqn:Hv; [|discriminate].
    cbn [mbind option_bind] in Hrun.
    destruct vs as [|second vs]; [discriminate|]. cbn [pop_front mbind option_bind] in Hrun.
    destruct (int_abs second) as [nSpl|] eqn:Hs; [|discriminate].
    cbn [mbind option_bind] in Hrun.
    destruct ws as [|w ws]; [discriminate|]. cbn [pop_front mbind option_bind] in Hrun.
    injection Hrun as <- <-.
    cbn [count_nodes count_leaves length nodes recursive_reconstruction pop_front
         mbind option_bind r_var_ids r_split_vals r_naLeftCounts r_naRightCounts
         r_naDefaultDirections r_weights r_nodeCount Nat.add].
    rewrite Hneg, Hv. cbn [mbind option_bind]. rewrite Hs. cbn [mbind option_bind].
    repeat (split; [reflexivity|]).
    split; [|reflexivity].
    constructor; [|constructor]. cbn [leaf_is_rebuilt].
    unfold int_abs in Hv, Hs.
    destruct (v =? - 2 ^ 31); [discriminate|]. injection Hv as <-.
    destruct (second =? - 2 ^ 31); [discriminate|]. injection Hs as <-.
    apply Z.ltb_lt in Hneg. repeat split; lia.
  - destruct (recursive_reconstruction fuel _) as [[leftChild st2]|] eqn:Hl;
      [|discriminate].
    cbn [mbind option_bind] in Hrun.
    destruct (recursive_reconstruction fuel st2) as [[rightChild st3]|] eqn:Hr;
      [|discriminate].
    cbn [mbind option_bind] in Hrun. injection Hrun as <- <-.
    apply IH in Hl as (Hl1 & Hl2 & Hl3 & Hl4 & Hl5 & Hl6 & Hl7 & Hl8).
    apply IH in Hr as (Hr1 & Hr2 & Hr3 & Hr4 & Hr5 & Hr6 & Hr7 & Hr8).
    cbn [r_var_ids r_split_vals r_naLeftCounts r_naRightCounts
         r_naDefaultDirections r_weights] in *.
    cbn [count_nodes count_leaves length nodes].
    repeat (split; [lia|]).
    split; [constructor; [exact I|apply Forall_app; split; assumption]|].
    cbn [recursive_reconstruction pop_front mbind option_bind r_var_ids r_split_vals
         r_naLeftCounts r_naRightCounts r_naDefaultDirections r_weights r_nodeCount].
    rewrite Hneg.
    rewrite (recursive_reconstruction_more_fuel _ _ _ _ Hl8) by lia.
    cbn [mbind option_bind].
    rewrite (recursive_reconstruction_more_fuel _ _ _ _ Hr8) by lia.
    reflexivity.
Qed.

Lemma recursive_reconstruction_frame (more : node_arrays) (fuel : nat) :
  forall st node st',
    recursive_reconstruction fuel st = Some (node, st') ->
    recursive_reconstruction fuel (state_with_trailing st more)
    = Some (node, state_with_trailing st' more).
Proof.
  induction fuel as [|fuel IH]; intros st node st' Hrun; [discriminate|].
  destruct st as [vs svs nls nrs nds ws nc]. unfold state_with_trailing at 1.
  cbn [recursive_reconstruction] in *.
  cbn [r_var_ids r_split_vals r_naLeftCounts r_naRightCounts r_naDefaultDirections
       r_weights r_nodeCount] in *.
  destruct vs as [|v vs]; [discriminate|].
  destruct svs as [|sv svs]; [discriminate|].
  destruct nls as [|nl nls]; [discriminate|].
  destruct nrs as [|nr nrs]; [discriminate|].
  destruct nds as [|nd nds]; [discriminate|].
  cbn [pop_front mbind option_bind app] in *.
  destruct (v <? 0) eqn:Hneg.
  - destruct (int_abs v); [|discriminate]. cbn [mbind option_bind] in *.
    destruct vs as [|second vs]; [discriminate|]. cbn [pop_front mbind option_bind app] in *.
    destruct (int_abs second); [|discriminate]. cbn [mbind option_bind] in *.
    destruct ws as [|w ws]; [discriminate|]. cbn [pop_front mbind option_bind app] in *.
    injection Hrun as <- <-. reflexivity.
  - destruct (recursive_reconstruction fuel _) as [[leftChild st2]|] eqn:Hl;
      [|discriminate].
    cbn [mbind option_bind] in Hrun.
    destruct (recursive_reconstruction fuel st2) as [[rightChild st3]|] eqn:Hr;
      [|discriminate].
    cbn [mbind option_bind] in Hrun. injection Hrun as <- <-.
    apply IH in Hl. apply IH in Hr. unfold state_with_trailing at 1 in Hl.
    cbn [r_var_ids r_split_vals r_naLeftCounts r_naRightCounts r_naDefaultDirections
         r_weights r_nodeCount] in Hl.
    rewrite Hl. cbn [mbind option_bind]. rewrite Hr. reflexivity.
Qed.

(** [reconstruct_tree] reads the encoding of one tree from the front of the
    arrays and never looks at what follows it: a record that rebuilds to a
    tree rebuilds to the same tree with any further entries behind its
    node arrays. *)
Theorem reconstruct_tree_ignores_trailing_entries (h : reconstruct_args)
    (r : tree_info) (t : forestryTree) (more : node_arrays) :
  reconstruct_tree h r = Some t ->
  reconstruct_tree h (with_trailing_entries r more) = Some t.
Proof.
  unfold reconstruct_tree. intros Hrun.
  destruct (recursive_reconstruction (length (var_ids r)) _) as [[root st']|] eqn:Hrec;
    [|discriminate].
  cbn [mbind option_bind] in Hrun. injection Hrun as <-.
  apply (recursive_reconstruction_frame more) in Hrec.
  apply (recursive_reconstruction_more_fuel _ (length (var_ids r ++ a_var_ids more)))
    in Hrec; [|rewrite length_app; lia].
  unfold state_with_trailing at 1 in Hrec.
  cbn [r_var_ids r_split_vals r_naLeftCounts r_naRightCounts r_naDefaultDirections
       r_weights r_nodeCount with_trailing_entries var_ids split_vals naLeftCounts
       naRightCounts naDefaultDirections weights averagingSampleIndex
       splittingSampleIndex seed] in *.
  rewrite Hrec. reflexivity.
Qed.

Lemma reconstruct_tree_ignores_trailing_entries_witness :
  reconstruct_tree S1_reconstruct_args S1_record = Some S1_tree
  /\ reconstruct_tree S1_reconstruct_args
       (with_trailing_entries S1_record
          {| a_var_ids := [7]; a_split_vals := []; a_naLeftCounts := [0; 0];
             a_naRightCounts := []; a_naDefaultDirections := [];
             a_weights := [1%float] |})
     = Some S1_tree.
Proof.
  assert (reconstruct_tree S1_reconstruct_args S1_record = Some S1_tree) as Hrun
    by (vm_compute; reflexivity).
  split; [exact Hrun|].
  exact (reconstruct_tree_ignores_trailing_entries S1_reconstruct_args S1_record S1_tree
           _ Hrun).
Defined.

(** A tree that [reconstruct_tree] returns was read off the arrays node by
    node: [var_ids] holds at least one entry for each of its nodes and one
    more for each leaf, each of the four other node arrays at least one
    entry for each node, and the weights at least one for each leaf; and
    each of its leaves has an averaging count of at least 1 and a splitting
    count that is not negative. *)
Theorem reconstruct_tree_reads_one_entry_per_node (h : reconstruct_args)
    (r : tree_info) (t : forestryTree) :
  reconstruct_tree h r = Some t ->
  exists root,
    _root t = Some root
    /\ (count_nodes root + count_leaves root <= length (var_ids r))%nat
    /\ (count_nodes root <= length (split_vals r))%nat
    /\ (count_nodes root <= length (naLeftCounts r))%nat
    /\ (count_nodes root <= length (naRightCounts r))%nat
    /\ (count_nodes root <= length (naDefaultDirections r))%nat
    /\ (count_leaves root <= length (weights r))%nat
    /\ Forall leaf_is_rebuilt (nodes root).
Proof.
  unfold reconstruct_tree. intros Hrun.
  destruct (recursive_reconstruction (length (var_ids r)) _) as [[root st']|] eqn:Hrec;
    [|discriminate].
  cbn [mbind option_bind] in Hrun. injection Hrun as <-.
  apply recursive_reconstruction_consumes in Hrec
    as (H1 & H2 & H3 & H4 & H5 & H6 & H7 & _).
  cbn [r_var_ids r_split_vals r_naLeftCounts r_naRightCounts r_naDefaultDirections
       r_weights] in *.
  exists root. cbn [_root]. repeat (split; [reflexivity || lia|]). exact H7.
Qed.

Lemma reconstruct_tree_reads_one_entry_per_node_witness :
  reconstruct_tree S1_reconstruct_args S1_record = Some S1_tree
  /\ exists root,
       _root S1_tree = Some root
       /\ (count_nodes root + count_leaves root <= length (var_ids S1_record))%nat
       /\ (count_nodes root <= length (split_vals S1_record))%nat
       /\ (count_nodes root <= length (naLeftCounts S1_record))%nat
       /\ (count_nodes root <= length (naRightCounts S1_record))%nat
       /\ (count_nodes root <= length (naDefaultDirections S1_record))%nat
       /\ (count_leaves root <= length (weights S1_record))%nat
       /\ Forall leaf_is_rebuilt (nodes root).
Proof.
  assert (reconstruct_tree S1_reconstruct_args S1_record = Some S1_tree) as Hrun
    by (vm_compute; reflexivity).
  split; [exact Hrun|].
  exact (reconstruct_tree_reads_one_entry_per_node S1_reconstruct_args S1_record S1_tree
           Hrun).
Defined.

(** ** Utilities *)

Lemma to_int_add_wrapped (a x : Z) : to_int (to_int a + x) = to_int (a + x).
Proof.
  unfold to_int.
  replace ((a + 2 ^ 31) mod 2 ^ 32 - 2 ^ 31 + x + 2 ^ 31)
    with ((a + 2 ^ 31) mod 2 ^ 32 + x) by lia.
  rewrite Zplus_mod_idemp_l. do 2 f_equal. lia.
Qed.

Lemma to_int_of_int (z : Z) : is_int z = true -> to_int z = z.
Proof.
  unfold is_int, to_int. intros Hz. apply andb_true_iff in Hz as [Hlo Hhi].
  apply Z.leb_le in Hlo. apply Z.ltb_lt in Hhi.
  rewrite Z.mod_small; lia.
Qed.

Lemma total_permutation (v v' : list Z) : Permutation v v' -> total v = total v'.
Proof.
  unfold total. induction 1 as [|x l l' _ IH|x y l|l l' l'' _ IH1 _ IH2]; cbn; lia.
Qed.

(** [add_vector] returns the sum of the entries wrapped to the 32 bits of
    an [int]: the sum itself whenever that is an [int], also where a
    partial sum on the way is not, and the same in whatever order the
    entries come. *)
Theorem add_vector_is_the_sum_wrapped_to_int (v : list Z) :
  add_vector v = to_int (total v)
  /\ (is_int (total v) = true -> add_vector v = total v)
  /\ (forall v', Permutation v v' -> add_vector v' = add_vector v).
Proof.
  assert (forall l, add_vector l = to_int (total l)) as Hsum.
  { intros l. unfold add_vector.
    change (fold_left (fun sum x => to_int (sum + x)) l 0)
      with (fold_left (fun sum x => to_int (sum + x)) l (to_int 0)).
    change (total l) with (0 + total l).
    generalize 0 as sum0.
    induction l as [|x l IH]; intros sum0; cbn [fold_left total fold_right].
    - f_equal. lia.
    - rewrite to_int_add_wrapped, IH. fold (total l). f_equal. lia. }
  split; [apply Hsum|]. split.
  - intros Hint. rewrite Hsum. apply to_int_of_int, Hint.
  - intros v' Hperm. rewrite !Hsum. f_equal. symmetry. apply total_permutation, Hperm.
Qed.

(** A partial sum that leaves the range of [int] wraps, and the entries
    that follow bring the sum back. *)
Example add_vector_wraps :
  add_vector [2 ^ 31 - 1; 1; -1] = 2 ^ 31 - 1
  /\ add_vector [2 ^ 31 - 1; 1] = - 2 ^ 31.
Proof. split; reflexivity. Qed.

(** [square] never returns a negative number, whatever it is handed (NaN
    and the infinities included), and it returns the same for [x] and for
    [-x]. *)
Theorem square_is_even_and_not_negative (x : double) :
  (square x <? 0)%float = false /\ square (- x) = square x.
Proof.
  unfold square. split.
  - rewrite ltb_spec, mul_spec.
    change (Prim2SF 0) with (S754_zero false).
    destruct (Prim2SF x) as [s|s| |s m e].
    + destruct s; reflexivity.
    + destruct s; reflexivity.
    + reflexivity.
    + unfold SF64mul, SFmul. rewrite xorb_nilpotent.
      unfold binary_round_aux.
      destruct (shr_fexp _ _ _ _ _) as [mrs e1].
      destruct (shr_fexp _ _ _ _ _) as [mrs' e2].
      destruct (shr_m mrs') as [|p|p]; try reflexivity.
      destruct (e2 <=? _); reflexivity.
  - apply Prim2SF_inj. rewrite !mul_spec, !opp_spec.
    destruct (Prim2SF x) as [s|s| |s m e]; cbn; try reflexivity;
      destruct s; reflexivity.
Qed.

(** ** Out-of-bag predictions *)

Lemma outcome_bind_never_throws {A B : Type} (m : outcome A) (k : A -> outcome B) :
  m <> Throws_out_of_range ->
  (forall a, m = Returns a -> k a <> Throws_out_of_range) ->
  outcome_bind m k <> Throws_out_of_range.
Proof. destruct m; cbn; auto; congruence. Qed.

Lemma defined_never_throws {A : Type} (o : option A) : defined o <> Throws_out_of_range.
Proof. destruct o; discriminate. Qed.

Lemma for_each_never_throws {A B : Type} (f : A -> outcome B) (v : list A) :
  (forall x, In x v -> f x <> Throws_out_of_range) ->
  for_each f v <> Throws_out_of_range.
Proof.
  induction v as [|x v IH]; intros Hf; cbn [for_each]; [discriminate|].
  apply outcome_bind_never_throws; [apply Hf; left; reflexivity|].
  intros y _. apply outcome_bind_never_throws; [apply IH; intros; apply Hf; right; assumption|].
  intros; discriminate.
Qed.

Lemma for_each_Returns {A B : Type} (f : A -> B) (v : list A) :
  for_each (fun x => Returns (f x)) v = Returns (map f v).
Proof. induction v as [|x v IH]; cbn; [reflexivity|]. rewrite IH. reflexivity. Qed.

Lemma fill_map_trainidx_holds (training_idx : list Z) :
  forall i map_trainidx x,
    In x training_idx \/ is_Some (map_trainidx !! x) ->
    is_Some (fill_map_trainidx training_idx i map_trainidx !! x).
Proof.
  induction training_idx as [|y rest IH]; intros i m x Hx; cbn [fill_map_trainidx].
  - destruct Hx as [[] | Hx]. exact Hx.
  - apply IH. destruct Hx as [[-> | Hin] | Hsome]; [right|left; exact Hin|right].
    + rewrite lookup_insert_eq. eauto.
    + destruct (decide (y = x)) as [-> | Hne];
        [rewrite lookup_insert_eq; eauto | rewrite lookup_insert_ne; assumption].
Qed.

(** The rows an index function of a regime appends are rows of
    [allIndex]. *)
Lemma regime_index_rows (this : forestryTree) (trainingData : DataFrame)
    (OOBhonest doubleOOB : bool) (group0 : Z) (allIndex0 : list Z) (s : oob_state) :
  regime_index this trainingData OOBhonest doubleOOB group0 allIndex0 = Some s ->
  forall v, In v (outputOOBIndex s) -> In v allIndex0.
Proof.
  unfold regime_index. intros Hrun v Hin.
  assert (forall sampled,
             In v (fold_left (fun out it_ => out ++ [it_])
                     (set_difference (std_sort allIndex0) sampled) []) ->
             In v allIndex0) as Hdiff.
  { intros sampled Hv. rewrite push_back_all in Hv. cbn [app] in Hv.
    assert (Forall (fun x => In x (std_sort allIndex0))
              (set_difference (std_sort allIndex0) sampled)) as Hall.
    { apply set_difference_Forall, List.Forall_forall. auto. }
    rewrite List.Forall_forall in Hall. apply std_sort_In, Hall, Hv. }
  assert (forall d s',
             getOOGIndex {| oob_tree := this; outputOOBIndex := []; allIndex := allIndex0 |}
               (getGroups trainingData) d = Some s' ->
             In v (outputOOBIndex s') -> In v allIndex0) as Hgroup.
  { intros d s' Hs' Hv. unfold getOOGIndex in Hs'.
    cbn [oob_tree outputOOBIndex allIndex] in Hs'.
    destruct (insert_groups _ _ ∅) as [seen1|]; [|discriminate].
    cbn [mbind option_bind] in Hs'.
    destruct (if d then _ else _) as [seen2|]; [|discriminate].
    cbn [mbind option_bind] in Hs'.
    destruct (push_out_of_group _ _ _ _) as [out|] eqn:Hout; [|discriminate].
    cbn [mbind option_bind] in Hs'. injection Hs' as <-. cbn [outputOOBIndex] in Hv.
    apply push_out_of_group_filters in Hout. subst out. cbn [app] in Hv.
    apply filter_In in Hv as [Hv _]. apply std_sort_In, Hv. }
  destruct (negb (group0 =? 0)).
  - destruct OOBhonest; eapply Hgroup; eassumption.
  - destruct OOBhonest; [destruct doubleOOB|]; injection Hrun as <-;
      eapply Hdiff; exact Hin.
Qed.

Lemma accumulate_never_throws (use_training_idx : bool) (map_trainidx : gmap Z Z)
    (OOBIndex : list Z) (currentTreePrediction : list double) :
  (forall row, In row OOBIndex ->
               position_of use_training_idx map_trainidx row <> Throws_out_of_range) ->
  forall i outputOOBPrediction outputOOBCount,
    accumulate use_training_idx map_trainidx OOBIndex i currentTreePrediction
      outputOOBPrediction outputOOBCount <> Throws_out_of_range.
Proof.
  induction OOBIndex as [|row rest IH]; intros Hpos i P C; cbn [accumulate];
    [discriminate|].
  apply outcome_bind_never_throws; [apply defined_never_throws|]. intros p _.
  apply outcome_bind_never_throws; [apply Hpos; left; reflexivity|]. intros pos _.
  apply outcome_bind_never_throws; [apply defined_never_throws|]. intros old _.
  apply outcome_bind_never_throws; [apply defined_never_throws|]. intros count _.
  apply IH. intros; apply Hpos; right; assumption.
Qed.

(** [getOOBPrediction] throws [std::out_of_range] exactly when the group
    vector of the data is empty: the throw comes from [at(0)].  The
    look-ups [map_trainidx.at] never throw: every out-of-bag row comes from
    [training_idx], of which every entry is a key of the map. *)
Theorem getOOBPrediction_throws_iff_no_groups `{Predictor} (this : forestryTree)
    (outputOOBPrediction : list double) (outputOOBCount : list Z)
    (trainingData : DataFrame) (OOBhonest doubleOOB : bool) (nodesizeStrictAvg : Z)
    (xNew : option (list (list double))) (weightMatrix : option arma_mat)
    (training_idx : list Z) :
  getOOBPrediction this outputOOBPrediction outputOOBCount trainingData OOBhonest
    doubleOOB nodesizeStrictAvg xNew weightMatrix training_idx = Throws_out_of_range
  <-> getGroups trainingData = [].
Proof.
  unfold getOOBPrediction. split.
  - destruct (getGroups trainingData) as [|group0 groups]; [reflexivity|].
    intros Hthrow. exfalso. revert Hthrow.
    change (vat (group0 :: groups) 0) with (Some group0). cbn [checked outcome_bind].
    apply outcome_bind_never_throws; [apply defined_never_throws|].
    intros s Hs.
    destruct (regime_index _ _ _ _ _ _) as [s'|] eqn:Hregime; [|discriminate].
    injection Hs as ->.
    pose proof (regime_index_rows _ _ _ _ _ _ _ Hregime) as Hrows.
    assert (forall row, In row (outputOOBIndex s) ->
              position_of (negb (vsize training_idx =? 0))
                (if negb (vsize training_idx =? 0)
                 then fill_map_trainidx training_idx 0 ∅ else ∅) row
              <> Throws_out_of_range) as Hpos.
    { intros row Hrow. unfold position_of.
      destruct (negb (vsize training_idx =? 0)); [|discriminate].
      cbn [negb] in Hrows.
      destruct (fill_map_trainidx_holds training_idx 0 ∅ row) as [pos ->];
        [left; apply Hrows, Hrow | discriminate]. }
    apply outcome_bind_never_throws.
    { destruct (negb (vsize training_idx =? 0)) eqn:Huse; [|discriminate].
      apply for_each_never_throws. intros row Hrow.
      exact (Hpos row Hrow). }
    intros indexInTrain _.
    apply outcome_bind_never_throws.
    { apply for_each_never_throws. intros k _.
      apply for_each_never_throws. intros row Hrow.
      apply outcome_bind_never_throws; [apply defined_never_throws|]. intros column _.
      apply outcome_bind_never_throws; [apply Hpos, Hrow|]. intros pos _.
      apply defined_never_throws. }
    intros xnew _.
    apply outcome_bind_never_throws; [apply defined_never_throws|].
    intros [[[prediction ?] ?] ?] _.
    apply outcome_bind_never_throws; [apply accumulate_never_throws, Hpos|].
    intros; discriminate.
  - intros ->. reflexivity.
Qed.

Lemma nth_error_lookup {A : Type} (v : list A) (n : nat) : nth_error v n = v !! n.
Proof. revert n. induction v as [|x v IH]; intros [|n]; cbn; auto. Qed.

Lemma vat_insert {A : Type} (v : list A) (pos p : Z) (x old : A) :
  vat v pos = Some old ->
  vat (<[Z.to_nat pos := x]> v) p = if p =? pos then Some x else vat v p.
Proof.
  unfold vat. intros Hpos.
  destruct (Z.ltb_spec pos 0) as [|Hpos0]; [discriminate|].
  rewrite nth_error_lookup in Hpos. apply lookup_lt_Some in Hpos.
  destruct (Z.ltb_spec p 0) as [Hp | Hp].
  - destruct (Z.eqb_spec p pos); [lia | reflexivity].
  - rewrite !nth_error_lookup. destruct (Z.eqb_spec p pos) as [-> | Hne].
    + apply list_lookup_insert_eq. exact Hpos.
    + apply list_lookup_insert_ne. lia.
Qed.

Lemma accumulate_counts (use_training_idx : bool) (map_trainidx : gmap Z Z)
    (currentTreePrediction : list double) (OOBIndex : list Z) :
  forall i P C P' C',
    accumulate use_training_idx map_trainidx OOBIndex i currentTreePrediction P C
    = Returns (P', C') ->
    exists positions,
      for_each (position_of use_training_idx map_trainidx) OOBIndex = Returns positions
      /\ length P' = length P
      /\ length C' = length C
      /\ (forall p, vat C' p = option_map (counted (occurrences positions p)) (vat C p))
      /\ (forall p, ~ In p positions -> vat P' p = vat P p).
Proof.
  induction OOBIndex as [|row rest IH]; intros i P C P' C' Hrun;
    cbn [accumulate for_each] in *.
  - injection Hrun as <- <-. exists []. repeat split; auto.
    intros p. cbn. destruct (vat C p); reflexivity.
  - destruct (vat currentTreePrediction i) as [pred|]; [|discriminate].
    cbn [defined outcome_bind] in Hrun.
    destruct (position_of use_training_idx map_trainidx row) as [pos| |];
      [|discriminate..].
    cbn [outcome_bind] in Hrun |- *.
    destruct (vat P pos) as [old|] eqn:Hold; [|discriminate].
    cbn [defined outcome_bind] in Hrun.
    destruct (vat C pos) as [count|] eqn:Hcount; [|discriminate].
    cbn [defined outcome_bind] in Hrun.
    apply IH in Hrun as (positions & -> & HlenP & HlenC & Hcounts & Hkeeps).
    cbn [outcome_bind]. exists (pos :: positions).
    rewrite length_insert in HlenP. rewrite length_insert in HlenC.
    split; [reflexivity|]. split; [exact HlenP|]. split; [exact HlenC|]. split.
    + intros p. rewrite Hcounts, (vat_insert C pos p _ count Hcount), occurrences_cons.
      destruct (Z.eqb_spec p pos) as [-> | Hne].
      * rewrite Hcount. destruct (Z.eq_dec pos pos); [|congruence].
        cbn [option_map]. f_equal. unfold counted.
        rewrite Nat.add_1_l, Nat.iter_succ_r. reflexivity.
      * destruct (Z.eq_dec pos p); [congruence|]. reflexivity.
    + intros p Hp. rewrite Hkeeps by (intros Hin; apply Hp; right; exact Hin).
      rewrite (vat_insert P pos p _ old Hold).
      destruct (Z.eqb_spec p pos) as [-> | Hne]; [|reflexivity].
      exfalso. apply Hp. left. reflexivity.
Qed.

(** The rows that the index function of a regime appends, on an
    [allIndex] without a repeated row: no row twice, and no row of the
    averaging set. *)
Lemma regime_index_distinct (this : forestryTree) (trainingData : DataFrame)
    (OOBhonest doubleOOB : bool) (group0 : Z) (allIndex0 : list Z) (s : oob_state) :
  regime_index this trainingData OOBhonest doubleOOB group0 allIndex0 = Some s ->
  List.NoDup allIndex0 ->
  List.NoDup (outputOOBIndex s)
  /\ forall row, In row (outputOOBIndex s) -> ~ In row (_averagingSampleIndex this).
Proof.
  unfold regime_index. intros Hrun Hnd.
  assert (forall sampled,
             StronglySorted Z.le sampled ->
             (forall v, (occurrences (_averagingSampleIndex this) v
                         <= occurrences sampled v)%nat) ->
             List.NoDup (fold_left (fun out it_ => out ++ [it_])
                           (set_difference (std_sort allIndex0) sampled) [])
             /\ forall row,
                  In row (fold_left (fun out it_ => out ++ [it_])
                            (set_difference (std_sort allIndex0) sampled) []) ->
                  ~ In row (_averagingSampleIndex this)) as Hdiff.
  { intros sampled Hsorted Hle. rewrite push_back_all. cbn [app].
    assert (forall v, occurrences (set_difference (std_sort allIndex0) sampled) v
                      = (occurrences allIndex0 v - occurrences sampled v)%nat) as Hocc.
    { intros v. rewrite set_difference_occurrences, std_sort_occurrences;
        auto using std_sort_sorted. }
    destruct (difference_of_distinct _ _ _ Hnd Hocc) as [Hnd' Hin].
    split; [exact Hnd'|]. intros row Hrow Havg.
    apply Hin in Hrow as [_ Hzero].
    apply (count_occ_In Z.eq_dec) in Havg. specialize (Hle row).
    unfold occurrences in *. lia. }
  assert (forall d s',
             getOOGIndex {| oob_tree := this; outputOOBIndex := []; allIndex := allIndex0 |}
               (getGroups trainingData) d = Some s' ->
             List.NoDup (outputOOBIndex s')
             /\ forall row, In row (outputOOBIndex s') ->
                            ~ In row (_averagingSampleIndex this)) as Hgroup.
  { intros d s' Hs'. unfold getOOGIndex in Hs'.
    cbn [oob_tree outputOOBIndex allIndex with_sorted_indices _averagingSampleIndex
         _splittingSampleIndex] in Hs'.
    destruct (insert_groups _ _ ∅) as [seen1|] eqn:Hseen1; [|discriminate].
    cbn [mbind option_bind] in Hs'.
    destruct (if d then _ else _) as [seen2|] eqn:Hseen2; [|discriminate].
    cbn [mbind option_bind] in Hs'.
    destruct (push_out_of_group _ _ _ _) as [out|] eqn:Hout; [|discriminate].
    cbn [mbind option_bind] in Hs'. injection Hs' as <-. cbn [outputOOBIndex].
    apply push_out_of_group_filters in Hout. subst out. cbn [app].
    split.
    - apply List.NoDup_filter.
      eapply Permutation_NoDup; [symmetry; apply std_sort_permutation | exact Hnd].
    - intros row Hrow Havg. apply filter_In in Hrow as [_ Hrow].
      pose proof (insert_groups_collects _ _ _ _ Hseen1) as H1.
      assert (forall grp, grp ∈ seen1 -> grp ∈ seen2) as Hmono.
      { destruct d; [|injection Hseen2 as <-; auto].
        intros grp Hgrp. apply (insert_groups_collects _ _ _ _ Hseen2). left. exact Hgrp. }
      destruct (vat (getGroups trainingData) row) as [grp|] eqn:Hgrp; [|discriminate].
      assert (grp ∈ seen2) as Hseen.
      { apply Hmono, H1. right. exists row. split; [apply std_sort_In, Havg | exact Hgrp]. }
      rewrite (bool_decide_eq_true_2 _ Hseen) in Hrow. discriminate. }
  destruct (negb (group0 =? 0)).
  - destruct OOBhonest; eapply Hgroup; eassumption.
  - destruct OOBhonest; [destruct doubleOOB|]; injection Hrun as <-;
      unfold getDoubleOOBIndex, getOOBhonestIndex, getOOBindex;
      cbn [oob_tree outputOOBIndex allIndex with_sorted_indices _averagingSampleIndex
           _splittingSampleIndex];
      apply Hdiff; auto using std_sort_sorted, set_union_sorted.
    + intros v. rewrite set_union_occurrences, !std_sort_occurrences;
        auto using std_sort_sorted. lia.
    + intros v. rewrite std_sort_occurrences. lia.
    + intros v. rewrite set_union_occurrences, !std_sort_occurrences;
        auto using std_sort_sorted. lia.
Qed.

(** When [getOOBPrediction] returns, the two output vectors keep their
    lengths; the count at every position has grown by the number of
    out-of-bag rows of the regime that are at this position (as a [size_t]
    does), and the prediction at a position of no out-of-bag row is as it
    was.  Without [training_idx] the position of a row is the row, every
    out-of-bag row is counted once, and no row that the tree averaged over
    is among them: such a row keeps its prediction and its count. *)
Theorem getOOBPrediction_counts_the_oob_rows `{Predictor} (this : forestryTree)
    (outputOOBPrediction : list double) (outputOOBCount : list Z)
    (trainingData : DataFrame) (OOBhonest doubleOOB : bool) (nodesizeStrictAvg : Z)
    (xNew : option (list (list double))) (weightMatrix : option arma_mat)
    (training_idx : list Z) (r : oob_prediction) :
  getOOBPrediction this outputOOBPrediction outputOOBCount trainingData OOBhonest
    doubleOOB nodesizeStrictAvg xNew weightMatrix training_idx = Returns r ->
  exists group0 s positions,
    vat (getGroups trainingData) 0 = Some group0
    /\ regime_index this trainingData OOBhonest doubleOOB group0
         (if vsize training_idx =? 0
          then seqZ 0 (getNumRows trainingData) else training_idx) = Some s
    /\ p_tree r = oob_tree s
    /\ for_each (position_of (negb (vsize training_idx =? 0))
                   (fill_map_trainidx training_idx 0 ∅))
         (outputOOBIndex s) = Returns positions
    /\ length (p_outputOOBPrediction r) = length outputOOBPrediction
    /\ length (p_outputOOBCount r) = length outputOOBCount
    /\ (forall p, vat (p_outputOOBCount r) p
                  = option_map (counted (occurrences positions p)) (vat outputOOBCount p))
    /\ (forall p, ~ In p positions ->
                  vat (p_outputOOBPrediction r) p = vat outputOOBPrediction p)
    /\ (training_idx = [] ->
        positions = outputOOBIndex s
        /\ List.NoDup positions
        /\ forall row, In row (_averagingSampleIndex this) ->
             ~ In row positions
             /\ vat (p_outputOOBPrediction r) row = vat outputOOBPrediction row
             /\ vat (p_outputOOBCount r) row = vat outputOOBCount row).
Proof.
  unfold getOOBPrediction. intros Hrun.
  destruct (vat (getGroups trainingData) 0) as [group0|]; [|discriminate].
  cbn [checked outcome_bind] in Hrun.
  assert (forall rows,
            for_each (position_of (negb (vsize training_idx =? 0))
                        (if negb (vsize training_idx =? 0)
                         then fill_map_trainidx training_idx 0 ∅ else ∅)) rows
            = for_each (position_of (negb (vsize training_idx =? 0))
                          (fill_map_trainidx training_idx 0 ∅)) rows) as Hsame.
  { intros rows. destruct (vsize training_idx =? 0); reflexivity. }
  assert ((if negb (negb (vsize training_idx =? 0))
           then seqZ 0 (getNumRows trainingData) else training_idx)
          = (if vsize training_idx =? 0
             then seqZ 0 (getNumRows trainingData) else training_idx)) as Hall
    by (destruct (vsize training_idx =? 0); reflexivity).
  rewrite Hall in Hrun. clear Hall.
  destruct (regime_index _ _ _ _ _ _) as [s|] eqn:Hregime; [|discriminate].
  cbn [defined outcome_bind] in Hrun.
  destruct (if negb (vsize training_idx =? 0) then for_each _ _ else _)
    as [indexInTrain| |]; [|discriminate..].
  cbn [outcome_bind] in Hrun.
  destruct (for_each _ (seqZ 0 (getNumColumns trainingData))) as [xnew| |];
    [|discriminate..].
  cbn [outcome_bind] in Hrun.
  destruct (predict _ _ _ _ _ _ _ _ _ _ _ _) as [[[[prediction ?] ?] W']|];
    [|discriminate].
  cbn [defined outcome_bind] in Hrun.
  destruct (accumulate _ _ _ _ _ _ _) as [[P' C']| |] eqn:Hacc; [|discriminate..].
  cbn [outcome_bind] in Hrun. injection Hrun as <-.
  cbn [p_tree p_outputOOBPrediction p_outputOOBCount fst snd].
  apply accumulate_counts in Hacc as (positions & Hpos & HlenP & HlenC & Hcounts & Hkeeps).
  rewrite Hsame in Hpos.
  exists group0, s, positions.
  repeat (split; [reflexivity || assumption|]).
  intros ->. change (vsize [] =? 0) with true in *. cbn [negb] in Hpos.
  unfold position_of in Hpos. rewrite for_each_Returns, map_id in Hpos.
  injection Hpos as <-.
  assert (List.NoDup (seqZ 0 (getNumRows trainingData))) as Hnd
    by apply NoDup_ListNoDup, NoDup_seqZ.
  destruct (regime_index_distinct _ _ _ _ _ _ _ Hregime Hnd) as [Hdistinct Hskip].
  split; [reflexivity|]. split; [exact Hdistinct|].
  intros row Hrow.
  assert (~ In row (outputOOBIndex s)) as Hout by (intros Hin; exact (Hskip row Hin Hrow)).
  split; [exact Hout|]. split; [apply Hkeeps, Hout|].
  rewrite Hcounts. apply (count_occ_not_In Z.eq_dec) in Hout.
  unfold occurrences. rewrite Hout. cbn. destruct (vat outputOOBCount row); reflexivity.
Qed.

Lemma getOOBPrediction_counts_the_oob_rows_witness :
  @getOOBPrediction unit_predictor (tree_with_indices [1; 0] [2]) (repeat 0%float 10)
    (repeat 0 10) S1_data false false 1 None None [] = Returns S1_oob_prediction
  /\ exists group0 s positions,
       vat (getGroups S1_data) 0 = Some group0
       /\ regime_index (tree_with_indices [1; 0] [2]) S1_data false false group0
            (seqZ 0 (getNumRows S1_data)) = Some s
       /\ p_tree S1_oob_prediction = oob_tree s
       /\ for_each (position_of false ∅) (outputOOBIndex s) = Returns positions
       /\ (forall p, vat (p_outputOOBCount S1_oob_prediction) p
                     = option_map (counted (occurrences positions p))
                         (vat (repeat 0 10) p))
       /\ positions = outputOOBIndex s.
Proof.
  assert (@getOOBPrediction unit_predictor (tree_with_indices [1; 0] [2])
            (repeat 0%float 10) (repeat 0 10) S1_data false false 1 None None []
          = Returns S1_oob_prediction) as Hrun by (vm_compute; reflexivity).
  split; [exact Hrun|].
  destruct (@getOOBPrediction_counts_the_oob_rows unit_predictor _ _ _ _ _ _ _ _ _ _ _ Hrun)
    as (group0 & s & positions & Hgroup & Hregime & Htree & Hpos & _ & _ & Hcount & _
        & Hplain).
  exists group0, s, positions.
  split; [exact Hgroup|]. split; [exact Hregime|]. split; [exact Htree|].
  split; [exact Hpos|]. split; [exact Hcount|]. exact (proj1 (Hplain eq_refl)).
Defined.

(** ** Ridge accumulators *)

Lemma outer_product_shape (x : arma_col) :
  length (outer_product x) = length x
  /\ Forall (fun row => length row = length x) (outer_product x).
Proof.
  unfold outer_product. split; [apply length_map|].
  apply List.Forall_forall. intros row Hrow. apply in_map_iff in Hrow as (a & <- & _).
  apply length_map.
Qed.

Lemma mat_add_shape (n : nat) (a b : arma_mat) :
  length a = n -> Forall (fun row => length row = n) a ->
  length b = n -> Forall (fun row => length row = n) b ->
  length (mat_add a b) = n /\ Forall (fun row => length row = n) (mat_add a b).
Proof.
  unfold mat_add. intros Ha Hra Hb Hrb. split; [rewrite length_zip_with; lia|].
  clear Ha Hb. revert b Hrb.
  induction Hra as [|ra a Hlen _ IH]; intros b Hrb; [constructor|].
  destruct Hrb as [|rb b Hlenb Hrb]; [constructor|].
  cbn [zip_with]. constructor; [rewrite length_zip_with; lia | apply IH, Hrb].
Qed.

(** [initializelinear] keeps the shape of the accumulators: when every
    splitting row after the first has one linear feature less than [sTotal]
    has entries (the trailing 1 comes on top), [gTotal] comes out square
    with as many rows and columns as [sTotal] had entries, and [sTotal]
    with as many entries as it had. *)
Theorem initializelinear_keeps_the_shape (data : DataFrame) (sTotal : arma_col)
    (numLinearFeatures : Z) (splitIndexes : list Z) (gTotal' : arma_mat)
    (sTotal' : arma_col) :
  Forall (fun idx => S (length (getLinObsData data idx)) = length sTotal)
         (tail splitIndexes) ->
  initializelinear data sTotal numLinearFeatures splitIndexes = Some (gTotal', sTotal') ->
  length gTotal' = length sTotal
  /\ Forall (fun row => length row = length sTotal) gTotal'
  /\ length sTotal' = length sTotal.
Proof.
  unfold initializelinear. intros Hrows Hrun.
  destruct (vat splitIndexes 0) as [first|]; [|discriminate].
  cbn [mbind option_bind] in Hrun. injection Hrun as Hfold.
  set (n := length sTotal) in *.
  assert (forall rest g s,
            Forall (fun idx => S (length (getLinObsData data idx)) = n) rest ->
            length g = n -> Forall (fun row => length row = n) g -> length s = n ->
            forall g' s',
              fold_left
                (fun '(gTotal, sTotal) idx =>
                   let tempOb := getLinObsData data idx ++ [1%float] in
                   (mat_add gTotal (outer_product tempOb),
                    col_add sTotal (col_scale (getOutcomePoint data idx) tempOb)))
                rest (g, s) = (g', s') ->
              length g' = n /\ Forall (fun row => length row = n) g' /\ length s' = n)
    as Hloop.
  { induction rest as [|idx rest IH]; intros g s Hrest Hg Hgr Hs g' s' Hrun;
      cbn [fold_left] in Hrun.
    - injection Hrun as <- <-. auto.
    - apply Forall_cons_1 in Hrest as [Hidx Hrest].
      assert (length (getLinObsData data idx ++ [1%float]) = n) as Hob
        by (rewrite length_app; cbn; lia).
      destruct (outer_product_shape (getLinObsData data idx ++ [1%float])) as [Ho1 Ho2].
      rewrite Hob in Ho1, Ho2.
      destruct (mat_add_shape n g _ Hg Hgr Ho1 Ho2) as [Hm1 Hm2].
      apply (IH _ _ Hrest Hm1 Hm2) in Hrun; [exact Hrun|].
      unfold col_add, col_scale. rewrite length_zip_with, length_map. lia. }
  destruct (outer_product_shape sTotal) as [Ho1 Ho2].
  apply (Hloop _ _ _ Hrows Ho1 Ho2) in Hfold; [exact Hfold|].
  unfold col_scale. apply length_map.
Qed.

Lemma initializelinear_keeps_the_shape_witness :
  Forall (fun idx => S (length (getLinObsData S1_data idx)) = length [1%float])
         (tail [0; 1; 2])
  /\ initializelinear S1_data [1%float] 0 [0; 1; 2] = Some ([[3%float]], [6%float])
  /\ length [[3%float]] = length [1%float]
  /\ Forall (fun row => length row = length [1%float]) [[3%float]]
  /\ length [6%float] = length [1%float].
Proof.
  assert (Forall (fun idx => S (length (getLinObsData S1_data idx)) = length [1%float])
            (tail [0; 1; 2])) as Hrows by (repeat constructor).
  assert (initializelinear S1_data [1%float] 0 [0; 1; 2] = Some ([[3%float]], [6%float]))
    as Hrun by (vm_compute; reflexivity).
  split; [exact Hrows|]. split; [exact Hrun|].
  exact (initializelinear_keeps_the_shape S1_data [1%float] 0 [0; 1; 2] _ _ Hrows Hrun).
Defined.

(** ** What the constructor stores *)

(** A tree the constructor built holds its arguments as they were given:
    the sizes, the gain, the depths, the two flags on NA, the penalty and
    the seed, and the two index vectors in the order and with the
    repetitions they came in.  It does not hold [linear]: the constructor
    never assigns [_linear], which stays what the object held before. *)
Theorem constructor_stores_its_arguments_except_linear `{Collaborators} (fuel : nat)
    (this0 : forestryTree) (a : tree_args) (g g' : mt19937_64) (t : forestryTree) :
  forestryTree_ctor fuel this0 a g = Built t g' ->
  _mtry t = mtry a
  /\ _minNodeSizeSpt t = minNodeSizeSpt a
  /\ _minNodeSizeAvg t = minNodeSizeAvg a
  /\ _minNodeSizeToSplitSpt t = minNodeSizeToSplitSpt a
  /\ _minNodeSizeToSplitAvg t = minNodeSizeToSplitAvg a
  /\ _minSplitGain t = minSplitGain a
  /\ _maxDepth t = maxDepth a
  /\ _interactionDepth t = interactionDepth a
  /\ _averagingSampleIndex t = averagingIndexArg a
  /\ _splittingSampleIndex t = splittingIndexArg a
  /\ _hasNas t = hasNas a
  /\ _naDirection t = naDirection a
  /\ _overfitPenalty t = overfitPenalty a
  /\ _seed t = seedArg a
  /\ _linear t = _linear this0.
Proof.
  unfold forestryTree_ctor, grow. intros Hrun.
  repeat (case_match; simplify_option_eq); cbn; repeat split; reflexivity.
Qed.

Lemma constructor_stores_its_arguments_except_linear_witness :
  @forestryTree_ctor (scripted_with 1.5%float) 5 blank_tree na_args 0
  = @Built (scripted_with 1.5%float) na_tree 0
  /\ linear na_args = true
  /\ _linear na_tree = _linear blank_tree
  /\ _averagingSampleIndex na_tree = averagingIndexArg na_args.
Proof.
  assert (@forestryTree_ctor (scripted_with 1.5%float) 5 blank_tree na_args 0
          = @Built (scripted_with 1.5%float) na_tree 0)
    as Hrun by (vm_compute; reflexivity).
  split; [exact Hrun|]. split; [reflexivity|].
  pose proof (@constructor_stores_its_arguments_except_linear (scripted_with 1.5%float)
                5 blank_tree na_args 0 0 na_tree Hrun) as Hstored.
  split; [apply Hstored|]. apply Hstored.
Defined.

(** ** Routing rows down a tree *)

Lemma splitData_without_na (data : DataFrame) (avg spt : list Z) (f : Z) (v : double)
    (d : Z) (cat : bool) :
  splitData data avg spt f v d [] [] [] [] 0 0 cat false
  = {| averagingLeftPartitionIndex := List.filter (value_goes_left data f v cat) avg;
       averagingRightPartitionIndex :=
         List.filter (fun it => negb (value_goes_left data f v cat it)) avg;
       splittingLeftPartitionIndex := List.filter (value_goes_left data f v cat) spt;
       splittingRightPartitionIndex :=
         List.filter (fun it => negb (value_goes_left data f v cat it)) spt;
       naLeftCountOut := 0;
       naRightCountOut := 0 |}.
Proof.
  unfold splitData, splitDataIntoTwoParts. rewrite !route_plain_fold. reflexivity.
Qed.

Lemma recursivePartition_routes `{Collaborators} (this : forestryTree)
    (fuel : nat) (nc : Z) (avg spt : list Z) (data : DataFrame) (g : mt19937_64)
    (depth : Z) (splitMiddle : bool) (maxObs : Z) (linear : bool) (pen : double)
    (gtotal : option arma_mat) (stotal : option arma_col) (ms : bool)
    (md : monotonic_info) (naDirection : bool) (node : RFNode) (nc' : Z)
    (g' : mt19937_64) :
  _hasNas this = false ->
  recursivePartition fuel this nc avg spt data g depth splitMiddle maxObs linear
    pen gtotal stotal ms md naDirection = Some (node, nc', g') ->
  leaf_averageCounts node = map vsize (rows_at_leaves data node avg)
  /\ leaf_splitCounts node = map vsize (rows_at_leaves data node spt)
  /\ leaf_weights node = map (partitionMean data) (rows_at_leaves data node avg).
Proof.
  intros Hno.
  apply (recursivePartition_node_ind this data linear pen naDirection
           (fun avg spt node =>
              leaf_averageCounts node = map vsize (rows_at_leaves data node avg)
              /\ leaf_splitCounts node = map vsize (rows_at_leaves data node spt)
              /\ leaf_weights node
                 = map (partitionMean data) (rows_at_leaves data node avg))).
  - intros. cbn. repeat split; reflexivity.
  - intros avg0 spt0 f v d l r parts Hparts _ _ _ _ _ _ _
      (Hla & Hls & Hlw) (Hra & Hrs & Hrw).
    rewrite Hno, splitData_without_na in Hparts. subst parts.
    cbn [averagingLeftPartitionIndex averagingRightPartitionIndex
         splittingLeftPartitionIndex splittingRightPartitionIndex] in *.
    cbn [leaf_averageCounts leaf_splitCounts leaf_weights rows_at_leaves].
    rewrite !map_app, Hla, Hls, Hlw, Hra, Hrs, Hrw. repeat split; reflexivity.
Qed.

(** With [hasNas] off, what the leaves of a built tree hold is what the
    splits of the tree give.  Send the rows of the averaging set down the
    tree by the split feature and the split value of each split node
    (equal goes left at a categorical feature, below goes left at any
    other): every leaf holds as its averaging count the number of rows that
    reach it, and as its weight the mean [partitionMean] of exactly these
    rows; its splitting count is the number of rows of the splitting set
    that reach it.  The splitting rows enter no weight. *)
Theorem leaves_hold_the_rows_routed_to_them `{Collaborators} (fuel : nat)
    (this0 : forestryTree) (a : tree_args) (g g' : mt19937_64) (t : forestryTree) :
  hasNas a = false ->
  forestryTree_ctor fuel this0 a g = Built t g' ->
  exists root,
    _root t = Some root
    /\ leaf_averageCounts root
       = map vsize (rows_at_leaves (trainingData a) root (averagingIndexArg a))
    /\ leaf_splitCounts root
       = map vsize (rows_at_leaves (trainingData a) root (splittingIndexArg a))
    /\ leaf_weights root
       = map (partitionMean (trainingData a))
           (rows_at_leaves (trainingData a) root (averagingIndexArg a)).
Proof.
  unfold forestryTree_ctor, grow. intros Hno Hrun.
  repeat (case_match; simplify_option_eq).
  all: match goal with
       | Hr : recursivePartition _ _ _ _ _ _ _ _ _ _ _ _ _ _ _ _ _ = Some _ |- _ =>
           apply recursivePartition_routes in Hr; [|exact Hno]
       end.
  all: eexists; split; [reflexivity|]; cbn in *; assumption.
Qed.

Lemma leaves_hold_the_rows_routed_to_them_witness :
  hasNas S1_args = false
  /\ @forestryTree_ctor scripted 5 blank_tree S1_args 0 = @Built scripted S1_tree 0
  /\ exists root,
       _root S1_tree = Some root
       /\ leaf_averageCounts root
          = map vsize (rows_at_leaves (trainingData S1_args) root (averagingIndexArg S1_args))
       /\ leaf_splitCounts root
          = map vsize (rows_at_leaves (trainingData S1_args) root (splittingIndexArg S1_args))
       /\ leaf_weights root
          = map (partitionMean (trainingData S1_args))
              (rows_at_leaves (trainingData S1_args) root (averagingIndexArg S1_args)).
Proof.
  assert (hasNas S1_args = false) as Hno by reflexivity.
  assert (@forestryTree_ctor scripted 5 blank_tree S1_args 0 = @Built scripted S1_tree 0)
    as Hrun by (vm_compute; reflexivity).
  split; [exact Hno|]. split; [exact Hrun|].
  exact (@leaves_hold_the_rows_routed_to_them scripted 5 blank_tree S1_args
           0 0 S1_tree Hno Hrun).
Defined.

(** ** The sizes of the nodes that are split *)

Lemma recursivePartition_split_sizes `{Collaborators} (this : forestryTree)
    (fuel : nat) (nc : Z) (avg spt : list Z) (data : DataFrame) (g : mt19937_64)
    (depth : Z) (splitMiddle : bool) (maxObs : Z) (linear : bool) (pen : double)
    (gtotal : option arma_mat) (stotal : option arma_col) (ms : bool)
    (md : monotonic_info) (naDirection : bool) (node : RFNode) (nc' : Z)
    (g' : mt19937_64) :
  _hasNas this = false ->
  recursivePartition fuel this nc avg spt data g depth splitMiddle maxObs linear
    pen gtotal stotal ms md naDirection = Some (node, nc', g') ->
  averageCount_total node = vsize avg
  /\ splitCount_total node = vsize spt
  /\ Forall (split_node_is_large_enough (_minNodeSizeAvg this) (_minNodeSizeSpt this))
            (nodes node).
Proof.
  intros Hno.
  apply (recursivePartition_node_ind this data linear pen naDirection
           (fun avg spt node =>
              averageCount_total node = vsize avg
              /\ splitCount_total node = vsize spt
              /\ Forall (split_node_is_large_enough (_minNodeSizeAvg this)
                           (_minNodeSizeSpt this)) (nodes node))).
  - intros. cbn. repeat split. constructor; [exact I | constructor].
  - intros avg0 spt0 f v d l r parts Hparts Havg Hspt _ _ _ _ _
      (Hla & Hls & Hl) (Hra & Hrs & Hr).
    apply splitData_sizes in Hparts as (Ha & Hs & _ & _).
    rewrite Hno in Ha, Hs. cbn [andb] in Ha, Hs.
    cbn [averageCount_total splitCount_total nodes].
    split; [lia|]. split; [lia|].
    constructor; [|apply Forall_app; split; assumption].
    cbn [split_node_is_large_enough averageCount_total splitCount_total]. lia.
Qed.

(** With [hasNas] off, no node with fewer than [minNodeSizeAvg] averaging
    rows or fewer than [minNodeSizeSpt] splitting rows is ever split: the
    leaves below every split node of a built tree hold together at least
    [minNodeSizeAvg] averaging rows and at least [minNodeSizeSpt] splitting
    rows.  (A leaf may hold fewer: the sizes of the two parts of a split
    are left to the split kernels.) *)
Theorem no_node_below_the_minimum_sizes_is_split `{Collaborators} (fuel : nat)
    (this0 : forestryTree) (a : tree_args) (g g' : mt19937_64) (t : forestryTree) :
  hasNas a = false ->
  forestryTree_ctor fuel this0 a g = Built t g' ->
  exists root,
    _root t = Some root
    /\ Forall (split_node_is_large_enough (minNodeSizeAvg a) (minNodeSizeSpt a))
              (nodes root).
Proof.
  unfold forestryTree_ctor, grow. intros Hno Hrun.
  repeat (case_match; simplify_option_eq).
  all: match goal with
       | Hr : recursivePartition _ _ _ _ _ _ _ _ _ _ _ _ _ _ _ _ _ = Some _ |- _ =>
           apply recursivePartition_split_sizes in Hr as (_ & _ & Hr); [|exact Hno]
       end.
  all: eexists; split; [reflexivity|]; cbn in *; assumption.
Qed.

Lemma no_node_below_the_minimum_sizes_is_split_witness :
  hasNas S1_args = false
  /\ @forestryTree_ctor scripted 5 blank_tree S1_args 0 = @Built scripted S1_tree 0
  /\ exists root,
       _root S1_tree = Some root
       /\ Forall (split_node_is_large_enough (minNodeSizeAvg S1_args)
                    (minNodeSizeSpt S1_args)) (nodes root).
Proof.
  assert (hasNas S1_args = false) as Hno by reflexivity.
  assert (@forestryTree_ctor scripted 5 blank_tree S1_args 0 = @Built scripted S1_tree 0)
    as Hrun by (vm_compute; reflexivity).
  split; [exact Hno|]. split; [exact Hrun|].
  exact (@no_node_below_the_minimum_sizes_is_split scripted 5 blank_tree S1_args
           0 0 S1_tree Hno Hrun).
Defined.

(** ** The map from training rows to positions *)

Lemma fill_map_trainidx_lookup (training_idx : list Z) :
  forall i0 map_trainidx x p,
    fill_map_trainidx training_idx i0 map_trainidx !! x = Some p
    <-> (exists k : nat,
            p = i0 + Z.of_nat k
            /\ training_idx !! k = Some x
            /\ forall j : nat, (k < j)%nat -> training_idx !! j <> Some x)
        \/ (~ In x training_idx /\ map_trainidx !! x = Some p).
Proof.
  induction training_idx as [|y rest IH]; intros i0 m x p; cbn [fill_map_trainidx].
  - split.
    + intros Hm. right. split; [intros []|exact Hm].
    + intros [(k & _ & Hk & _) | [_ Hm]]; [discriminate|exact Hm].
  - rewrite IH. split.
    + intros [(k & -> & Hk & Hlast) | [Hnot Hm]].
      * left. exists (S k). split; [lia|]. split; [exact Hk|].
        intros [|j] Hj; [lia|]. cbn. apply Hlast. lia.
      * destruct (decide (y = x)) as [-> | Hne].
        -- rewrite lookup_insert_eq in Hm. injection Hm as <-.
           left. exists 0%nat. split; [lia|]. split; [reflexivity|].
           intros [|j] Hj; [lia|]. cbn. intros Hin. apply Hnot.
           apply list_elem_of_lookup_2 in Hin. apply list_elem_of_In. exact Hin.
        -- rewrite lookup_insert_ne in Hm by exact Hne.
           right. split; [|exact Hm]. intros [Heq | Hin]; [congruence | exact (Hnot Hin)].
    + intros [(k & -> & Hk & Hlast) | [Hnot Hm]].
      * destruct k as [|k].
        -- cbn in Hk. injection Hk as ->. right. split.
           ++ intros Hin. apply list_elem_of_In, list_elem_of_lookup_1 in Hin as [j Hj].
              apply (Hlast (S j)); [lia | exact Hj].
           ++ rewrite lookup_insert_eq. f_equal. lia.
        -- left. exists k. split; [lia|]. split; [exact Hk|].
           intros j Hj. apply (Hlast (S j)). lia.
      * right. split; [intros Hin; apply Hnot; right; exact Hin|].
        rewrite lookup_insert_ne; [exact Hm|]. intros ->. apply Hnot. left. reflexivity.
Qed.

(** The map that [getOOBPrediction] builds from [training_idx] holds
    exactly the rows of [training_idx], and sends each to the last position
    at which it occurs there: a later entry of [training_idx] overwrites an
    earlier one. *)
Theorem map_trainidx_holds_the_last_position (training_idx : list Z) (x p : Z) :
  fill_map_trainidx training_idx 0 ∅ !! x = Some p
  <-> vat training_idx p = Some x
      /\ forall j, p < j -> vat training_idx j <> Some x.
Proof.
  rewrite fill_map_trainidx_lookup. unfold vat. split.
  - intros [(k & -> & Hk & Hlast) | [_ Hm]]; [|rewrite lookup_empty in Hm; discriminate].
    rewrite Z.add_0_l. split.
    + destruct (Z.ltb_spec (Z.of_nat k) 0) as [|_]; [lia|].
      rewrite Nat2Z.id, nth_error_lookup. exact Hk.
    + intros j Hj. destruct (Z.ltb_spec j 0) as [|_]; [discriminate|].
      rewrite nth_error_lookup. apply Hlast. lia.
  - intros [Hp Hlast]. left.
    destruct (Z.ltb_spec p 0) as [|Hp0]; [discriminate|].
    exists (Z.to_nat p). split; [lia|]. rewrite nth_error_lookup in Hp.
    split; [exact Hp|]. intros j Hj Hx.
    apply (Hlast (Z.of_nat j)); [lia|].
    destruct (Z.ltb_spec (Z.of_nat j) 0) as [|_]; [lia|].
    rewrite Nat2Z.id, nth_error_lookup. exact Hx.
Qed.
